(** * A model of [war_room/scraper/scrape_engine.py] and of
      [bot/telegram_bot.py]

    The scrape engine fetches product listings from three marketplaces,
    normalises them into [Product] records, appends them to an SQLite table
    and a CSV export, and flags price drops against a rolling mean.

    The development follows the module top to bottom:
    - [Float]    : Python floats as IEEE 754 binary64 values;
    - [Py]       : the dynamically typed values that [json.loads] yields and
                   the few built-in operations the engine applies to them;
    - [DateTime] : naive [datetime] values and [isoformat];
    - [Json]     : [json.dumps(..., ensure_ascii=False)] and the reader for
                   string-to-string objects;
    - [Engine]   : the engine itself, written in a small state-and-exception
                   monad over a [World] that holds the log, the clock, the
                   products table and the export file.
    After the engine come the read of the store that the round trip needs,
    the observations in which the theorems are stated, and example data;
    then [Bot], the alert bot of [bot/telegram_bot.py], which calls the
    detector of the engine and posts what it finds.

    Definitions come first; the lemmas and the theorems about them follow. *)

From Stdlib Require Import ZArith List String Ascii Bool Lia DecimalString.
From Stdlib Require Import Floats.SpecFloat.
From Stdlib Require Import Sorting.Permutation Sorting.Sorted.
Import ListNotations.

Set Warnings "-register-all".

Open Scope Z_scope.
Open Scope string_scope.

(* ================================================================== *)
(** * Part I. Definitions                                              *)
(* ================================================================== *)

(** ** Python floats: IEEE 754 binary64 *)

Module Float.

Definition float : Type := spec_float.

Definition prec : Z := 53.
Definition emax : Z := 1024.

Definition zero : float := S754_zero false.
Definition nan : float := S754_nan.

Definition add : float -> float -> float := SFadd prec emax.
Definition sub : float -> float -> float := SFsub prec emax.
Definition div : float -> float -> float := SFdiv prec emax.

(** Round-to-nearest-even conversion of an integer. *)
Definition of_Z (z : Z) : float := binary_normalize prec emax z 0 false.

(** [a <= b], [a < b] and [a >= b]; every comparison with NaN is false. *)
Definition leb (a b : float) : bool := SFleb a b.
Definition ltb (a b : float) : bool := SFltb a b.
Definition geb (a b : float) : bool := SFleb b a.

Definition is_nan (f : float) : bool :=
  match f with S754_nan => true | _ => false end.

Definition is_zero (f : float) : bool :=
  match f with S754_zero _ => true | _ => false end.

Definition is_inf (f : float) : bool :=
  match f with S754_infinity _ => true | _ => false end.

(** The values that are binary64 numbers (canonical mantissa, exponent in
    range). *)
Definition valid (f : float) : bool := valid_binary prec emax f.

Definition one : float := S754_finite false 4503599627370496 (-52).

(** The sign of a number; NaN has none. *)
Definition has_sign (s : bool) (f : float) : Prop :=
  match f with
  | S754_zero s' | S754_infinity s' | S754_finite s' _ _ => s' = s
  | S754_nan => False
  end.

End Float.

Definition float : Type := Float.float.

(** ** Python values and built-in operations *)

Module Py.

(** What [json.loads] can return, which is also everything the adapters
    store in a [Product]. A [dict] keeps its insertion order. *)
Inductive value : Type :=
| VNone
| VBool (b : bool)
| VInt (z : Z)
| VFloat (f : float)
| VStr (s : string)
| VList (l : list value)
| VDict (d : list (string * value)).

(** The exception classes the engine can meet. All derive from
    [Exception]. *)
Inductive exn : Type :=
| JSONDecodeError
| AttributeError
| TypeError
| ValueError
| OverflowError
| InterfaceError
| OperationalError.

Definition exn_eqb (a b : exn) : bool :=
  match a, b with
  | JSONDecodeError, JSONDecodeError
  | AttributeError, AttributeError
  | TypeError, TypeError
  | ValueError, ValueError
  | OverflowError, OverflowError
  | InterfaceError, InterfaceError
  | OperationalError, OperationalError => true
  | _, _ => false
  end.

Definition exn_name (e : exn) : string :=
  match e with
  | JSONDecodeError => "JSONDecodeError"
  | AttributeError => "AttributeError"
  | TypeError => "TypeError"
  | ValueError => "ValueError"
  | OverflowError => "OverflowError"
  | InterfaceError => "InterfaceError"
  | OperationalError => "OperationalError"
  end.

(** The result of a pure expression that may raise. *)
Inductive result (A : Type) : Type :=
| Ok (a : A)
| Raise (e : exn).
Arguments Ok {A} a.
Arguments Raise {A} e.

Definition rbind {A B} (r : result A) (k : A -> result B) : result B :=
  match r with
  | Ok a => k a
  | Raise e => Raise e
  end.

Notation "x <~ r1 ;; r2" := (rbind r1 (fun x => r2))
  (at level 61, r1 at next level, right associativity).

Definition is_ok {A} (r : result A) : bool :=
  match r with Ok _ => true | Raise _ => false end.

(** [d[k]] on the association list of a dict. *)
Fixpoint dict_lookup (d : list (string * value)) (k : string) : option value :=
  match d with
  | [] => None
  | (k', v) :: d' => if String.eqb k' k then Some v else dict_lookup d' k
  end.

(** [x.get(k, default)]: only dicts have [get]. *)
Definition get (x : value) (k : string) (default : value) : result value :=
  match x with
  | VDict d =>
      Ok (match dict_lookup d k with Some v => v | None => default end)
  | _ => Raise AttributeError
  end.

(** [bool(x)] as [if x:] and [if not x:] use it. *)
Definition truthy (x : value) : bool :=
  match x with
  | VNone => false
  | VBool b => b
  | VInt z => negb (Z.eqb z 0)
  | VFloat f => negb (Float.is_zero f)
  | VStr s => negb (String.eqb s "")
  | VList l => match l with [] => false | _ => true end
  | VDict d => match d with [] => false | _ => true end
  end.

Definition chars (s : string) : list value :=
  map (fun c => VStr (String c "")) (list_ascii_of_string s).

(** [for item in x]: a list yields its elements, a dict its keys, a string
    its characters; anything else is not iterable. *)
Definition iter (x : value) : result (list value) :=
  match x with
  | VList l => Ok l
  | VDict d => Ok (map (fun kv => VStr (fst kv)) d)
  | VStr s => Ok (chars s)
  | _ => Raise TypeError
  end.

(** The number of elements [l[:n]] keeps out of [len]: a negative [n]
    counts from the end. *)
Definition slice_stop (len : nat) (n : Z) : nat :=
  if Z.ltb n 0 then Z.to_nat (Z.of_nat len + n) else Z.to_nat n.

Definition substring_to (n : nat) (s : string) : string :=
  string_of_list_ascii (firstn n (list_ascii_of_string s)).

(** [x[:n]]: lists and strings are sliced, a dict key cannot be a slice,
    scalars are not subscriptable. *)
Definition slice_to (x : value) (n : Z) : result value :=
  match x with
  | VList l => Ok (VList (firstn (slice_stop (List.length l) n) l))
  | VStr s => Ok (VStr (substring_to (slice_stop (String.length s) n) s))
  | _ => Raise TypeError
  end.

(** [float(i)] for an int: overflow raises. *)
Definition float_of_int (z : Z) : result float :=
  let f := Float.of_Z z in
  if Float.is_inf f then Raise OverflowError else Ok f.

(** [x / y] for a float [y] that is not zero: ints and bools are
    converted, other operand types are a [TypeError]. *)
Definition truediv (x : value) (y : float) : result float :=
  match x with
  | VFloat f => Ok (Float.div f y)
  | VInt z => rbind (float_of_int z) (fun f => Ok (Float.div f y))
  | VBool b => Ok (Float.div (Float.of_Z (if b then 1 else 0)) y)
  | _ => Raise TypeError
  end.

(** [x == s] for a string literal [s]. *)
Definition eq_str (x : value) (s : string) : bool :=
  match x with
  | VStr t => String.eqb t s
  | _ => false
  end.

Definition is_dict (x : value) : bool :=
  match x with VDict _ => true | _ => false end.

(** [str(i)] for an int. *)
Definition str_of_int (z : Z) : string := NilZero.string_of_int (Z.to_int z).

(** [s.replace(old, "")] for a non-empty [old]: every occurrence, scanning
    left to right. *)
Fixpoint strip_prefix (p s : string) : option string :=
  match p, s with
  | EmptyString, _ => Some s
  | String a p', String b s' =>
      if Ascii.eqb a b then strip_prefix p' s' else None
  | String _ _, EmptyString => None
  end.

Fixpoint remove_all_fuel (fuel : nat) (old s : string) : string :=
  match fuel with
  | O => s
  | S fuel' =>
      match strip_prefix old s with
      | Some rest => remove_all_fuel fuel' old rest
      | None =>
          match s with
          | EmptyString => EmptyString
          | String c s' => String c (remove_all_fuel fuel' old s')
          end
      end
  end.

(** Each step consumes at least one character when [old] is not empty, so
    [length s + 1] steps always reach the end of [s]. *)
Definition remove_all (old s : string) : string :=
  remove_all_fuel (S (String.length s)) old s.

End Py.

Export Py.

(** ** Naive datetimes and [isoformat] *)

Module DateTime.

(** A [datetime.datetime] without time zone, as [datetime.utcnow()]
    returns it. *)
Record datetime : Type := mkDateTime {
  year : Z;
  month : Z;
  day : Z;
  hour : Z;
  minute : Z;
  second : Z;
  microsecond : Z
}.

Definition between (lo x hi : Z) : bool := Z.leb lo x && Z.leb x hi.

(** The field ranges the [datetime] class enforces (the length of the month
    is not tracked). *)
Definition valid (d : datetime) : bool :=
  between 1 (year d) 9999 && between 1 (month d) 12 && between 1 (day d) 31 &&
  between 0 (hour d) 23 && between 0 (minute d) 59 &&
  between 0 (second d) 59 && between 0 (microsecond d) 999999.

Definition digit (n : Z) : ascii := ascii_of_nat (Z.to_nat (48 + n mod 10)).

(** ["%0wd" % n] for a field that fits in [w] digits. *)
Fixpoint pad (w : nat) (n : Z) : string :=
  match w with
  | O => EmptyString
  | S w' => pad w' (n / 10) ++ String (digit n) EmptyString
  end.

(** [d.isoformat()]: [YYYY-MM-DDTHH:MM:SS], then [.ffffff] when the
    microsecond is not zero. *)
Definition isoformat (d : datetime) : string :=
  pad 4 (year d) ++ "-" ++ pad 2 (month d) ++ "-" ++ pad 2 (day d) ++ "T" ++
  pad 2 (hour d) ++ ":" ++ pad 2 (minute d) ++ ":" ++ pad 2 (second d) ++
  (if Z.eqb (microsecond d) 0 then EmptyString
   else "." ++ pad 6 (microsecond d)).




Definition obind {A B} (o : option A) (k : A -> option B) : option B :=
  match o with Some a => k a | None => None end.



End DateTime.

Export DateTime.

(** ** The libraries and the environment the engine calls

    [requests], [BeautifulSoup], the clock, [json.loads] on a fetched
    payload, and the conversions between floats and text are not part of the
    repository. The engine is stated over any implementation of them. *)

Class Runtime : Type := {
  (** [repr(f)], which is also [str(f)], for a float. *)
  float_repr : float -> string;
  (** [float(s)] for a string; [None] is a [ValueError]. *)
  float_of_str : string -> option float;
  (** [json.loads(s)]; [None] is a [json.JSONDecodeError]. *)
  json_loads : string -> option value;
  (** [requests.get(url, headers=..., timeout=10)] followed by
      [raise_for_status()], at the n-th request of the run: the body, or
      [None] when either raises. *)
  http_get : nat -> string -> option string;
  (** [datetime.utcnow()] at its n-th call of the run. *)
  utcnow_at : nat -> datetime;
  (** [BeautifulSoup(html).select("div.shopee-search-item-result__item")]:
      per item, the stripped text of the name [div] and of the price [span],
      [None] where [find] returns no tag. *)
  shopee_result_items : string -> list (option string * option string);
  (** [BeautifulSoup(html).find("script", id="__NEXT_DATA__")]: [None] when
      there is no such tag, otherwise its [.string] (which may be [None]). *)
  lazada_next_data : string -> option (option string);
  (** [BeautifulSoup(html).find_all("script", type="application/ld+json")]:
      the [.string] of each tag. *)
  jd_ld_json_scripts : string -> list (option string);
  (** [str(x)] for a list or a dict. *)
  container_str : value -> string
}.

(** ** [json.dumps] and the reader of string objects *)

Module Json.

Definition dquote : ascii := ascii_of_nat 34.
Definition backslash : ascii := ascii_of_nat 92.

Definition hex_digit (n : nat) : ascii :=
  if (n <? 10)%nat then ascii_of_nat (48 + n) else ascii_of_nat (87 + n).

(** [ESCAPE_DCT] of [json.encoder]: the quote, the backslash and the control
    characters are escaped; every other character is copied
    ([ensure_ascii=False]). *)
Definition escape_char (c : ascii) : string :=
  let n := nat_of_ascii c in
  if (n =? 34)%nat then String backslash (String dquote EmptyString)
  else if (n =? 92)%nat then String backslash (String backslash EmptyString)
  else if (n =? 10)%nat then String backslash "n"
  else if (n =? 13)%nat then String backslash "r"
  else if (n =? 9)%nat then String backslash "t"
  else if (n =? 8)%nat then String backslash "b"
  else if (n =? 12)%nat then String backslash "f"
  else if (n <? 32)%nat then
    String backslash
      (String "u" (String "0" (String "0"
         (String (hex_digit (n / 16)) (String (hex_digit (n mod 16)) EmptyString)))))
  else String c EmptyString.

Fixpoint escape (s : string) : string :=
  match s with
  | EmptyString => EmptyString
  | String c s' => escape_char c ++ escape s'
  end.

(** [py_encode_basestring]. *)
Definition encode_string (s : string) : string :=
  String dquote (escape s ++ String dquote EmptyString).

(** [", ".join(parts)]. *)
Fixpoint join (sep : string) (parts : list string) : string :=
  match parts with
  | [] => EmptyString
  | [p] => p
  | p :: ps => p ++ sep ++ join sep ps
  end.

Section Dumps.
Context {R : Runtime}.

(** [float.__repr__] with the three non-finite spellings of the encoder
    ([allow_nan=True]). *)
Definition encode_float (f : float) : string :=
  match f with
  | S754_nan => "NaN"
  | S754_infinity false => "Infinity"
  | S754_infinity true => "-Infinity"
  | _ => float_repr f
  end.

(** [json.dumps(v, ensure_ascii=False)] with the default separators. *)
Fixpoint dumps (v : value) : string :=
  match v with
  | VNone => "null"
  | VBool true => "true"
  | VBool false => "false"
  | VInt z => str_of_int z
  | VFloat f => encode_float f
  | VStr s => encode_string s
  | VList l => "[" ++ join ", " (map dumps l) ++ "]"
  | VDict d =>
      "{" ++ join ", " (map (fun kv => encode_string (fst kv) ++ ": " ++ dumps (snd kv)) d)
          ++ "}"
  end.

End Dumps.

(** *** Reading an object of strings back *)

Definition is_ws (c : ascii) : bool :=
  let n := nat_of_ascii c in
  (n =? 32)%nat || (n =? 9)%nat || (n =? 10)%nat || (n =? 13)%nat.

Definition hex_val (c : ascii) : option N :=
  let n := N_of_ascii c in
  if N.leb 48 n && N.leb n 57 then Some (n - 48)%N
  else if N.leb 97 n && N.leb n 102 then Some (n - 87)%N
  else if N.leb 65 n && N.leb n 70 then Some (n - 55)%N
  else None.

Definition hex4 (a b c d : ascii) : option N :=
  match hex_val a, hex_val b, hex_val c, hex_val d with
  | Some x, Some y, Some z, Some w => Some (((x * 16 + y) * 16 + z) * 16 + w)%N
  | _, _, _, _ => None
  end.

(** The UTF-8 bytes of a code point of the basic plane; a surrogate has no
    encoding of its own. *)
Definition utf8 (n : N) : option string :=
  if N.ltb n 128 then Some (String (ascii_of_N n) EmptyString)
  else if N.ltb n 2048 then
    Some (String (ascii_of_N (192 + n / 64))
            (String (ascii_of_N (128 + n mod 64)) EmptyString))
  else if N.leb 55296 n && N.leb n 57343 then None
  else
    Some (String (ascii_of_N (224 + n / 4096))
            (String (ascii_of_N (128 + (n / 64) mod 64))
               (String (ascii_of_N (128 + n mod 64)) EmptyString))).

(** The character a two-character escape stands for. *)
Definition simple_escape (e : ascii) : option ascii :=
  let n := nat_of_ascii e in
  if (n =? 34)%nat then Some dquote
  else if (n =? 92)%nat then Some backslash
  else if (n =? 47)%nat then Some "/"%char
  else if (n =? 98)%nat then Some (ascii_of_nat 8)
  else if (n =? 102)%nat then Some (ascii_of_nat 12)
  else if (n =? 110)%nat then Some (ascii_of_nat 10)
  else if (n =? 114)%nat then Some (ascii_of_nat 13)
  else if (n =? 116)%nat then Some (ascii_of_nat 9)
  else None.

(** [d[k] = v] on an insertion-ordered dict of strings. *)
Fixpoint set_item (d : list (string * string)) (k v : string) : list (string * string) :=
  match d with
  | [] => [(k, v)]
  | (k', v') :: d' =>
      if String.eqb k' k then (k', v) :: d' else (k', v') :: set_item d' k v
  end.

(** Which string literal the reader is inside. *)
Inductive context : Type :=
| KeyOf (members : list (string * string))
| ValueOf (members : list (string * string)) (key : string).

Inductive state : Type :=
| PStart
| PFirst
| PKey (members : list (string * string))
| PStr (cx : context) (acc : string)
| PColon (members : list (string * string)) (key : string)
| PValue (members : list (string * string)) (key : string)
| PNext (members : list (string * string))
| PEnd (members : list (string * string)).

Definition close (cx : context) (acc : string) : state :=
  match cx with
  | KeyOf ms => PColon ms acc
  | ValueOf ms k => PNext (set_item ms k acc)
  end.

Definition snoc (acc : string) (c : ascii) : string :=
  acc ++ String c EmptyString.

(** One pass over the text, a character at a time; an escape consumes the
    characters that belong to it. *)
Fixpoint run (st : state) (s : string) {struct s} : option (list (string * string)) :=
  match s with
  | EmptyString => match st with PEnd ms => Some ms | _ => None end
  | String c rest =>
      match st with
      | PStart =>
          if is_ws c then run PStart rest
          else if Ascii.eqb c "{" then run PFirst rest
          else None
      | PFirst =>
          if is_ws c then run PFirst rest
          else if Ascii.eqb c dquote then run (PStr (KeyOf []) EmptyString) rest
          else if Ascii.eqb c "}" then run (PEnd []) rest
          else None
      | PKey ms =>
          if is_ws c then run (PKey ms) rest
          else if Ascii.eqb c dquote then run (PStr (KeyOf ms) EmptyString) rest
          else None
      | PStr cx acc =>
          if Ascii.eqb c dquote then run (close cx acc) rest
          else if Ascii.eqb c backslash then
            match rest with
            | EmptyString => None
            | String e rest1 =>
                match simple_escape e with
                | Some ch => run (PStr cx (snoc acc ch)) rest1
                | None =>
                    if Ascii.eqb e "u" then
                      match rest1 with
                      | String h1 (String h2 (String h3 (String h4 rest2))) =>
                          match obind (hex4 h1 h2 h3 h4) utf8 with
                          | Some bytes => run (PStr cx (acc ++ bytes)) rest2
                          | None => None
                          end
                      | _ => None
                      end
                    else None
                end
            end
          else if (nat_of_ascii c <? 32)%nat then None
          else run (PStr cx (snoc acc c)) rest
      | PColon ms k =>
          if is_ws c then run (PColon ms k) rest
          else if Ascii.eqb c ":" then run (PValue ms k) rest
          else None
      | PValue ms k =>
          if is_ws c then run (PValue ms k) rest
          else if Ascii.eqb c dquote then run (PStr (ValueOf ms k) EmptyString) rest
          else None
      | PNext ms =>
          if is_ws c then run (PNext ms) rest
          else if Ascii.eqb c "," then run (PKey ms) rest
          else if Ascii.eqb c "}" then run (PEnd ms) rest
          else None
      | PEnd ms => if is_ws c then run (PEnd ms) rest else None
      end
  end.





End Json.

(** ** The engine *)

Module Engine.

(** *** The world and the monad *)

Inductive level : Type := DEBUG | INFO | WARNING | ERROR.

Definition level_eqb (a b : level) : bool :=
  match a, b with
  | DEBUG, DEBUG | INFO, INFO | WARNING, WARNING | ERROR, ERROR => true
  | _, _ => false
  end.

Record log_record : Type := LogRecord { lvl : level; msg : string }.

(** A row of the [products] table, with the column types of
    [create_tables]: [TEXT] columns hold strings, [REAL] and [INTEGER]
    columns a number or [NULL]. *)
Record Row : Type := mkRow {
  row_timestamp : string;
  row_marketplace : string;
  row_name : string;
  row_price : option float;
  row_currency : string;
  row_specs : string;
  row_sales : option Z;
  row_rating : option float
}.

(** The transactions on the store and the writes to the export file, in the
    order they happen. *)
Inductive io_event : Type :=
| DbCreateTable
| DbInsertMany (rows : nat)
| CsvAppend (records : nat).

(** Everything a run can read or change: the log, how many requests and
    clock readings were made, the [products] table of the database at
    [db_path] ([None] while it has not been created), the text of the file
    at [csv_path] (empty while it does not exist), and the record of the
    persistence operations. *)
Record World : Type := mkWorld {
  w_log : list log_record;
  w_requests : nat;
  w_ticks : nat;
  w_db : option (list Row);
  w_csv : string;
  w_io : list io_event
}.

Definition set_log (w : World) (l : list log_record) : World :=
  mkWorld l (w_requests w) (w_ticks w) (w_db w) (w_csv w) (w_io w).
Definition set_requests (w : World) (n : nat) : World :=
  mkWorld (w_log w) n (w_ticks w) (w_db w) (w_csv w) (w_io w).
Definition set_ticks (w : World) (n : nat) : World :=
  mkWorld (w_log w) (w_requests w) n (w_db w) (w_csv w) (w_io w).
Definition set_db (w : World) (t : option (list Row)) : World :=
  mkWorld (w_log w) (w_requests w) (w_ticks w) t (w_csv w) (w_io w).
Definition set_csv (w : World) (f : string) : World :=
  mkWorld (w_log w) (w_requests w) (w_ticks w) (w_db w) f (w_io w).
Definition add_io (w : World) (e : io_event) : World :=
  mkWorld (w_log w) (w_requests w) (w_ticks w) (w_db w) (w_csv w) (w_io w ++ [e]).

(** A computation returns or raises, and leaves a world behind either
    way. *)
Definition M (A : Type) : Type := World -> result A * World.

Definition ret {A} (a : A) : M A := fun w => (Ok a, w).

Definition raise {A} (e : exn) : M A := fun w => (Raise e, w).

Definition bind {A B} (c : M A) (k : A -> M B) : M B :=
  fun w =>
    match c w with
    | (Ok a, w') => k a w'
    | (Raise e, w') => (Raise e, w')
    end.

Notation "x <- c1 ;; c2" := (bind c1 (fun x => c2))
  (at level 61, c1 at next level, right associativity).
Notation "c1 ;; c2" := (bind c1 (fun _ => c2))
  (at level 61, right associativity).

Definition lift {A} (r : result A) : M A := fun w => (r, w).

(** [try: body  except <catches> as exc: handler exc]. *)
Definition try_except {A} (body : M A) (catches : exn -> bool)
    (handler : exn -> M A) : M A :=
  fun w =>
    match body w with
    | (Ok a, w') => (Ok a, w')
    | (Raise e, w') => if catches e then handler e w' else (Raise e, w')
    end.

Definition any_exception (e : exn) : bool := true.

(** [logging.<level>(msg)]: the root logger is configured at [INFO], so a
    [DEBUG] record is not emitted. *)
Definition log (l : level) (m : string) : M unit :=
  fun w =>
    match l with
    | DEBUG => (Ok tt, w)
    | _ => (Ok tt, set_log w (w_log w ++ [LogRecord l m]))
    end.

Definition count_level (l : level) (records : list log_record) : nat :=
  List.length (filter (fun r => level_eqb (lvl r) l) records).

Section WithRuntime.
Context {R : Runtime}.

(** [datetime.utcnow()]. *)
Definition utcnow : M datetime :=
  fun w => (Ok (utcnow_at (w_ticks w)), set_ticks w (S (w_ticks w))).

(** *** Product *)

(** The dataclass. Python does not check the annotations, so a field holds
    whatever the adapter put there. *)
Record Product : Type := mkProduct {
  marketplace : string;
  name : value;
  price : value;
  currency : value;
  specs : list (string * value);
  sales : value;
  rating : value;
  timestamp : datetime
}.

(** [Product(...)] without a [timestamp] argument: the default factory reads
    the clock. *)
Definition new_product (mk : string) (nm pr cur : value)
    (sp : list (string * value)) (sa ra : value) : M Product :=
  now <- utcnow ;;
  ret (mkProduct mk nm pr cur sp sa ra now).

(** [p.as_tuple()], the tuple as the list of its eight components. *)
Definition as_tuple (p : Product) : list value :=
  [ VStr (isoformat (timestamp p));
    VStr (marketplace p);
    name p;
    price p;
    currency p;
    VStr (Json.dumps (VDict (specs p)));
    sales p;
    rating p ].

(** *** fetch_page *)

(** The headers only matter to the server; the response is the
    environment's. The text of the exception in the warning is not
    modelled. *)
Definition fetch_page (url : string) : M (option string) :=
  fun w =>
    let w1 := set_requests w (S (w_requests w)) in
    match http_get (w_requests w) url with
    | Some body => (Ok (Some body), w1)
    | None => (Ok None, snd (log WARNING ("Failed to fetch " ++ url) w1))
    end.

(** [if text:] for the result of [fetch_page]: neither [None] nor the empty
    string. *)
Definition has_content (o : option string) : option string :=
  match o with
  | Some body => if String.eqb body EmptyString then None else Some body
  | None => None
  end.

(** [float(x)]. *)
Definition py_float (x : value) : result float :=
  match x with
  | VFloat f => Ok f
  | VInt z => float_of_int z
  | VBool b => Ok (Float.of_Z (if b then 1 else 0))
  | VStr s =>
      match float_of_str s with
      | Some f => Ok f
      | None => Raise ValueError
      end
  | _ => Raise TypeError
  end.

(** [json.loads(x)] where [x] may be [None] (a tag without a single
    string). *)
Definition loads (x : option string) : result value :=
  match x with
  | None => Raise TypeError
  | Some text =>
      match json_loads text with
      | Some v => Ok v
      | None => Raise JSONDecodeError
      end
  end.

(** What an adapter reads off one item before it builds the [Product]. *)
Record fields : Type := mkFields {
  f_name : value;
  f_price : value;
  f_currency : value;
  f_specs : list (string * value);
  f_sales : value;
  f_rating : value
}.

Definition product_of (mk : string) (f : fields) : M Product :=
  new_product mk (f_name f) (f_price f) (f_currency f) (f_specs f)
    (f_sales f) (f_rating f).

(** *** parse_shopee *)

Definition shopee_api_url (query : string) (max_results : Z) : string :=
  "https://shopee.co.th/api/v4/search/search_items?by=relevancy&keyword="
  ++ query ++ "&limit=" ++ str_of_int max_results
  ++ "&newest=0&order=desc&page_type=search".

Definition shopee_search_url (query : string) : string :=
  "https://shopee.co.th/search?keyword=" ++ query.

(** The body of the loop over [data.get("items", [])], up to the call of
    [Product]. *)
Definition shopee_item_fields (item : value) : result fields :=
  model <~ get item "item_basic" (VDict []) ;;
  nm <~ get model "name" (VStr "") ;;
  raw <~ get model "price" (VInt 0) ;;
  pr <~ truediv raw (Float.of_Z 100000) ;;
  sa <~ get model "historical_sold" VNone ;;
  ir <~ get model "item_rating" (VDict []) ;;
  ra <~ get ir "rating_star" VNone ;;
  brand <~ get model "brand" (VStr "Unknown") ;;
  model_id <~ get model "itemid" (VStr "") ;;
  Ok (mkFields nm (VFloat pr) (VStr "THB")
        [("brand", brand); ("model_id", model_id)] sa ra).

(** The API loop: every item of the response is appended; an exception
    leaves the function (the [except] clause around the loop only names
    [json.JSONDecodeError]). *)
Fixpoint shopee_api_loop (items : list value) (results : list Product)
  : M (list Product) :=
  match items with
  | [] => ret results
  | item :: rest =>
      f <- lift (shopee_item_fields item) ;;
      p <- product_of "Shopee" f ;;
      shopee_api_loop rest (results ++ [p])
  end.

(** The Thai baht sign, U+0E3F, in UTF-8. *)
Definition baht : string :=
  String (ascii_of_nat 224) (String (ascii_of_nat 184)
    (String (ascii_of_nat 191) EmptyString)).

(** The body of the fallback loop: [find] may return [None], on which
    [get_text] is an [AttributeError]; [float] may raise [ValueError]. *)
Definition shopee_html_fields (item : option string * option string)
  : result fields :=
  match fst item with
  | None => Raise AttributeError
  | Some nm =>
      match snd item with
      | None => Raise AttributeError
      | Some text =>
          let price_text := remove_all "," text in
          pr <~ py_float (VStr (remove_all baht price_text)) ;;
          Ok (mkFields (VStr nm) (VFloat pr) (VStr "THB")
                [("unknown", VStr "unknown")] VNone VNone)
      end
  end.

Fixpoint shopee_html_loop (items : list (option string * option string))
    (results : list Product) : M (list Product) :=
  match items with
  | [] => ret results
  | item :: rest =>
      f <- lift (shopee_html_fields item) ;;
      p <- product_of "Shopee" f ;;
      shopee_html_loop rest (results ++ [p])
  end.

Definition is_json_decode_error (e : exn) : bool := exn_eqb e JSONDecodeError.

Definition parse_shopee (query : string) (max_results : Z) : M (list Product) :=
  data_text <- fetch_page (shopee_api_url query max_results) ;;
  results <-
    match has_content data_text with
    | Some text =>
        try_except
          (data <- lift (loads (Some text)) ;;
           items <- lift (got <~ get data "items" (VList []) ;; iter got) ;;
           shopee_api_loop items [])
          is_json_decode_error
          (fun _ =>
             log WARNING
               "Failed to parse Shopee JSON response; falling back to HTML parsing." ;;
             ret [])
    | None => ret []
    end ;;
  match results with
  | [] =>
      html <- fetch_page (shopee_search_url query) ;;
      match has_content html with
      | Some page =>
          let items := shopee_result_items page in
          shopee_html_loop
            (firstn (slice_stop (List.length items) max_results) items) results
      | None => ret results
      end
  | _ => ret results
  end.

(** *** parse_lazada *)

Definition lazada_search_url (query : string) : string :=
  "https://www.lazada.co.th/catalog/?q=" ++ query.

Definition lazada_products_data (data : value) : result value :=
  props <~ get data "props" (VDict []) ;;
  page_props <~ get props "pageProps" (VDict []) ;;
  initial_state <~ get page_props "initialState" (VDict []) ;;
  products <~ get initial_state "products" (VDict []) ;;
  get products "items" (VList []).

Definition lazada_item_fields (item : value) : result fields :=
  nm <~ get item "name" (VStr "") ;;
  price_obj <~ get item "price" (VDict []) ;;
  pr <~ get price_obj "value" (VFloat Float.zero) ;;
  price_obj' <~ get item "price" (VDict []) ;;
  cur <~ get price_obj' "currencyCode" (VStr "THB") ;;
  ra <~ get item "ratingScore" VNone ;;
  sa <~ get item "soldCount" VNone ;;
  brand <~ get item "brandName" (VStr "Unknown") ;;
  sku <~ get item "sku" (VStr "") ;;
  Ok (mkFields nm pr cur [("brand", brand); ("sku", sku)] sa ra).

(** The loop inside the [try]: when an item raises, the loop ends there and
    [results] keeps what was appended before. *)
Fixpoint lazada_loop (items : list value) (results : list Product)
  : M (list Product * option exn) :=
  match items with
  | [] => ret (results, None)
  | item :: rest =>
      match lazada_item_fields item with
      | Raise e => ret (results, Some e)
      | Ok f =>
          p <- product_of "Lazada" f ;;
          lazada_loop rest (results ++ [p])
      end
  end.

(** The statements of the [try] block before the loop body: the items the
    loop will go through. *)
Definition lazada_items (script_string : option string) (max_results : Z)
  : result (list value) :=
  data <~ loads script_string ;;
  products_data <~ lazada_products_data data ;;
  sliced <~ slice_to products_data max_results ;;
  iter sliced.

Definition lazada_warning : string := "Failed to parse Lazada JSON".

Definition parse_lazada (query : string) (max_results : Z) : M (list Product) :=
  html <- fetch_page (lazada_search_url query) ;;
  match has_content html with
  | None => ret []
  | Some page =>
      match lazada_next_data page with
      | None => ret []
      | Some script_string =>
          match lazada_items script_string max_results with
          | Raise _ => log WARNING lazada_warning ;; ret []
          | Ok items =>
              out <- lazada_loop items [] ;;
              match snd out with
              | Some _ => log WARNING lazada_warning ;; ret (fst out)
              | None => ret (fst out)
              end
          end
      end
  end.

(** *** parse_jd_central *)

Definition jd_search_url (query : string) : string :=
  "https://www.jd.co.th/search?keyword=" ++ query.

(** The body of the [try] for one script block, up to the call of
    [Product]: [None] when the block is not a product. *)
Definition jd_block_fields (script_string : option string)
  : result (option fields) :=
  data <~ loads script_string ;;
  if is_dict data then
    ty <~ get data "@type" VNone ;;
    if eq_str ty "Product" then
      nm <~ get data "name" (VStr "") ;;
      offers <~ get data "offers" (VDict []) ;;
      raw <~ get offers "price" (VFloat Float.zero) ;;
      pr <~ py_float raw ;;
      cur <~ get offers "priceCurrency" (VStr "THB") ;;
      ar <~ get data "aggregateRating" (VDict []) ;;
      ra <~ get ar "ratingValue" VNone ;;
      br <~ get data "brand" (VDict []) ;;
      brand <~ get br "name" (VStr "Unknown") ;;
      sku <~ get data "sku" (VStr "") ;;
      Ok (Some (mkFields nm (VFloat pr) cur [("brand", brand); ("sku", sku)]
                  VNone ra))
    else Ok None
  else Ok None.

(** The loop over the script blocks: a block that raises is passed over
    ([except Exception: continue]); the loop breaks once [results] has
    [max_results] elements, which it checks after an append. *)
Fixpoint jd_loop (scripts : list (option string)) (max_results : Z)
    (results : list Product) : M (list Product) :=
  match scripts with
  | [] => ret results
  | script :: rest =>
      match jd_block_fields script with
      | Raise _ => jd_loop rest max_results results
      | Ok None => jd_loop rest max_results results
      | Ok (Some f) =>
          p <- product_of "JD Central" f ;;
          let results' := (results ++ [p])%list in
          if Z.geb (Z.of_nat (List.length results')) max_results
          then ret results'
          else jd_loop rest max_results results'
      end
  end.

Definition parse_jd_central (query : string) (max_results : Z) : M (list Product) :=
  html <- fetch_page (jd_search_url query) ;;
  match has_content html with
  | None => ret []
  | Some page => jd_loop (jd_ld_json_scripts page) max_results []
  end.

(** *** The SQLite store *)

(** [CREATE TABLE IF NOT EXISTS products (...)], committed. *)
Definition create_tables : M unit :=
  fun w =>
    let t := match w_db w with Some rows => rows | None => [] end in
    (Ok tt, add_io (set_db w (Some t)) DbCreateTable).

(** Binding a parameter to a [TEXT] column. The model keeps the declared
    column types, so it refuses what is not a string; it also refuses the
    lists and dicts that [sqlite3] itself cannot bind. A value that is
    accepted is stored as it is: the limits of SQLite's own storage classes
    (64-bit integers, NaN kept as [NULL]) are outside the model. *)
Definition bind_text (v : value) : result string :=
  match v with
  | VStr s => Ok s
  | _ => Raise InterfaceError
  end.

(** Binding to a [REAL] column: [None] is [NULL], an integer is stored as a
    real. *)
Definition bind_real (v : value) : result (option float) :=
  match v with
  | VNone => Ok None
  | VFloat f => Ok (Some f)
  | VInt z => Ok (Some (Float.of_Z z))
  | VBool b => Ok (Some (Float.of_Z (if b then 1 else 0)))
  | _ => Raise InterfaceError
  end.

(** Binding to an [INTEGER] column. *)
Definition bind_integer (v : value) : result (option Z) :=
  match v with
  | VNone => Ok None
  | VInt z => Ok (Some z)
  | VBool b => Ok (Some (if b then 1 else 0))
  | _ => Raise InterfaceError
  end.

(** One [INSERT INTO products VALUES (?, ?, ?, ?, ?, ?, ?, ?)]. *)
Definition bind_row (t : list value) : result Row :=
  match t with
  | [ts; mk; nm; pr; cur; sp; sa; ra] =>
      ts' <~ bind_text ts ;;
      mk' <~ bind_text mk ;;
      nm' <~ bind_text nm ;;
      pr' <~ bind_real pr ;;
      cur' <~ bind_text cur ;;
      sp' <~ bind_text sp ;;
      sa' <~ bind_integer sa ;;
      ra' <~ bind_real ra ;;
      Ok (mkRow ts' mk' nm' pr' cur' sp' sa' ra')
  | _ => Raise InterfaceError
  end.

Fixpoint bind_rows (ts : list (list value)) : result (list Row) :=
  match ts with
  | [] => Ok []
  | t :: ts' =>
      r <~ bind_row t ;;
      rs <~ bind_rows ts' ;;
      Ok (r :: rs)
  end.

(** [save_to_db]: nothing at all for an empty list; otherwise one
    [executemany] and one [commit]. A failure before the commit leaves the
    table as it was. *)
Definition save_to_db (products : list Product) : M unit :=
  match products with
  | [] => ret tt
  | _ =>
      fun w =>
        match w_db w with
        | None => (Raise OperationalError, w)
        | Some table =>
            match bind_rows (map as_tuple products) with
            | Raise e => (Raise e, w)
            | Ok rows =>
                (Ok tt,
                 add_io (set_db w (Some (table ++ rows)%list))
                   (DbInsertMany (List.length rows)))
            end
        end
  end.

(** *** The CSV export *)

Definition fieldnames : list string :=
  ["timestamp"; "marketplace"; "name"; "price"; "currency"; "specs";
   "sales"; "rating"].

Definition crlf : string :=
  String (ascii_of_nat 13) (String (ascii_of_nat 10) EmptyString).

(** What the writer puts in a cell: nothing for [None], the string itself,
    [str(x)] otherwise. *)
Definition csv_cell (v : value) : string :=
  match v with
  | VNone => EmptyString
  | VStr s => s
  | VInt z => str_of_int z
  | VBool true => "True"
  | VBool false => "False"
  | VFloat f => float_repr f
  | _ => container_str v
  end.

Definition is_special (c : ascii) : bool :=
  let n := nat_of_ascii c in
  (n =? 44)%nat || (n =? 34)%nat || (n =? 13)%nat || (n =? 10)%nat.

Definition needs_quotes (s : string) : bool :=
  existsb is_special (list_ascii_of_string s).

Fixpoint double_quotes (s : string) : string :=
  match s with
  | EmptyString => EmptyString
  | String c s' =>
      if Ascii.eqb c Json.dquote
      then String c (String c (double_quotes s'))
      else String c (double_quotes s')
  end.

(** [QUOTE_MINIMAL] of the [excel] dialect. *)
Definition csv_quote (s : string) : string :=
  if needs_quotes s
  then String Json.dquote (double_quotes s ++ String Json.dquote EmptyString)
  else s.

Definition csv_line (cells : list string) : string :=
  Json.join "," (map csv_quote cells) ++ crlf.

(** [writer.writeheader()]. *)
Definition csv_header : string := csv_line fieldnames.

(** [writer.writerow(row)] for [row = asdict(p)] with [timestamp] and
    [specs] replaced by their text. *)
Definition csv_row (p : Product) : string :=
  csv_line
    [ isoformat (timestamp p);
      marketplace p;
      csv_cell (name p);
      csv_cell (price p);
      csv_cell (currency p);
      Json.dumps (VDict (specs p));
      csv_cell (sales p);
      csv_cell (rating p) ].

Definition csv_rows (products : list Product) : string :=
  String.concat EmptyString (map csv_row products).

(** [save_to_csv]: the file is opened for appending, so [f.tell()] is its
    length; the header is written when that is 0. *)
Definition save_to_csv (products : list Product) : M unit :=
  fun w =>
    let file := w_csv w in
    let header :=
      if (String.length file =? 0)%nat then csv_header else EmptyString in
    (Ok tt,
     add_io (set_csv w (file ++ header ++ csv_rows products))
       (CsvAppend (List.length products))).

(** *** detect_price_anomalies *)

Record Anomaly : Type := mkAnomaly {
  a_marketplace : string;
  a_name : string;
  current_price : float;
  rolling_mean : float;
  drop_pct : float
}.

(** The [price] column as pandas reads it: [NULL] is NaN. *)
Definition price_of (r : Row) : float :=
  match row_price r with
  | Some f => f
  | None => Float.nan
  end.

Definition key_of (r : Row) : string * string :=
  (row_marketplace r, row_name r).

Definition key_eqb (a b : string * string) : bool :=
  String.eqb (fst a) (fst b) && String.eqb (snd a) (snd b).

(** The order of the group keys: by marketplace, then by name. *)
Definition key_leb (a b : string * string) : bool :=
  match String.compare (fst a) (fst b) with
  | Lt => true
  | Eq => String.leb (snd a) (snd b)
  | Gt => false
  end.

Fixpoint insert_key (k : string * string) (ks : list (string * string))
  : list (string * string) :=
  match ks with
  | [] => [k]
  | k' :: ks' =>
      if key_eqb k k' then ks
      else if key_leb k k' then k :: ks
      else k' :: insert_key k ks'
  end.

(** The distinct keys of [df.groupby(["marketplace", "name"])], sorted. *)
Definition group_keys (rows : list Row) : list (string * string) :=
  fold_right (fun r ks => insert_key (key_of r) ks) [] rows.

Fixpoint insert_row (r : Row) (sorted : list Row) : list Row :=
  match sorted with
  | [] => [r]
  | r' :: rest =>
      if String.leb (row_timestamp r) (row_timestamp r')
      then r :: sorted
      else r' :: insert_row r rest
  end.

(** [group.sort_values("timestamp")]. The column holds the ISO texts that
    [as_tuple] wrote; on those the order of the parsed dates is the order of
    the texts. Rows with equal timestamps keep their order. *)
Definition sort_values (rows : list Row) : list Row :=
  fold_right insert_row [] rows.

Definition fsum (l : list float) : float := fold_left Float.add l Float.zero.

(** The mean that [rolling(...).mean()] reports for one window with
    [min_periods=1]: NaN observations do not count, and a window without any
    observation has no mean. *)
Definition window_mean (prices : list float) : float :=
  let obs := filter (fun f => negb (Float.is_nan f)) prices in
  match obs with
  | [] => Float.nan
  | _ => Float.div (fsum obs) (Float.of_Z (Z.of_nat (List.length obs)))
  end.

(** The trailing window of the last row: the last [window] prices, or all
    of them when there are fewer. *)
Definition last_window (window : nat) (prices : list float) : list float :=
  skipn (List.length prices - window) prices.

(** The body of the loop for one group. *)
Definition check_group (key : string * string) (group : list Row)
    (window : nat) (threshold_pct : float) : list Anomaly :=
  let sorted := sort_values group in
  match rev sorted with
  | [] => []
  | latest :: _ =>
      let mean := window_mean (last_window window (map price_of sorted)) in
      let drop := Float.div (Float.sub mean (price_of latest)) mean in
      if Float.geb drop threshold_pct
      then [mkAnomaly (fst key) (snd key) (price_of latest) mean drop]
      else []
  end.

Definition group_of (key : string * string) (rows : list Row) : list Row :=
  filter (fun r => key_eqb (key_of r) key) rows.

(** The function on the rows that [SELECT * FROM products] returns. An
    empty frame is returned before anything is computed; pandas refuses a
    window below [min_periods]. *)
Definition detect_in (rows : list Row) (window : Z) (threshold_pct : float)
  : result (list Anomaly) :=
  match rows with
  | [] => Ok []
  | _ =>
      if Z.ltb window 1 then Raise ValueError
      else
        Ok (flat_map
              (fun key =>
                 check_group key (group_of key rows) (Z.to_nat window)
                   threshold_pct)
              (group_keys rows))
  end.

Definition detect_price_anomalies (window : Z) (threshold_pct : float)
  : M (list Anomaly) :=
  fun w =>
    match w_db w with
    | None => (Raise OperationalError, w)
    | Some rows => (detect_in rows window threshold_pct, w)
    end.

(** *** scrape_all *)

(** One [try: all_products.extend(adapter(kw, max_results=limit))
    except Exception as exc: logging.error(...)]. *)
Definition invoke (label : string) (adapter : string -> Z -> M (list Product))
    (kw : string) (limit : Z) (all_products : list Product)
  : M (list Product) :=
  try_except
    (found <- adapter kw limit ;; ret (all_products ++ found)%list)
    any_exception
    (fun e =>
       log ERROR (label ++ " scraper failed for " ++ kw ++ ": " ++ exn_name e) ;;
       ret all_products).

Section Orchestrator.
(** The three functions that [scrape_all] looks up by name when it runs. *)
Variables shopee lazada jd_central : string -> Z -> M (list Product).

Fixpoint scrape_keywords (keywords : list string) (limit : Z)
    (all_products : list Product) : M (list Product) :=
  match keywords with
  | [] => ret all_products
  | kw :: rest =>
      log INFO ("Scraping data for '" ++ kw ++ "'") ;;
      a1 <- invoke "Shopee" shopee kw limit all_products ;;
      a2 <- invoke "Lazada" lazada kw limit a1 ;;
      a3 <- invoke "JD Central" jd_central kw limit a2 ;;
      scrape_keywords rest limit a3
  end.

Definition scrape_all_with (keywords : list string) (limit : Z) : M unit :=
  create_tables ;;
  all_products <- scrape_keywords keywords limit [] ;;
  match all_products with
  | [] => log WARNING "No products were scraped."
  | _ => save_to_db all_products ;; save_to_csv all_products
  end.

End Orchestrator.

Definition scrape_all : list string -> Z -> M unit :=
  scrape_all_with parse_shopee parse_lazada parse_jd_central.

End WithRuntime.
End Engine.

Export Engine.

(** ** Reading the store back *)





Definition is_str (v : value) : bool :=
  match v with VStr _ => true | _ => false end.

Definition is_float (v : value) : bool :=
  match v with VFloat _ => true | _ => false end.





(** ** What the theorems observe *)

Definition anomaly_key (a : Anomaly) : string * string :=
  (a_marketplace a, a_name a).

(** Whether the result has a row for the series [key]. *)
Definition flagged (key : string * string) (found : list Anomaly) : bool :=
  existsb (fun a => key_eqb (anomaly_key a) key) found.

(** [0 <= f], as Python evaluates it. *)
Definition nonneg (f : float) : bool := Float.leb Float.zero f.


(** The fields an adapter gave to [Product(...)]. *)
Definition fields_of (p : Product) : fields :=
  mkFields (name p) (price p) (currency p) (specs p) (sales p) (rating p).

(** The items of a Lazada page up to the first one that raises. *)
Fixpoint lazada_parsed (items : list value) : list fields :=
  match items with
  | [] => []
  | item :: rest =>
      match lazada_item_fields item with
      | Ok f => f :: lazada_parsed rest
      | Raise _ => []
      end
  end.

(** The price as the payload gives it, before any conversion. *)
Definition shopee_raw_price (item : value) : result value :=
  model <~ get item "item_basic" (VDict []) ;;
  get model "price" (VInt 0).

Definition lazada_raw_price (item : value) : result value :=
  price_obj <~ get item "price" (VDict []) ;;
  get price_obj "value" (VFloat Float.zero).

(** A payload price that is a number and is not negative. *)
Definition number_nonneg (raw : value) : bool :=
  match raw with
  | VInt z => Z.leb 0 z
  | VFloat f => nonneg f
  | VBool _ => true
  | _ => false
  end.

Section Observers.
Context {R : Runtime}.

(** The script blocks of a JD Central page that make a record, in page
    order: those that parse, describe a product, and have a price that
    [float] accepts. *)
Definition jd_parsed (scripts : list (option string)) : list fields :=
  flat_map
    (fun script =>
       match jd_block_fields script with
       | Ok (Some f) => [f]
       | _ => []
       end)
    scripts.

(** What the fetch of a page gives the parser to work on. *)
Definition jd_scripts (body : option string) : list (option string) :=
  match has_content body with
  | Some page => jd_ld_json_scripts page
  | None => []
  end.

Definition lazada_page_items (body : option string) (max_results : Z)
  : list value :=
  match has_content body with
  | Some page =>
      match lazada_next_data page with
      | Some script_string =>
          match lazada_items script_string max_results with
          | Ok items => items
          | Raise _ => []
          end
      | None => []
      end
  | None => []
  end.

Definition jd_raw_price (script_string : option string) : result value :=
  data <~ loads script_string ;;
  offers <~ get data "offers" (VDict []) ;;
  get offers "price" (VFloat Float.zero).

End Observers.

(** A world [w'] reached from [w] without touching the store or the export
    file and without logging an error. *)
Definition same_store (w w' : World) : Prop :=
  w_db w' = w_db w /\ w_csv w' = w_csv w /\ w_io w' = w_io w /\
  count_level ERROR (w_log w') = count_level ERROR (w_log w).

(** A computation that never persists anything and never logs an error,
    whether it returns or raises. *)
Definition quiet {A} (c : M A) : Prop := forall w, same_store w (snd (c w)).

Definition failure_message (label kw : string) (e : exn) : string :=
  label ++ " scraper failed for " ++ kw ++ ": " ++ exn_name e.

(** The world after one adapter invocation of [scrape_all]: the world the
    adapter left, with one error record more when it raised. *)
Definition settle (label kw : string) (run : result (list Product) * World)
  : World :=
  match fst run with
  | Ok _ => snd run
  | Raise e =>
      set_log (snd run)
        (w_log (snd run) ++ [LogRecord ERROR (failure_message label kw e)])
  end.

(** The records of the invocations that returned. *)
Definition successes (outcomes : list (result (list Product))) : list Product :=
  flat_map (fun r => match r with Ok ps => ps | Raise _ => [] end) outcomes.

(** The number of invocations that raised. *)
Definition failures (outcomes : list (result (list Product))) : nat :=
  List.length (filter (fun r => negb (is_ok r)) outcomes).

(** What each adapter invocation of a run does, in the order in which
    [scrape_all] makes them, and the world after the last one. *)
Fixpoint invocations (shopee lazada jd_central : string -> Z -> M (list Product))
    (keywords : list string) (limit : Z) (w : World)
  : list (result (list Product)) * World :=
  match keywords with
  | [] => ([], w)
  | kw :: rest =>
      let w0 := snd (log INFO ("Scraping data for '" ++ kw ++ "'") w) in
      let r1 := shopee kw limit w0 in
      let w1 := settle "Shopee" kw r1 in
      let r2 := lazada kw limit w1 in
      let w2 := settle "Lazada" kw r2 in
      let r3 := jd_central kw limit w2 in
      let w3 := settle "JD Central" kw r3 in
      let later := invocations shopee lazada jd_central rest limit w3 in
      (fst r1 :: fst r2 :: fst r3 :: fst later, snd later)
  end.

(** ** Example data *)

Definition monday : datetime := mkDateTime 2025 11 3 9 5 7 120.

(** Two items of a Shopee API response: a listing with a negative price
    and a listing without any price. *)
Definition shopee_items : list value :=
  [ VDict [("item_basic",
      VDict [("name", VStr "Phone A"); ("price", VInt (-100000))])];
    VDict [("item_basic", VDict [("name", VStr "Phone B")])] ].

Definition shopee_payload : value := VDict [("items", VList shopee_items)].

(** A Shopee API response whose second item has a price that is not a
    number. *)
Definition shopee_faulty_payload : value :=
  VDict [("items", VList
    [ VDict [("item_basic",
        VDict [("name", VStr "Phone A"); ("price", VInt 1299000000)])];
      VDict [("item_basic",
        VDict [("name", VStr "Phone B"); ("price", VStr "N/A")])] ])].

Definition lazada_item (nm : string) (price_obj : value) : value :=
  VDict [("name", VStr nm); ("price", price_obj)].

(** The [__NEXT_DATA__] of a Lazada page with three items; the price of the
    second is a bare number, on which [.get] is an [AttributeError]. *)
Definition lazada_payload : value :=
  VDict [("props", VDict [("pageProps", VDict [("initialState",
    VDict [("products", VDict [("items", VList
      [ lazada_item "Phone L1" (VDict [("value", VInt 4990)]);
        lazada_item "Phone L2" (VInt 5990);
        lazada_item "Phone L3" (VDict [("value", VInt 6990)]) ])])])])])].

Definition jd_block (nm : string) (pr : value) : value :=
  VDict [("@type", VStr "Product"); ("name", VStr nm);
         ("offers", VDict [("price", pr); ("priceCurrency", VStr "THB")])].

(** An environment in which every request is answered with the text
    "page". As a Shopee API response that text decodes to [api]; the Lazada
    page has the script "L"; the JD Central page has four script blocks:
    "A" with a price text that [float] reads, "B" with one it does not, a
    block without a string, and "C" with a numeric price. *)
Definition runtime_with (api : value) : Runtime := {|
  float_repr := fun _ => "1.0";
  float_of_str := fun s =>
    if String.eqb s "799.0" then Some (Float.of_Z 799) else None;
  json_loads := fun text =>
    if String.eqb text "page" then Some api
    else if String.eqb text "L" then Some lazada_payload
    else if String.eqb text "A" then Some (jd_block "Phone J1" (VStr "799.0"))
    else if String.eqb text "B" then Some (jd_block "Phone J2" (VStr "N/A"))
    else if String.eqb text "C" then Some (jd_block "Phone J3" (VInt 650))
    else None;
  http_get := fun _ _ => Some "page";
  utcnow_at := fun n => mkDateTime 2025 11 3 9 5 (Z.of_nat n) 0;
  shopee_result_items := fun _ => [];
  lazada_next_data := fun _ => Some (Some "L");
  jd_ld_json_scripts := fun _ => [Some "A"; Some "B"; None; Some "C"];
  container_str := fun _ => EmptyString
|}.

Definition demo_runtime : Runtime := runtime_with shopee_payload.

Definition faulty_runtime : Runtime := runtime_with shopee_faulty_payload.

Definition empty_world : World := mkWorld [] 0 0 None EmptyString [].





(** A world whose store holds the given rows. *)
Definition store_of (rows : list Row) : World :=
  mkWorld [] 0 0 (Some rows) EmptyString [].

(** The double nearest to [n / d], for integers that doubles represent
    exactly: the value of the Python literal [0.05] is [ratio 5 100]. *)
Definition ratio (n d : Z) : float := Float.div (Float.of_Z n) (Float.of_Z d).

(** One stored observation of the series ("Shopee", "Phone"). *)
Definition observation (ts : string) (p : Z) : Row :=
  mkRow ts "Shopee" "Phone" (Some (Float.of_Z p)) "THB" "{}" None None.

Definition phone_key : string * string := ("Shopee", "Phone").

(** Five observations, stored out of order, whose prices by date are
    1000, 1000, 1000, 1000, 600. *)
Definition dropping_series : list Row :=
  [ observation "2025-01-05T08:00:00" 600;
    observation "2025-01-01T08:00:00" 1000;
    observation "2025-01-02T08:00:00" 1000;
    observation "2025-01-03T08:00:00" 1000;
    observation "2025-01-04T08:00:00" 1000 ].

Definition constant_series : list Row :=
  [ observation "2025-01-01T08:00:00" 1000;
    observation "2025-01-02T08:00:00" 1000;
    observation "2025-01-03T08:00:00" 1000;
    observation "2025-01-04T08:00:00" 1000;
    observation "2025-01-05T08:00:00" 1000 ].

(** A store with one observation of the phone and five of a tablet whose
    price has dropped. *)
Definition mixed_store : list Row :=
  observation "2025-01-01T08:00:00" 1000
  :: map (fun r => mkRow (row_timestamp r) "Lazada" "Tablet" (row_price r)
                     "THB" "{}" None None) dropping_series.



(** ** What an adapter returns and leaves behind *)

Section Stamps.
Context {R : Runtime}.

(** The records that [Product(...)] makes of the given fields when the
    clock is read once for each of them, the first time as reading number
    [tick]. *)
Fixpoint stamped (mk : string) (fs : list fields) (tick : nat) : list Product :=
  match fs with
  | [] => []
  | f :: rest =>
      mkProduct mk (f_name f) (f_price f) (f_currency f) (f_specs f)
        (f_sales f) (f_rating f) (utcnow_at tick)
      :: stamped mk rest (S tick)
  end.

(** What [fetch_page] logs for a request with the given outcome. *)
Definition fetch_warnings (url : string) (body : option string)
  : list log_record :=
  match body with
  | Some _ => []
  | None => [LogRecord WARNING ("Failed to fetch " ++ url)]
  end.

(** The world after [requests] requests and [readings] readings of the
    clock that logged [records] and did nothing else. *)
Definition advance (w : World) (records : list log_record)
    (requests readings : nat) : World :=
  mkWorld (w_log w ++ records) (w_requests w + requests)
    (w_ticks w + readings) (w_db w) (w_csv w) (w_io w).

(** Reading the fields of every item, stopping at the first one that
    raises. *)
Fixpoint read_all {A} (read : A -> result fields) (items : list A)
  : result (list fields) :=
  match items with
  | [] => Ok []
  | item :: rest =>
      f <~ read item ;;
      fs <~ read_all read rest ;;
      Ok (f :: fs)
  end.

(** Whether the [try] block of [parse_lazada] ended in its [except]
    clause. *)
Definition lazada_failed (body : option string) (max_results : Z) : bool :=
  match has_content body with
  | Some page =>
      match lazada_next_data page with
      | Some script_string =>
          match lazada_items script_string max_results with
          | Ok items => negb (is_ok (read_all lazada_item_fields items))
          | Raise _ => true
          end
      | None => false
      end
  | None => false
  end.

Definition lazada_warnings (body : option string) (max_results : Z)
  : list log_record :=
  if lazada_failed body max_results
  then [LogRecord WARNING lazada_warning] else [].

(** The items that the API path of [parse_shopee] loops over: none when
    the request failed, came back empty or is not JSON. *)
Definition shopee_api_items (body : option string) : result (list value) :=
  match has_content body with
  | Some text =>
      match json_loads text with
      | Some data => got <~ get data "items" (VList []) ;; iter got
      | None => Ok []
      end
  | None => Ok []
  end.

(** The cards that the HTML path of [parse_shopee] loops over. *)
Definition shopee_html_items (body : option string) (max_results : Z)
  : list (option string * option string) :=
  match has_content body with
  | Some page =>
      let items := shopee_result_items page in
      firstn (slice_stop (List.length items) max_results) items
  | None => []
  end.

End Stamps.

(** ** The orders the detector sorts by *)






(** ** The cells of the export *)

Section Cells.
Context {R : Runtime}.

(** The eight cells of the line that [save_to_csv] writes for a record. *)
Definition csv_cells (p : Product) : list string :=
  [ isoformat (timestamp p);
    marketplace p;
    csv_cell (name p);
    csv_cell (price p);
    csv_cell (currency p);
    Json.dumps (VDict (specs p));
    csv_cell (sales p);
    csv_cell (rating p) ].

End Cells.

(** What may follow a cell in a line: nothing, a comma, or the end of the
    line. *)
Definition closes (rest : string) : bool :=
  match rest with
  | EmptyString => true
  | String c _ => is_special c && negb (Ascii.eqb c Json.dquote)
  end.

(** ** The alert bot: [bot/telegram_bot.py] *)

Module Bot.

(** What the bot reads from its environment and the libraries it calls. *)
Class BotRuntime : Type := {
  (** [os.environ.get('TELEGRAM_BOT_TOKEN')] when the module is loaded. *)
  telegram_token : option string;
  (** [os.environ.get('TELEGRAM_CHAT_ID')]. *)
  chat_id : option string;
  (** [requests.post(url, data=payload, timeout=10)] followed by
      [raise_for_status()], at the n-th POST of the run: [false] when either
      raises. *)
  http_post : nat -> string -> list (string * string) -> bool;
  (** [format(f, '.<digits>f')]. *)
  format_fixed : nat -> float -> string;
  (** [text.lower()]. *)
  str_lower : string -> string;
  (** [text.split()]. *)
  str_split : string -> list string;
  (** The order in which a [for] loop goes through the set that has the
      given elements; the language leaves it open. *)
  set_order : list string -> list string;
  set_order_perm : forall l, Permutation (set_order l) l
}.

(** One call of [requests.post] and what became of it. *)
Record Post : Type := mkPost {
  post_url : string;
  post_data : list (string * string);
  delivered : bool
}.

(** The world of the engine, the POSTs made so far and the number of times
    the bot has slept. *)
Record BotWorld : Type := mkBotWorld {
  b_world : World;
  b_posts : list Post;
  b_sleeps : nat
}.

Definition B (A : Type) : Type := BotWorld -> result A * BotWorld.

Definition bret {A} (a : A) : B A := fun bw => (Ok a, bw).

Definition bbind {A C} (c : B A) (k : A -> B C) : B C :=
  fun bw =>
    match c bw with
    | (Ok a, bw') => k a bw'
    | (Raise e, bw') => (Raise e, bw')
    end.

Declare Scope bot_scope.
Delimit Scope bot_scope with bot.
Notation "x <- c1 ;; c2" := (bbind c1 (fun x => c2))
  (at level 61, c1 at next level, right associativity) : bot_scope.
Notation "c1 ;; c2" := (bbind c1 (fun _ => c2))
  (at level 61, right associativity) : bot_scope.
Local Open Scope bot_scope.

(** [try: body  except Exception as exc: handler exc]. *)
Definition btry {A} (body : B A) (handler : exn -> B A) : B A :=
  fun bw =>
    match body bw with
    | (Ok a, bw') => (Ok a, bw')
    | (Raise e, bw') => handler e bw'
    end.

(** A call into the engine, which sees the engine's part of the world. *)
Definition engine {A} (c : M A) : B A :=
  fun bw =>
    (fst (c (b_world bw)),
     mkBotWorld (snd (c (b_world bw))) (b_posts bw) (b_sleeps bw)).

(** [logging.<level>(msg)]: the bot configures the root logger as the
    engine does. *)
Definition logging (l : level) (m : string) : B unit :=
  fun bw =>
    (Ok tt, mkBotWorld (snd (log l m (b_world bw))) (b_posts bw) (b_sleeps bw)).

(** [time.sleep(seconds)]. *)
Definition sleep (seconds : Z) : B unit :=
  fun bw => (Ok tt, mkBotWorld (b_world bw) (b_posts bw) (S (b_sleeps bw))).

(** [for x in xs: body x]. *)
Fixpoint for_each {A} (xs : list A) (body : A -> B unit) : B unit :=
  match xs with
  | [] => bret tt
  | x :: rest => body x ;; for_each rest body
  end.

Definition bytes (codes : list nat) : string :=
  string_of_list_ascii (map ascii_of_nat codes).

Definition newline : string := bytes [10]%nat.

(** U+26A0 U+FE0F, U+1F6A8 and U+1F195 in UTF-8. *)
Definition warning_sign : string := bytes [226; 154; 160; 239; 184; 143]%nat.
Definition siren : string := bytes [240; 159; 154; 168]%nat.
Definition new_button : string := bytes [240; 159; 134; 149]%nat.

(** [float * float]. *)
Definition mul : float -> float -> float := SFmul Float.prec Float.emax.

(** The literal [0.05]: the double nearest to 5/100. *)
Definition five_percent : float :=
  Float.div (Float.of_Z 5) (Float.of_Z 100).

Section WithBotRuntime.
Context {T : BotRuntime}.

(** [not x] for what [os.environ.get] returned. *)
Definition unset (x : option string) : bool :=
  match x with
  | None => true
  | Some s => String.eqb s EmptyString
  end.

Definition text_of (x : option string) : string :=
  match x with
  | None => "None"
  | Some s => s
  end.

Definition telegram_url : string :=
  "https://api.telegram.org/bot" ++ text_of telegram_token ++ "/sendMessage".

Definition telegram_payload (message : string) : list (string * string) :=
  [("chat_id", text_of chat_id); ("text", message); ("parse_mode", "Markdown")].

(** The text of the exception in the error record is not modelled. *)
Definition send_telegram_message (message : string) : B unit :=
  if unset telegram_token || unset chat_id then
    logging WARNING "Telegram token or chat ID not set; skipping message."
  else
    fun bw =>
      let url := telegram_url in
      let payload := telegram_payload message in
      let ok := http_post (List.length (b_posts bw)) url payload in
      let bw1 :=
        mkBotWorld (b_world bw) (b_posts bw ++ [mkPost url payload ok])
          (b_sleeps bw) in
      if ok then (Ok tt, bw1)
      else logging ERROR "Failed to send Telegram message" bw1.

Definition price_drop_message (a : Anomaly) : string :=
  warning_sign ++ " *Price Drop Alert*" ++ newline
  ++ "Product: " ++ a_name a ++ newline
  ++ "Marketplace: " ++ a_marketplace a ++ newline
  ++ "Current Price: " ++ format_fixed 2 (current_price a) ++ " THB" ++ newline
  ++ "Rolling Mean: " ++ format_fixed 2 (rolling_mean a) ++ " THB" ++ newline
  ++ "Drop: " ++ format_fixed 1 (mul (drop_pct a) (Float.of_Z 100)) ++ "%".

(** An empty frame has no rows to iterate over, so the test on
    [anomalies.empty] changes nothing. *)
Definition check_price_drop : B unit :=
  anomalies <- engine (detect_price_anomalies 5 five_percent) ;;
  for_each anomalies (fun row => send_telegram_message (price_drop_message row)).

(** The stub. *)
Definition fetch_recent_reviews : list string := [].

Definition negative_keywords : list string :=
  ["bad"; "slow"; "poor"; "terrible"; "disappointing"; "worst"; "hate"].

Definition is_negative (word : string) : bool :=
  existsb (String.eqb word) negative_keywords.

Definition analyse_sentiment (texts : list string) : Z :=
  fold_left
    (fun negative_word_count text =>
       let words := str_split (str_lower text) in
       negative_word_count + Z.of_nat (List.length (filter is_negative words)))
    texts 0.

Definition review_message (neg_count : Z) : string :=
  siren ++ " *Negative Review Surge*" ++ newline
  ++ "Detected " ++ str_of_int neg_count
  ++ " negative words in recent reviews. Immediate action recommended.".

Definition check_reviews : B unit :=
  let reviews := fetch_recent_reviews in
  let neg_count := analyse_sentiment reviews in
  if Z.ltb 100 neg_count
  then send_telegram_message (review_message neg_count)
  else bret tt.

(** [set(pd.read_sql_query('SELECT DISTINCT name FROM products',
    conn)['name'].tolist())]: a set is kept as the list of its elements,
    without repetition. pandas raises when the table is missing; as in
    [detect_price_anomalies], the model names SQLite's own exception. *)
Definition select_distinct_names : B (list string) :=
  fun bw =>
    match w_db (b_world bw) with
    | None => (Raise OperationalError, bw)
    | Some rows => (Ok (nodup string_dec (map row_name rows)), bw)
    end.

(** [x in s]. *)
Definition in_set (x : string) (s : list string) : bool :=
  existsb (String.eqb x) s.

(** [a - b] on sets. *)
Definition difference (a b : list string) : list string :=
  filter (fun x => negb (in_set x b)) a.

Definition new_product_message (product : string) : string :=
  new_button ++ " *New Product Listed*" ++ newline ++ "Product: " ++ product.

Definition check_new_listings (seen_products : list string)
  : B (list string) :=
  current_products <- select_distinct_names ;;
  let new_products := difference current_products seen_products in
  for_each (set_order new_products)
    (fun product => send_telegram_message (new_product_message product)) ;;
  bret current_products.

(** The body of [while True]. *)
Definition iteration (seen_products : list string) : B (list string) :=
  seen <-
    btry
      (check_price_drop ;;
       check_reviews ;;
       check_new_listings seen_products)
      (fun e =>
         logging ERROR ("Error in bot loop: " ++ exn_name e) ;;
         bret seen_products) ;;
  sleep 600 ;;
  bret seen.

(** The first [iterations] rounds of the loop, which never ends by
    itself. *)
Fixpoint loop (iterations : nat) (seen_products : list string)
  : B (list string) :=
  match iterations with
  | O => bret seen_products
  | S n =>
      seen <- iteration seen_products ;;
      loop n seen
  end.

(** [main()], up to the given number of rounds. *)
Definition main (iterations : nat) : B (list string) :=
  seen_products <- select_distinct_names ;;
  logging INFO
    ("Loaded " ++ str_of_int (Z.of_nat (List.length seen_products))
     ++ " existing products.") ;;
  loop iterations seen_products.

End WithBotRuntime.

(** The text of the message that a POST carries. *)
Definition text_sent (p : Post) : string :=
  match find (fun kv => String.eqb (fst kv) "text") (post_data p) with
  | Some kv => snd kv
  | None => EmptyString
  end.

(** Whether the bot has what it needs to send messages. *)
Definition configured {T : BotRuntime} : bool :=
  negb (unset telegram_token || unset chat_id).

(** A world [bw'] reached from [bw] by logging and posting only: the store,
    the export file, the record of operations, the requests for pages and
    the clock of the engine are as they were. *)
Definition only_talked (bw bw' : BotWorld) : Prop :=
  w_db (b_world bw') = w_db (b_world bw) /\
  w_csv (b_world bw') = w_csv (b_world bw) /\
  w_io (b_world bw') = w_io (b_world bw) /\
  w_requests (b_world bw') = w_requests (b_world bw) /\
  w_ticks (b_world bw') = w_ticks (b_world bw).

(** A bot with credentials whose messages are all delivered. *)
Definition demo_bot : BotRuntime := {|
  telegram_token := Some "TOKEN";
  chat_id := Some "42";
  http_post := fun _ _ _ => true;
  format_fixed := fun _ _ => "0.00";
  str_lower := fun s => s;
  str_split := fun s => [s];
  set_order := fun l => l;
  set_order_perm := fun l => Permutation_refl l
|}.

(** A bot without credentials. *)
Definition mute_bot : BotRuntime := {|
  telegram_token := None;
  chat_id := Some "42";
  http_post := fun _ _ _ => true;
  format_fixed := fun _ _ => "0.00";
  str_lower := fun s => s;
  str_split := fun s => [s];
  set_order := fun l => l;
  set_order_perm := fun l => Permutation_refl l
|}.

(** The bot starting on the given world of the engine. *)
Definition bot_on (w : World) : BotWorld := mkBotWorld w [] 0.

End Bot.

(** ** More example data *)

(** The environment [base] with another network and other result cards on
    the Shopee search page. *)
Definition with_pages (base : Runtime) (net : nat -> string -> option string)
    (cards : list (option string * option string)) : Runtime := {|
  float_repr := @float_repr base;
  float_of_str := @float_of_str base;
  json_loads := @json_loads base;
  http_get := net;
  utcnow_at := @utcnow_at base;
  shopee_result_items := fun _ => cards;
  lazada_next_data := @lazada_next_data base;
  jd_ld_json_scripts := @jd_ld_json_scripts base;
  container_str := @container_str base
|}.

(** An environment in which no request is answered. *)
Definition offline_runtime : Runtime :=
  with_pages demo_runtime (fun _ _ => None) [].

(** An environment whose Shopee API answers with an empty list of items and
    whose search page shows three result cards. *)
Definition cards_runtime : Runtime :=
  with_pages (runtime_with (VDict [("items", VList [])]))
    (fun _ _ => Some "page")
    [ (Some "Phone H1", Some (baht ++ "799.0"));
      (Some "Phone H2", Some (baht ++ "799.0"));
      (Some "Phone H3", Some (baht ++ "799.0")) ].



(** Two records that differ in the name only: the one has none, the other
    the empty string. *)
Definition unnamed : Product :=
  mkProduct "Shopee" VNone (VFloat (Float.of_Z 1000)) (VStr "THB")
    [("brand", VStr "Acme, Inc.")] VNone VNone monday.

Definition empty_named : Product :=
  mkProduct "Shopee" (VStr "") (VFloat (Float.of_Z 1000)) (VStr "THB")
    [("brand", VStr "Acme, Inc.")] VNone VNone monday.

(* ================================================================== *)
(** * Part II. Lemmas and theorems                                     *)
(* ================================================================== *)

(** ** Strings *)

Lemma append_assoc (a b c : string) : (a ++ b) ++ c = a ++ (b ++ c).
Proof. induction a as [| x a IH]; simpl; [reflexivity | now rewrite IH]. Qed.

Lemma append_nil_r (a : string) : a ++ EmptyString = a.
Proof. induction a as [| x a IH]; simpl; [reflexivity | now rewrite IH]. Qed.

(** ** Lists *)

Lemma in_firstn {A} (n : nat) (l : list A) (x : A) :
  In x (firstn n l) -> In x l.
Proof.
  intros H. rewrite <- (firstn_skipn n l). apply in_or_app. now left.
Qed.

(** ** Floats *)

Module FloatFacts.

Lemma fexp_eq (x : Z) : fexp Float.prec Float.emax x = Z.max (x - 53) (-1074).
Proof. reflexivity. Qed.

Lemma div_eucl_exact (a b : Z) : 0 < b -> Z.div_eucl (a * b) b = (a, 0).
Proof.
  intros Hb. generalize (Z.div_eucl_eq (a * b) b ltac:(lia)).
  generalize (Z.mod_pos_bound (a * b) b Hb). unfold Z.modulo, Z.div.
  destruct (Z.div_eucl (a * b) b) as [q r]. intros Hr Hq.
  assert (q = a) by nia. subst q. f_equal. lia.
Qed.

(** Dividing a binary64 number by 1.0 gives the number back. *)
Lemma div_one (s : bool) (m : positive) (e : Z) :
  Float.valid (S754_finite s m e) = true ->
  Float.div (S754_finite s m e) Float.one = S754_finite s m e.
Proof.
  unfold Float.valid, valid_binary, bounded, canonical_mantissa.
  intros H. apply andb_true_iff in H. destruct H as [Hc Hb].
  apply Z.eqb_eq in Hc. apply Z.leb_le in Hb. rewrite fexp_eq in Hc.
  unfold Float.prec, Float.emax in Hb.
  unfold Float.div, SFdiv, Float.one, SFdiv_core_binary.
  change (Zdigits2 (Z.pos m)) with (Z.pos (digits2_pos m)).
  change (Zdigits2 4503599627370496) with 53.
  rewrite xorb_false_r.
  set (d := Z.pos (digits2_pos m)) in *.
  rewrite fexp_eq.
  assert (Hcase : (d = 53 /\ e > -1074) \/ (e = -1074 /\ d <= 53)) by lia.
  destruct Hcase as [[Hd He] | [He Hd]].
  - replace (Z.min (Z.max (d + e - (53 + -52) - 53) (-1074)) (e - -52))
      with (e - 1) by lia.
    replace (e - -52 - (e - 1)) with 53 by lia.
    rewrite Z.shiftl_mul_pow2 by lia.
    replace (Z.pos m * 2 ^ 53) with (Z.pos m~0 * 4503599627370496)
      by (change (2 ^ 53) with (2 * 4503599627370496); lia).
    rewrite div_eucl_exact by lia.
    unfold binary_round_aux, shr_fexp.
    change (Zdigits2 (Z.pos m~0)) with (Z.pos (Pos.succ (digits2_pos m))).
    rewrite Pos2Z.inj_succ. fold d. rewrite fexp_eq.
    replace (Z.max (Z.succ d + (e - 1) - 53) (-1074) - (e - 1)) with 1 by lia.
    cbn -[Z.add Z.sub Z.max Z.leb Z.min]. fold d. rewrite fexp_eq.
    replace (Z.max (d + (e - 1 + 1) - 53) (-1074) - (e - 1 + 1)) with 0 by lia.
    cbn -[Z.add Z.sub Z.max Z.leb Z.min]. replace (e - 1 + 1) with e by lia.
    unfold Float.emax, Float.prec.
    destruct (Z.leb_spec e (1024 - 53)); [reflexivity | lia].
  - replace (Z.min (Z.max (d + e - (53 + -52) - 53) (-1074)) (e - -52))
      with e by lia.
    replace (e - -52 - e) with 52 by lia.
    rewrite Z.shiftl_mul_pow2 by lia. change (2 ^ 52) with 4503599627370496.
    rewrite div_eucl_exact by lia.
    unfold binary_round_aux, shr_fexp.
    change (Zdigits2 (Z.pos m)) with d. rewrite fexp_eq.
    replace (Z.max (d + e - 53) (-1074) - e) with 0 by lia.
    cbn -[Z.add Z.sub Z.max Z.leb Z.min]. fold d. rewrite fexp_eq.
    replace (Z.max (d + e - 53) (-1074) - e) with 0 by lia.
    cbn -[Z.add Z.sub Z.max Z.leb Z.min]. unfold Float.emax, Float.prec.
    destruct (Z.leb_spec e (1024 - 53)); [reflexivity | lia].
Qed.

(** [x - x] is [+0.0] for a finite [x]. *)
Lemma sub_self (s : bool) (m : positive) (e : Z) :
  Float.sub (S754_finite s m e) (S754_finite s m e) = Float.zero.
Proof.
  unfold Float.sub, SFsub. rewrite Z.sub_diag. reflexivity.
Qed.

(** *** Rounding keeps the sign *)

Lemma shr_1_nonneg (mrs : shr_record) : 0 <= shr_m mrs -> 0 <= shr_m (shr_1 mrs).
Proof.
  destruct mrs as [m r s]. simpl.
  destruct m as [| p | p]; [| destruct p | lia]; simpl; lia.
Qed.

Lemma iter_pos_invariant {A} (P : A -> Prop) (f : A -> A) :
  (forall a, P a -> P (f a)) -> forall n a, P a -> P (iter_pos f n a).
Proof.
  intros Hf. induction n as [n IH | n IH |]; intros a Ha; simpl.
  - apply IH, IH, Hf, Ha.
  - apply IH, IH, Ha.
  - apply Hf, Ha.
Qed.

Lemma shr_nonneg (mrs : shr_record) (e n : Z) :
  0 <= shr_m mrs -> 0 <= shr_m (fst (shr mrs e n)).
Proof.
  intros H. unfold shr. destruct n as [| p | p]; simpl; try exact H.
  apply (iter_pos_invariant (fun r => 0 <= shr_m r)); [apply shr_1_nonneg | exact H].
Qed.

Lemma shr_fexp_nonneg (m e : Z) (l : location) :
  0 <= m -> 0 <= shr_m (fst (shr_fexp Float.prec Float.emax m e l)).
Proof.
  intros H. unfold shr_fexp. apply shr_nonneg.
  destruct l as [| []]; exact H.
Qed.

Lemma round_nearest_even_nonneg (m : Z) (l : location) :
  0 <= m -> 0 <= round_nearest_even m l.
Proof.
  intros H. destruct l as [| []]; simpl; try exact H; try lia.
  destruct (Z.even m); lia.
Qed.

Lemma binary_round_aux_sign (s : bool) (m e : Z) (l : location) :
  0 <= m -> Float.has_sign s (binary_round_aux Float.prec Float.emax s m e l).
Proof.
  intros H. unfold binary_round_aux.
  pose proof (shr_fexp_nonneg m e l H) as H1.
  destruct (shr_fexp Float.prec Float.emax m e l) as [mrs' e'].
  simpl in H1.
  pose proof (shr_fexp_nonneg
                (round_nearest_even (shr_m mrs') (loc_of_shr_record mrs')) e'
                loc_Exact (round_nearest_even_nonneg _ _ H1)) as H2.
  destruct (shr_fexp Float.prec Float.emax
              (round_nearest_even (shr_m mrs') (loc_of_shr_record mrs')) e'
              loc_Exact) as [mrs'' e''].
  simpl in H2. destruct (shr_m mrs'') as [| p | p]; simpl.
  - reflexivity.
  - match goal with |- context [if ?b then _ else _] => destruct b end;
      exact eq_refl.
  - lia.
Qed.

Lemma binary_round_sign (s : bool) (m : positive) (e : Z) :
  Float.has_sign s (binary_round Float.prec Float.emax s m e).
Proof.
  unfold binary_round.
  destruct (shl_align m e (fexp Float.prec Float.emax (Z.pos (digits2_pos m) + e)))
    as [mz ez].
  apply binary_round_aux_sign. lia.
Qed.

(** An integer that is not negative converts to a float that is not
    negative. *)
Lemma of_Z_sign (z : Z) : 0 <= z -> Float.has_sign false (Float.of_Z z).
Proof.
  intros H. unfold Float.of_Z, binary_normalize.
  destruct z as [| p | p]; [exact eq_refl | apply binary_round_sign | lia].
Qed.


(** Dividing by a finite number combines the signs. *)
Lemma div_sign (sx sy : bool) (x : float) (my : positive) (ey : Z) :
  Float.has_sign sx x ->
  Float.has_sign (xorb sx sy) (Float.div x (S754_finite sy my ey)).
Proof.
  destruct x as [s | s | | s mx ex]; simpl; intros Hx; subst;
    try contradiction; try exact eq_refl.
  unfold Float.div, SFdiv, SFdiv_core_binary.
  match goal with
  | |- context [Z.div_eucl ?n ?d] =>
      pose proof (Z.div_pos n d) as Hq; unfold Z.div in Hq;
      assert (Hn : 0 <= n);
      [| destruct (Z.div_eucl n d) as [q r]]
  end.
  - match goal with
    | |- 0 <= match ?sh with Z0 => _ | Zpos _ => _ | Zneg _ => _ end =>
        destruct sh eqn:Hsh; try lia
    end.
    apply Z.shiftl_nonneg. lia.
  - apply binary_round_aux_sign. apply Hq; [exact Hn | lia].
Qed.

End FloatFacts.

(** ** The store: [save_to_db] *)

Section Store.
Context {R : Runtime}.

Lemma bind_rows_length (ts : list (list value)) (rows : list Row) :
  bind_rows ts = Ok rows -> List.length rows = List.length ts.
Proof.
  revert rows. induction ts as [| t ts IH]; intros rows H; simpl in H.
  - injection H as <-. reflexivity.
  - destruct (bind_row t) as [r |]; simpl in H; [| discriminate].
    destruct (bind_rows ts) as [rs |]; simpl in H; [| discriminate].
    injection H as <-. simpl. f_equal. apply IH. reflexivity.
Qed.




End Store.


(** ** The export file: [save_to_csv] *)

Section ExportFile.
Context {R : Runtime}.

Lemma csv_line_not_empty (cells : list string) (tail : string) :
  (String.length (csv_line cells ++ tail) =? 0)%nat = false.
Proof.
  unfold csv_line.
  induction (Json.join "," (map csv_quote cells)) as [| c s IH]; reflexivity.
Qed.



End ExportFile.


(** ** The detector: [detect_price_anomalies] *)

Section Detector.

Import FloatFacts.

Lemma key_eqb_eq (a b : string * string) : key_eqb a b = true <-> a = b.
Proof.
  destruct a as [a1 a2], b as [b1 b2]. unfold key_eqb. simpl.
  rewrite andb_true_iff, !String.eqb_eq. split.
  - intros [-> ->]. reflexivity.
  - intros H. injection H as -> ->. split; reflexivity.
Qed.

(** A group yields at most one row, and it carries the key of the group. *)
Lemma check_group_key (k : string * string) (group : list Row) (w : nat)
    (t : float) (a : Anomaly) :
  In a (check_group k group w t) -> anomaly_key a = k.
Proof.
  unfold check_group. destruct (rev (sort_values group)) as [| latest rest].
  - intros [].
  - match goal with |- context [if ?b then _ else _] => destruct b end.
    + intros [<- | []]. destruct k. reflexivity.
    + intros [].
Qed.

Lemma flagged_app (key : string * string) (l1 l2 : list Anomaly) :
  flagged key (l1 ++ l2) = flagged key l1 || flagged key l2.
Proof. unfold flagged. apply existsb_app. Qed.

Lemma not_flagged_other (key k : string * string) (group : list Row)
    (w : nat) (t : float) :
  k <> key -> flagged key (check_group k group w t) = false.
Proof.
  intros Hk. unfold flagged.
  destruct (existsb _ _) eqn:E; [| reflexivity].
  apply existsb_exists in E. destruct E as [a [Ha Hkey]].
  apply check_group_key in Ha. apply key_eqb_eq in Hkey. congruence.
Qed.

(** When the group of [key] yields nothing, no row of the result is
    about [key]. *)
Lemma not_flagged_groups (key : string * string) (rows : list Row) (w : nat)
    (t : float) (keys : list (string * string)) :
  check_group key (group_of key rows) w t = [] ->
  flagged key
    (flat_map (fun k => check_group k (group_of k rows) w t) keys) = false.
Proof.
  intros Hkey. induction keys as [| k keys IH]; [reflexivity |].
  simpl. rewrite flagged_app, IH, orb_false_r.
  destruct (key_eqb k key) eqn:E.
  - apply key_eqb_eq in E. subst k. rewrite Hkey. reflexivity.
  - apply not_flagged_other. intros ->.
    assert (key_eqb key key = true) by now apply key_eqb_eq.
    congruence.
Qed.

(** The detector returns unless it is handed rows together with a window
    below 1; a series whose own group yields nothing is not in the
    result. *)
Lemma detect_in_not_flagged (key : string * string) (rows : list Row)
    (window : Z) (t : float) :
  check_group key (group_of key rows) (Z.to_nat window) t = [] ->
  match detect_in rows window t with
  | Ok found => flagged key found = false
  | Raise _ => window < 1
  end.
Proof.
  intros H. unfold detect_in. destruct rows as [| r rows]; [reflexivity |].
  destruct (Z.ltb_spec window 1); [assumption |].
  now apply not_flagged_groups.
Qed.

Lemma geb_nan (t : float) : Float.geb Float.nan t = false.
Proof. destruct t; reflexivity. Qed.

Lemma geb_zero_positive (s : bool) (t : float) :
  Float.ltb Float.zero t = true -> Float.geb (S754_zero s) t = false.
Proof. destruct t as [| [] | | [] ? ?]; simpl; try discriminate; reflexivity. Qed.

(** The drop of a series of one observation is zero or NaN, and a positive
    threshold is above both. *)
Lemma single_price_drop (p t : float) :
  Float.valid p = true ->
  Float.ltb Float.zero t = true ->
  let mean := window_mean [p] in
  Float.geb (Float.div (Float.sub mean p) mean) t = false.
Proof.
  intros Hv Ht. destruct p as [s | s | | s m e]; cbn zeta.
  - destruct s; apply geb_nan.
  - destruct s; apply geb_nan.
  - apply geb_nan.
  - unfold window_mean, fsum. cbn [filter Float.is_nan negb fold_left List.length].
    change (Float.add Float.zero (S754_finite s m e)) with (S754_finite s m e).
    change (Float.of_Z (Z.of_nat 1)) with Float.one.
    rewrite div_one by exact Hv. rewrite sub_self.
    change (Float.div Float.zero (S754_finite s m e))
      with (S754_zero (xorb false s)).
    now apply geb_zero_positive.
Qed.

Lemma check_group_single (key : string * string) (r : Row) (w : nat)
    (t : float) :
  Float.valid (price_of r) = true ->
  Float.ltb Float.zero t = true ->
  check_group key [r] w t = [].
Proof.
  intros Hv Ht. unfold check_group. cbn [sort_values fold_right insert_row rev app map].
  unfold last_window. cbn [List.length].
  destruct w as [| w].
  - cbn [Nat.sub skipn]. change (window_mean []) with Float.nan.
    rewrite geb_nan. reflexivity.
  - replace (1 - S w)%nat with 0%nat by lia. cbn [skipn].
    rewrite (single_price_drop _ _ Hv Ht). reflexivity.
Qed.

(** C3. A series with a single observation is never reported when the
    threshold is positive: for every store and every window, the detector
    either returns a result without that series, or (for a window below 1)
    raises before it reports anything. *)
Theorem single_observation_not_flagged (w : World) (rows : list Row)
    (window : Z) (threshold : float) (key : string * string) (r : Row) :
  w_db w = Some rows ->
  group_of key rows = [r] ->
  Float.valid (price_of r) = true ->
  Float.ltb Float.zero threshold = true ->
  match fst (detect_price_anomalies window threshold w) with
  | Ok found => flagged key found = false
  | Raise _ => window < 1
  end.
Proof.
  intros Hdb Hgroup Hv Ht. unfold detect_price_anomalies. rewrite Hdb.
  cbn [fst]. apply detect_in_not_flagged.
  rewrite Hgroup. now apply check_group_single.
Qed.

(** *** A rolling mean of zero *)


Lemma nonneg_cases (p : float) :
  nonneg p = true -> Float.has_sign false p \/ p = S754_zero true.
Proof.
  destruct p as [[] | [] | | [] m e]; simpl; intros H;
    try discriminate; auto.
Qed.










End Detector.

(** *** The detector on the example series *)

(** The theorem on [mixed_store]: the tablet is reported, the phone is
    not. *)
Lemma single_observation_not_flagged_witness :
  group_of phone_key mixed_store = [observation "2025-01-01T08:00:00" 1000] /\
  match fst (detect_price_anomalies 5 (ratio 5 100) (store_of mixed_store)) with
  | Ok found => flagged phone_key found = false
  | Raise _ => 5 < 1
  end /\
  detect_price_anomalies 5 (ratio 5 100) (store_of mixed_store) =
    (Ok [mkAnomaly "Lazada" "Tablet" (Float.of_Z 600) (Float.of_Z 920)
           (Float.div (Float.sub (Float.of_Z 920) (Float.of_Z 600))
              (Float.of_Z 920))],
     store_of mixed_store).
Proof.
  split; [reflexivity | split].
  - exact (single_observation_not_flagged (store_of mixed_store) mixed_store 5
             (ratio 5 100) phone_key (observation "2025-01-01T08:00:00" 1000)
             eq_refl eq_refl eq_refl eq_refl).
  - vm_compute. reflexivity.
Defined.

(** C3, as the spec words it, fails at the threshold 0: the only
    observation of the series is reported, with a drop of 0. *)
Lemma single_observation_flagged_at_zero_threshold :
  detect_price_anomalies 5 Float.zero
    (store_of [observation "2025-01-01T08:00:00" 1000]) =
    (Ok [mkAnomaly "Shopee" "Phone" (Float.of_Z 1000) (Float.of_Z 1000)
           Float.zero],
     store_of [observation "2025-01-01T08:00:00" 1000]) /\
  flagged phone_key
    [mkAnomaly "Shopee" "Phone" (Float.of_Z 1000) (Float.of_Z 1000)
       Float.zero] = true.
Proof. split; vm_compute; reflexivity. Qed.

(** C4. With a window of 5 and a threshold of 0.05, the series 1000, 1000,
    1000, 1000, 600 is reported, alone, with the current price 600, the
    rolling mean 920 and the drop (920 - 600) / 920, a double between
    0.3478 and 0.3479; the series of five prices of 1000 is not reported.
    The detector leaves the world as it found it. *)
Theorem rolling_mean_example :
  detect_price_anomalies 5 (ratio 5 100) (store_of dropping_series) =
    (Ok [mkAnomaly "Shopee" "Phone" (Float.of_Z 600) (Float.of_Z 920)
           (Float.div (Float.sub (Float.of_Z 920) (Float.of_Z 600))
              (Float.of_Z 920))],
     store_of dropping_series) /\
  window_mean
    (last_window 5
       (map price_of (sort_values (group_of phone_key dropping_series)))) =
    Float.of_Z 920 /\
  Float.leb (ratio 3478 10000)
    (Float.div (Float.sub (Float.of_Z 920) (Float.of_Z 600)) (Float.of_Z 920))
    = true /\
  Float.leb
    (Float.div (Float.sub (Float.of_Z 920) (Float.of_Z 600)) (Float.of_Z 920))
    (ratio 3479 10000) = true /\
  detect_price_anomalies 5 (ratio 5 100) (store_of constant_series) =
    (Ok [], store_of constant_series).
Proof. repeat split; vm_compute; reflexivity. Qed.




(** ** The adapters *)

Section Adapters.
Context {R : Runtime}.

Lemma product_of_run (mk : string) (f : fields) (w : World) :
  product_of mk f w =
    (Ok (mkProduct mk (f_name f) (f_price f) (f_currency f) (f_specs f)
           (f_sales f) (f_rating f) (utcnow_at (w_ticks w))),
     set_ticks w (S (w_ticks w))).
Proof. reflexivity. Qed.

Lemma fields_of_product (mk : string) (f : fields) (d : datetime) :
  fields_of (mkProduct mk (f_name f) (f_price f) (f_currency f) (f_specs f)
               (f_sales f) (f_rating f) d) = f.
Proof. destruct f. reflexivity. Qed.

Ltac step_product :=
  unfold bind; rewrite product_of_run.

(** *** parse_jd_central: a block that fails is the only one left out *)

Lemma jd_loop_spec (scripts : list (option string)) (n : Z)
    (acc : list Product) (w : World) :
  exists new w',
    jd_loop scripts n acc w = (Ok (acc ++ new)%list, w') /\
    map fields_of new =
      firstn (Z.to_nat (Z.max 1 (n - Z.of_nat (List.length acc))))
        (jd_parsed scripts).
Proof.
  revert acc w. induction scripts as [| script rest IH]; intros acc w.
  - exists [], w. rewrite app_nil_r, firstn_nil. split; reflexivity.
  - cbn [jd_loop jd_parsed flat_map].
    destruct (jd_block_fields script) as [[f |] | e]; try apply IH.
    step_product. cbv zeta.
    set (p := mkProduct _ _ _ _ _ _ _ _).
    destruct (Z.geb_spec (Z.of_nat (List.length (acc ++ [p]))) n) as [Hfull | Hmore];
      rewrite length_app in *; cbn [List.length] in *.
    + exists [p], (set_ticks w (S (w_ticks w))). split; [reflexivity |].
      replace (Z.to_nat (Z.max 1 (n - Z.of_nat (List.length acc)))) with 1%nat by lia.
      cbn [app firstn map]. unfold p. now rewrite fields_of_product.
    + destruct (IH (acc ++ [p])%list (set_ticks w (S (w_ticks w))))
        as [new [w' [Hrun Hmap]]].
      exists (p :: new), w'. split.
      * rewrite Hrun. now rewrite <- app_assoc.
      * rewrite length_app in Hmap. cbn [List.length] in Hmap.
        replace (Z.to_nat (Z.max 1 (n - Z.of_nat (List.length acc))))
          with (S (Z.to_nat
                     (Z.max 1 (n - Z.of_nat (List.length acc + 1))))) by lia.
        cbn [app firstn map]. rewrite Hmap. unfold p.
        now rewrite fields_of_product.
Qed.

Lemma fetch_page_run (url : string) (w : World) :
  exists w', fetch_page url w = (Ok (http_get (w_requests w) url), w').
Proof.
  unfold fetch_page. destruct (http_get (w_requests w) url); eexists; reflexivity.
Qed.

(** [parse_jd_central] always returns, and what it returns are the records
    of the good blocks, up to the cap (which holds one record at least). *)
Lemma parse_jd_central_spec (query : string) (n : Z) (w : World) :
  exists ps w',
    parse_jd_central query n w = (Ok ps, w') /\
    map fields_of ps =
      firstn (Z.to_nat (Z.max 1 n))
        (jd_parsed (jd_scripts (http_get (w_requests w) (jd_search_url query)))).
Proof.
  unfold parse_jd_central, bind, jd_scripts.
  destruct (fetch_page_run (jd_search_url query) w) as [w1 ->].
  destruct (has_content _) as [page |].
  - destruct (jd_loop_spec (jd_ld_json_scripts page) n [] w1)
      as [new [w' [Hrun Hmap]]].
    exists new, w'. split; [exact Hrun |].
    rewrite Hmap. cbn [List.length Z.of_nat]. now rewrite Z.sub_0_r.
  - exists [], w1. split; [reflexivity |]. now rewrite firstn_nil.
Qed.

(** *** parse_lazada: the loop stops at the first item that fails *)

Lemma lazada_loop_spec (items : list value) (acc : list Product) (w : World) :
  exists new err w',
    lazada_loop items acc w = (Ok ((acc ++ new)%list, err), w') /\
    map fields_of new = lazada_parsed items.
Proof.
  revert acc w. induction items as [| item rest IH]; intros acc w.
  - exists [], None, w. rewrite app_nil_r. split; reflexivity.
  - cbn [lazada_loop lazada_parsed].
    destruct (lazada_item_fields item) as [f | e].
    + step_product. set (p := mkProduct _ _ _ _ _ _ _ _).
      destruct (IH (acc ++ [p])%list (set_ticks w (S (w_ticks w))))
        as [new [err [w' [Hrun Hmap]]]].
      exists (p :: new), err, w'. split.
      * rewrite Hrun. now rewrite <- app_assoc.
      * cbn [map]. rewrite Hmap. unfold p. now rewrite fields_of_product.
    + exists [], (Some e), w. rewrite app_nil_r. split; reflexivity.
Qed.

(** [parse_lazada] always returns: the records of the items before the
    first one that fails. *)
Lemma parse_lazada_spec (query : string) (n : Z) (w : World) :
  exists ps w',
    parse_lazada query n w = (Ok ps, w') /\
    map fields_of ps =
      lazada_parsed
        (lazada_page_items (http_get (w_requests w) (lazada_search_url query)) n).
Proof.
  unfold parse_lazada, bind, lazada_page_items.
  destruct (fetch_page_run (lazada_search_url query) w) as [w1 ->].
  destruct (has_content _) as [page |]; [| exists [], w1; split; reflexivity].
  destruct (lazada_next_data page) as [script_string |];
    [| exists [], w1; split; reflexivity].
  destruct (lazada_items script_string n) as [items | e].
  - destruct (lazada_loop_spec items [] w1) as [new [err [w' [Hrun Hmap]]]].
    rewrite Hrun. cbn [app snd fst].
    destruct err as [e |]; [| exists new, w'; split; [reflexivity | exact Hmap]].
    unfold log. eexists new, _. split; [reflexivity | exact Hmap].
  - unfold log. eexists [], _. split; reflexivity.
Qed.

(** C5. A failure on one item is local in two of the adapters. Whatever
    page is fetched, [parse_jd_central] returns, and its records are those
    of the blocks that parse, in page order and up to the cap: a block that
    fails is left out and nothing else is. [parse_lazada] returns too, with
    the records of the items that come before the first failing one. *)
Theorem item_failure_is_local (query : string) (max_results : Z) (w : World) :
  (exists ps w',
     parse_jd_central query max_results w = (Ok ps, w') /\
     map fields_of ps =
       firstn (Z.to_nat (Z.max 1 max_results))
         (jd_parsed
            (jd_scripts (http_get (w_requests w) (jd_search_url query))))) /\
  (exists ps w',
     parse_lazada query max_results w = (Ok ps, w') /\
     map fields_of ps =
       lazada_parsed
         (lazada_page_items
            (http_get (w_requests w) (lazada_search_url query)) max_results)).
Proof.
  split; [apply parse_jd_central_spec | apply parse_lazada_spec].
Qed.

(** *** parse_shopee: the API loop *)

Lemma shopee_api_loop_spec (items : list value) (acc : list Product)
    (w : World) (ps : list Product) (w' : World) :
  shopee_api_loop items acc w = (Ok ps, w') ->
  exists new,
    ps = (acc ++ new)%list /\
    Forall2 (fun item p => shopee_item_fields item = Ok (fields_of p)) items new.
Proof.
  revert acc w. induction items as [| item rest IH]; intros acc w Hrun.
  - injection Hrun as <- <-. exists []. rewrite app_nil_r.
    split; [reflexivity | constructor].
  - cbn [shopee_api_loop] in Hrun. unfold bind, lift in Hrun.
    destruct (shopee_item_fields item) as [f | e] eqn:Hf; [| discriminate].
    rewrite product_of_run in Hrun.
    set (p := mkProduct _ _ _ _ _ _ _ _) in Hrun.
    destruct (IH _ _ Hrun) as [new [-> Hall]].
    exists (p :: new). split; [now rewrite <- app_assoc |].
    constructor; [| exact Hall]. unfold p. now rewrite fields_of_product.
Qed.

(** The API loop keeps every item it is given: the cap is only sent to the
    server. *)
Lemma shopee_api_loop_length (items : list value) (w : World)
    (ps : list Product) (w' : World) :
  shopee_api_loop items [] w = (Ok ps, w') ->
  List.length ps = List.length items.
Proof.
  intros H. destruct (shopee_api_loop_spec _ _ _ _ _ H) as [new [-> Hall]].
  symmetry. exact (Forall2_length Hall).
Qed.

(** *** Where the price of a record comes from *)

Ltac split_binds H :=
  repeat match type of H with
         | context [rbind ?r _] =>
             let E := fresh "E" in
             destruct r eqn:E; cbn [rbind] in H; [| discriminate H]
         end.

Lemma sign_nonneg (x : float) : Float.has_sign false x -> nonneg x = true.
Proof. destruct x as [[] | [] | | [] m e]; simpl; intros H; try discriminate; try contradiction; reflexivity. Qed.

Lemma of_Z_nonneg (z : Z) : 0 <= z -> nonneg (Float.of_Z z) = true.
Proof. intros H. apply sign_nonneg, FloatFacts.of_Z_sign, H. Qed.

Lemma div_nonneg (x : float) (m : positive) (e : Z) :
  nonneg x = true -> nonneg (Float.div x (S754_finite false m e)) = true.
Proof.
  intros Hx. destruct (nonneg_cases x Hx) as [H | ->]; [| reflexivity].
  apply sign_nonneg. exact (FloatFacts.div_sign false false x m e H).
Qed.

Lemma float_of_int_nonneg (z : Z) (x : float) :
  float_of_int z = Ok x -> 0 <= z -> nonneg x = true.
Proof.
  unfold float_of_int. destruct (Float.is_inf (Float.of_Z z)); [discriminate |].
  intros H Hz. injection H as <-. now apply of_Z_nonneg.
Qed.

Lemma truediv_nonneg (raw : value) (x : float) :
  truediv raw (Float.of_Z 100000) = Ok x ->
  number_nonneg raw = true -> nonneg x = true.
Proof.
  change (Float.of_Z 100000) with (S754_finite false 6871947673600000 (-36)).
  destruct raw as [| b | z | f | | |]; simpl; intros H Hraw; try discriminate.
  - injection H as <-. apply div_nonneg. destruct b; reflexivity.
  - destruct (float_of_int z) as [f |] eqn:E; [| discriminate].
    simpl in H. injection H as <-. apply div_nonneg.
    apply (float_of_int_nonneg z f E). now apply Z.leb_le.
  - injection H as <-. now apply div_nonneg.
Qed.

Lemma py_float_nonneg (raw : value) (x : float) :
  py_float raw = Ok x -> number_nonneg raw = true -> nonneg x = true.
Proof.
  destruct raw as [| b | z | f | | |]; simpl; intros H Hraw; try discriminate.
  - injection H as <-. destruct b; reflexivity.
  - apply (float_of_int_nonneg z x H). now apply Z.leb_le.
  - injection H as <-. exact Hraw.
Qed.

Lemma shopee_item_price (item : value) (f : fields) :
  shopee_item_fields item = Ok f ->
  exists raw x,
    shopee_raw_price item = Ok raw /\
    truediv raw (Float.of_Z 100000) = Ok x /\
    f_price f = VFloat x.
Proof.
  unfold shopee_item_fields, shopee_raw_price. intros H. split_binds H.
  injection H as <-. cbn [rbind f_price]. eauto.
Qed.

Lemma lazada_item_price (item : value) (f : fields) :
  lazada_item_fields item = Ok f ->
  exists raw, lazada_raw_price item = Ok raw /\ f_price f = raw.
Proof.
  unfold lazada_item_fields, lazada_raw_price. intros H. split_binds H.
  injection H as <-. cbn [rbind f_price]. eauto.
Qed.

Lemma jd_block_price (script : option string) (f : fields) :
  jd_block_fields script = Ok (Some f) ->
  exists raw x,
    jd_raw_price script = Ok raw /\ py_float raw = Ok x /\ f_price f = VFloat x.
Proof.
  unfold jd_block_fields, jd_raw_price. intros H.
  destruct (loads script) as [data |]; cbn [rbind] in *; [| discriminate].
  destruct (is_dict data); [| discriminate].
  destruct (get data "@type" VNone) as [ty |]; cbn [rbind] in H; [| discriminate].
  destruct (eq_str ty "Product"); [| discriminate].
  split_binds H. injection H as <-. cbn [rbind f_price]. eauto.
Qed.

Lemma in_jd_parsed (scripts : list (option string)) (f : fields) :
  In f (jd_parsed scripts) ->
  exists script, In script scripts /\ jd_block_fields script = Ok (Some f).
Proof.
  unfold jd_parsed. rewrite in_flat_map. intros [script [Hin Hf]].
  exists script. split; [exact Hin |].
  destruct (jd_block_fields script) as [[g |] | e]; try contradiction.
  destruct Hf as [-> | []]. reflexivity.
Qed.

Lemma in_lazada_parsed (items : list value) (f : fields) :
  In f (lazada_parsed items) ->
  exists item, In item items /\ lazada_item_fields item = Ok f.
Proof.
  induction items as [| item rest IH]; [intros [] |].
  cbn [lazada_parsed]. destruct (lazada_item_fields item) as [g |] eqn:E;
    [| intros []].
  intros [-> | Hin].
  - exists item. split; [left; reflexivity | exact E].
  - destruct (IH Hin) as [it [Hit Hf]]. exists it. split; [right |]; assumption.
Qed.

(** C1. The price of a record is the price of its payload item: divided by
    100000 in the Shopee API loop, passed through [float] by
    [parse_jd_central], copied unchanged by [parse_lazada] (a missing price
    reads as 0 in all three). So the price that the first two store is not
    negative whenever the payload price is a number that is not negative,
    and [parse_jd_central] emits a record only for a block whose price
    [float] converts. *)
Theorem record_price_follows_payload :
  (forall items w ps w',
      shopee_api_loop items [] w = (Ok ps, w') ->
      Forall2
        (fun item p =>
           exists raw x,
             shopee_raw_price item = Ok raw /\
             truediv raw (Float.of_Z 100000) = Ok x /\
             price p = VFloat x /\
             (number_nonneg raw = true -> nonneg x = true))
        items ps) /\
  (forall query max_results w,
      exists ps w',
        parse_jd_central query max_results w = (Ok ps, w') /\
        Forall
          (fun p =>
             exists script raw x,
               In script
                 (jd_scripts (http_get (w_requests w) (jd_search_url query))) /\
               jd_raw_price script = Ok raw /\
               py_float raw = Ok x /\
               price p = VFloat x /\
               (number_nonneg raw = true -> nonneg x = true))
          ps) /\
  (forall query max_results w,
      exists ps w',
        parse_lazada query max_results w = (Ok ps, w') /\
        Forall
          (fun p =>
             exists item,
               In item
                 (lazada_page_items
                    (http_get (w_requests w) (lazada_search_url query))
                    max_results) /\
               lazada_raw_price item = Ok (price p))
          ps).
Proof.
  split; [| split].
  - intros items w ps w' Hrun.
    destruct (shopee_api_loop_spec _ _ _ _ _ Hrun) as [new [-> Hall]].
    cbn [app]. clear Hrun.
    induction Hall as [| item p items new Hf _ IH]; [constructor |].
    constructor; [| exact IH].
    destruct (shopee_item_price _ _ Hf) as [raw [x [Hraw [Hdiv Hp]]]].
    exists raw, x. repeat split; try assumption.
    now apply truediv_nonneg.
  - intros query n w.
    destruct (parse_jd_central_spec query n w) as [ps [w' [Hrun Hmap]]].
    exists ps, w'. split; [exact Hrun |].
    apply Forall_forall. intros p Hp.
    assert (Hin : In (fields_of p) (jd_parsed (jd_scripts
              (http_get (w_requests w) (jd_search_url query))))).
    { eapply in_firstn. rewrite <- Hmap. now apply in_map. }
    destruct (in_jd_parsed _ _ Hin) as [script [Hs Hf]].
    destruct (jd_block_price _ _ Hf) as [raw [x [Hraw [Hx Hprice]]]].
    exists script, raw, x. repeat split; try assumption.
    now apply py_float_nonneg.
  - intros query n w.
    destruct (parse_lazada_spec query n w) as [ps [w' [Hrun Hmap]]].
    exists ps, w'. split; [exact Hrun |].
    apply Forall_forall. intros p Hp.
    assert (Hin : In (fields_of p) (lazada_parsed (lazada_page_items
              (http_get (w_requests w) (lazada_search_url query)) n))).
    { rewrite <- Hmap. now apply in_map. }
    destruct (in_lazada_parsed _ _ Hin) as [item [Hi Hf]].
    destruct (lazada_item_price _ _ Hf) as [raw [Hraw Hprice]].
    exists item. split; [exact Hi |]. rewrite Hraw. f_equal.
    symmetry. exact Hprice.
Qed.

(** *** The cap in the sibling paths *)

Lemma lazada_parsed_length (items : list value) :
  (List.length (lazada_parsed items) <= List.length items)%nat.
Proof.
  induction items as [| item rest IH]; [reflexivity |].
  cbn [lazada_parsed]. destruct (lazada_item_fields item); simpl; lia.
Qed.

Lemma lazada_items_length (script_string : option string) (n : Z)
    (items : list value) :
  0 <= n ->
  lazada_items script_string n = Ok items ->
  (List.length items <= Z.to_nat n)%nat.
Proof.
  intros Hn H. unfold lazada_items in H. split_binds H.
  match goal with
  | Hs : slice_to ?v n = Ok _ |- _ => destruct v; try discriminate Hs;
      cbn [slice_to] in Hs; injection Hs as <-
  end; cbn [iter] in H; injection H as <-;
    unfold slice_stop; destruct (Z.ltb_spec n 0); try lia.
  - unfold chars, substring_to.
    rewrite length_map, list_ascii_of_string_of_list_ascii.
    apply firstn_le_length.
  - apply firstn_le_length.
Qed.

(** X1. [parse_lazada] slices before it loops, and [parse_jd_central] breaks
    when the cap is reached: neither returns more than [max_results]
    records (than one record, for a cap below 1 in [parse_jd_central]). *)
Lemma sibling_paths_respect_cap (query : string) (max_results : Z) (w : World) :
  (0 <= max_results ->
   exists ps w',
     parse_lazada query max_results w = (Ok ps, w') /\
     Z.of_nat (List.length ps) <= max_results) /\
  (exists ps w',
     parse_jd_central query max_results w = (Ok ps, w') /\
     Z.of_nat (List.length ps) <= Z.max 1 max_results).
Proof.
  split.
  - intros Hn.
    destruct (parse_lazada_spec query max_results w) as [ps [w' [Hrun Hmap]]].
    exists ps, w'. split; [exact Hrun |].
    apply (f_equal (@List.length _)) in Hmap. rewrite length_map in Hmap.
    pose proof (lazada_parsed_length
                  (lazada_page_items
                     (http_get (w_requests w) (lazada_search_url query))
                     max_results)) as Hle.
    assert (Hitems : (List.length
                        (lazada_page_items
                           (http_get (w_requests w) (lazada_search_url query))
                           max_results) <= Z.to_nat max_results)%nat).
    { unfold lazada_page_items.
      destruct (has_content _); [| simpl; lia].
      destruct (lazada_next_data _) as [script_string |]; [| simpl; lia].
      destruct (lazada_items script_string max_results) eqn:E; [| simpl; lia].
      now apply (lazada_items_length script_string). }
    lia.
  - destruct (parse_jd_central_spec query max_results w) as [ps [w' [Hrun Hmap]]].
    exists ps, w'. split; [exact Hrun |].
    apply (f_equal (@List.length _)) in Hmap. rewrite length_map in Hmap.
    pose proof (firstn_le_length (Z.to_nat (Z.max 1 max_results))
                  (jd_parsed (jd_scripts
                     (http_get (w_requests w) (jd_search_url query))))) as Hle.
    lia.
Qed.

End Adapters.

(** *** The adapters on the example pages *)

(** With three good blocks out of four, [parse_jd_central] returns the
    first and the last and passes over the two between them. *)
Lemma parse_jd_central_example :
  exists ps w',
    @parse_jd_central demo_runtime "phone" 10 empty_world = (Ok ps, w') /\
    map name ps = [VStr "Phone J1"; VStr "Phone J3"] /\
    map price ps = [VFloat (Float.of_Z 799); VFloat (Float.of_Z 650)].
Proof. eexists _, _. vm_compute. repeat split. Qed.

(** [parse_lazada] returns the item before the one that fails, and not the
    one after it. *)
Lemma parse_lazada_example :
  exists ps w',
    @parse_lazada demo_runtime "phone" 10 empty_world = (Ok ps, w') /\
    map name ps = [VStr "Phone L1"] /\
    w_log w' = [LogRecord WARNING lazada_warning].
Proof. eexists _, _. vm_compute. repeat split. Qed.

(** The theorem on the example pages: the JD Central page gives the
    records of its two good blocks, the Lazada page the record of the item
    before the failing one. *)
Lemma item_failure_is_local_witness :
  (exists ps w',
     @parse_jd_central demo_runtime "phone" 10 empty_world = (Ok ps, w') /\
     map fields_of ps =
       [ mkFields (VStr "Phone J1") (VFloat (Float.of_Z 799)) (VStr "THB")
           [("brand", VStr "Unknown"); ("sku", VStr "")] VNone VNone;
         mkFields (VStr "Phone J3") (VFloat (Float.of_Z 650)) (VStr "THB")
           [("brand", VStr "Unknown"); ("sku", VStr "")] VNone VNone ]) /\
  (exists ps w',
     @parse_lazada demo_runtime "phone" 10 empty_world = (Ok ps, w') /\
     map fields_of ps =
       [ mkFields (VStr "Phone L1") (VInt 4990) (VStr "THB")
           [("brand", VStr "Unknown"); ("sku", VStr "")] VNone VNone ]).
Proof.
  exact (@item_failure_is_local demo_runtime "phone" 10 empty_world).
Defined.

(** The theorem on the items of [shopee_payload]: each record has the
    payload price of its item divided by 100000. *)
Lemma record_price_follows_payload_witness :
  exists ps w',
    @shopee_api_loop demo_runtime shopee_items [] empty_world = (Ok ps, w') /\
    map price ps = [VFloat (Float.of_Z (-1)); VFloat Float.zero] /\
    Forall2
      (fun item p =>
         exists raw x,
           shopee_raw_price item = Ok raw /\
           truediv raw (Float.of_Z 100000) = Ok x /\
           price p = VFloat x /\
           (number_nonneg raw = true -> nonneg x = true))
      shopee_items ps.
Proof.
  destruct (@shopee_api_loop demo_runtime shopee_items [] empty_world)
    as [[ps | e] w'] eqn:E; [| vm_compute in E; discriminate].
  exists ps, w'. split; [reflexivity | split].
  - vm_compute in E. injection E as <- _. reflexivity.
  - exact (proj1 (@record_price_follows_payload demo_runtime) shopee_items
             empty_world ps w' E).
Defined.

(** C1, as it is worded, fails on [shopee_payload]: [parse_shopee] returns
    a record with the price -1.0 for the first item, and a record with the
    price 0.0 for the item that has no price. *)
Lemma shopee_emits_negative_and_zero_prices :
  exists ps w',
    @parse_shopee demo_runtime "phone" 10 empty_world = (Ok ps, w') /\
    map name ps = [VStr "Phone A"; VStr "Phone B"] /\
    map price ps = [VFloat (Float.of_Z (-1)); VFloat Float.zero] /\
    nonneg (Float.of_Z (-1)) = false.
Proof. eexists _, _. vm_compute. repeat split. Qed.

(** C2 fails in the API path of [parse_shopee]: asked for at most one
    result, it returns both items of the response. *)
Theorem shopee_api_ignores_cap :
  exists ps w',
    @parse_shopee demo_runtime "phone" 1 empty_world = (Ok ps, w') /\
    map name ps = [VStr "Phone A"; VStr "Phone B"] /\
    List.length ps = 2%nat.
Proof. eexists _, _. vm_compute. repeat split. Qed.

(** C5, as it is worded, fails in [parse_shopee]: the second item of
    [shopee_faulty_payload] cannot be divided, the [TypeError] leaves the
    function, and the record of the first item is lost with it. *)
Lemma shopee_item_failure_aborts_batch :
  fst (@parse_shopee faulty_runtime "phone" 10 empty_world) = Raise TypeError /\
  @shopee_item_fields
    (VDict [("item_basic",
       VDict [("name", VStr "Phone A"); ("price", VInt 1299000000)])]) =
    Ok (mkFields (VStr "Phone A") (VFloat (Float.of_Z 12990)) (VStr "THB")
          [("brand", VStr "Unknown"); ("model_id", VStr "")] VNone VNone).
Proof. split; vm_compute; reflexivity. Qed.

(** ** The orchestrator: [scrape_all] *)

Section Isolation.
Context {R : Runtime}.
Variables shopee lazada jd_central : string -> Z -> M (list Product).

Lemma invoke_run (label : string) (adapter : string -> Z -> M (list Product))
    (kw : string) (limit : Z) (all_products : list Product) (w : World) :
  invoke label adapter kw limit all_products w =
    (Ok (all_products ++ successes [fst (adapter kw limit w)])%list,
     settle label kw (adapter kw limit w)).
Proof.
  unfold invoke, try_except, bind, settle, successes.
  destruct (adapter kw limit w) as [[ps | e] w1]; cbn [fst snd flat_map].
  - now rewrite app_nil_r.
  - cbn [any_exception app]. now rewrite app_nil_r.
Qed.

(** The loop over the keywords never raises: it returns the records of the
    invocations that returned, and leaves the world of [invocations]. *)
Lemma scrape_keywords_run (keywords : list string) (limit : Z)
    (all_products : list Product) (w : World) :
  scrape_keywords shopee lazada jd_central keywords limit all_products w =
    (Ok (all_products ++ successes (fst (invocations shopee lazada jd_central keywords limit w)))%list,
     snd (invocations shopee lazada jd_central keywords limit w)).
Proof.
  revert all_products w.
  induction keywords as [| kw rest IH]; intros all_products w.
  - cbn. now rewrite app_nil_r.
  - cbn [scrape_keywords invocations fst snd]. unfold bind at 1.
    cbn [log]. unfold bind at 1. rewrite invoke_run.
    unfold bind at 1. rewrite invoke_run.
    unfold bind at 1. rewrite invoke_run.
    rewrite IH. f_equal. f_equal. unfold successes. cbn [flat_map].
    rewrite !app_nil_r, <- !app_assoc. reflexivity.
Qed.

Lemma invocations_length (keywords : list string) (limit : Z) (w : World) :
  List.length (fst (invocations shopee lazada jd_central keywords limit w)) =
    (3 * List.length keywords)%nat.
Proof.
  revert w. induction keywords as [| kw rest IH]; intros w; [reflexivity |].
  cbn [invocations fst List.length]. rewrite IH. lia.
Qed.

Lemma count_level_app (l : level) (a b : list log_record) :
  count_level l (a ++ b) = (count_level l a + count_level l b)%nat.
Proof. unfold count_level. now rewrite filter_app, length_app. Qed.

Hypothesis shopee_quiet : forall kw limit, quiet (shopee kw limit).
Hypothesis lazada_quiet : forall kw limit, quiet (lazada kw limit).
Hypothesis jd_central_quiet : forall kw limit, quiet (jd_central kw limit).

(** One invocation: the store, the file and the record of operations are
    as before, and the log has one error record more exactly when the
    adapter raised. *)
Lemma settle_step (label kw : string) (c : M (list Product)) (w : World) :
  quiet c ->
  let w' := settle label kw (c w) in
  w_db w' = w_db w /\ w_csv w' = w_csv w /\ w_io w' = w_io w /\
  count_level ERROR (w_log w') =
    (count_level ERROR (w_log w) + failures [fst (c w)])%nat.
Proof.
  intros Hq. destruct (Hq w) as [Hdb [Hcsv [Hio Hlog]]].
  unfold settle, failures. destruct (c w) as [[ps | e] w1];
    cbn [fst snd] in *; cbn [w_db w_csv w_io w_log set_log].
  - repeat split; try assumption. cbn. lia.
  - repeat split; try assumption.
    rewrite count_level_app, Hlog. reflexivity.
Qed.

Lemma invocations_frame (keywords : list string) (limit : Z) (w : World) :
  let runs := invocations shopee lazada jd_central keywords limit w in
  w_db (snd runs) = w_db w /\ w_csv (snd runs) = w_csv w /\
  w_io (snd runs) = w_io w /\
  count_level ERROR (w_log (snd runs)) =
    (count_level ERROR (w_log w) + failures (fst runs))%nat.
Proof.
  revert w. induction keywords as [| kw rest IH]; intros w.
  - cbn. repeat split. lia.
  - cbn [invocations fst snd]. cbv zeta.
    set (w0 := snd (log INFO _ w)).
    destruct (settle_step "Shopee" kw (shopee kw limit) w0 (shopee_quiet _ _))
      as [Hd1 [Hc1 [Hi1 Hl1]]].
    set (w1 := settle "Shopee" kw (shopee kw limit w0)) in *.
    destruct (settle_step "Lazada" kw (lazada kw limit) w1 (lazada_quiet _ _))
      as [Hd2 [Hc2 [Hi2 Hl2]]].
    set (w2 := settle "Lazada" kw (lazada kw limit w1)) in *.
    destruct (settle_step "JD Central" kw (jd_central kw limit) w2
                (jd_central_quiet _ _)) as [Hd3 [Hc3 [Hi3 Hl3]]].
    set (w3 := settle "JD Central" kw (jd_central kw limit w2)) in *.
    destruct (IH w3) as [Hd [Hc [Hi Hl]]].
    assert (Hw0 : count_level ERROR (w_log w0) = count_level ERROR (w_log w)).
    { unfold w0. cbn [log snd w_log set_log]. rewrite count_level_app.
      cbn. lia. }
    repeat split.
    + rewrite Hd, Hd3, Hd2, Hd1. reflexivity.
    + rewrite Hc, Hc3, Hc2, Hc1. reflexivity.
    + rewrite Hi, Hi3, Hi2, Hi1. reflexivity.
    + rewrite Hl, Hl3, Hl2, Hl1, Hw0. unfold failures. cbn [filter].
      destruct (fst (shopee kw limit w0)), (fst (lazada kw limit w1)),
        (fst (jd_central kw limit w2)); cbn; lia.
Qed.

(** Let the three adapters be any functions that do not write to the store
    or to the file themselves and do not log errors. A run makes all the
    invocations, three per keyword, whether or not some of them raise; the
    loop returns the records of those that returned, in order; the log
    gains one error record for each one that raised; the store and the file
    are not written during the loop; and the run ends with one
    [save_to_db] followed by one [save_to_csv] of all the records (or with
    a warning when there are none). When the table accepts the records, the
    run returns with the rows appended to the store, the lines appended to
    the file, and exactly one insert and one export on record. *)
Lemma scrape_all_with_isolates (keywords : list string) (limit : Z)
    (w : World) :
  let w0 := snd (create_tables w) in
  let runs := invocations shopee lazada jd_central keywords limit w0 in
  let all_products := successes (fst runs) in
  List.length (fst runs) = (3 * List.length keywords)%nat /\
  scrape_keywords shopee lazada jd_central keywords limit [] w0 =
    (Ok all_products, snd runs) /\
  count_level ERROR (w_log (snd runs)) =
    (count_level ERROR (w_log w) + failures (fst runs))%nat /\
  w_db (snd runs) = w_db w0 /\
  w_csv (snd runs) = w_csv w /\
  w_io (snd runs) = (w_io w ++ [DbCreateTable])%list /\
  scrape_all_with shopee lazada jd_central keywords limit w =
    match all_products with
    | [] => log WARNING "No products were scraped." (snd runs)
    | _ => (save_to_db all_products ;; save_to_csv all_products) (snd runs)
    end /\
  (forall rows,
      all_products <> [] ->
      bind_rows (map as_tuple all_products) = Ok rows ->
      exists w_end,
        scrape_all_with shopee lazada jd_central keywords limit w =
          (Ok tt, w_end) /\
        w_db w_end =
          Some (match w_db w with Some t => t | None => [] end ++ rows)%list /\
        w_csv w_end =
          w_csv w
          ++ (if (String.length (w_csv w) =? 0)%nat then csv_header
              else EmptyString)
          ++ csv_rows all_products /\
        w_io w_end =
          (w_io w ++ [DbCreateTable;
                      DbInsertMany (List.length all_products);
                      CsvAppend (List.length all_products)])%list).
Proof.
  intros w0 runs all_products.
  destruct (invocations_frame keywords limit w0) as [Hdb [Hcsv [Hio Hlog]]].
  fold runs in Hdb, Hcsv, Hio, Hlog.
  assert (Hrun : scrape_all_with shopee lazada jd_central keywords limit w =
    match all_products with
    | [] => log WARNING "No products were scraped." (snd runs)
    | _ => (save_to_db all_products ;; save_to_csv all_products) (snd runs)
    end).
  { unfold scrape_all_with. unfold bind at 1. cbn [create_tables].
    change (add_io (set_db w (Some match w_db w with
                                   | Some rows => rows
                                   | None => []
                                   end)) DbCreateTable) with w0.
    unfold bind at 1. rewrite scrape_keywords_run. cbn [app].
    fold runs. fold all_products. destruct all_products; reflexivity. }
  repeat split.
  - apply invocations_length.
  - apply scrape_keywords_run.
  - rewrite Hlog. reflexivity.
  - exact Hdb.
  - rewrite Hcsv. reflexivity.
  - rewrite Hio. reflexivity.
  - exact Hrun.
  - intros rows Hne Hrows. rewrite Hrun.
    destruct all_products as [| p rest] eqn:Hall; [congruence |].
    unfold bind, save_to_db. rewrite Hdb. cbn [w0 create_tables snd w_db set_db add_io].
    rewrite Hrows. unfold save_to_csv.
    eexists. split; [reflexivity |].
    cbn [w_db w_csv w_io set_db set_csv add_io]. rewrite Hcsv, Hio.
    pose proof (bind_rows_length _ _ Hrows) as Hlen.
    rewrite length_map in Hlen. rewrite Hlen.
    repeat split. cbn [w0 create_tables snd w_io add_io set_db].
    rewrite <- !app_assoc. reflexivity.
Qed.

End Isolation.

(** *** The three adapters of the repository are quiet *)

Section Quiet.
Context {R : Runtime}.

Lemma same_store_refl (w : World) : same_store w w.
Proof. repeat split. Qed.

Lemma same_store_trans (w1 w2 w3 : World) :
  same_store w1 w2 -> same_store w2 w3 -> same_store w1 w3.
Proof.
  intros [A1 [A2 [A3 A4]]] [B1 [B2 [B3 B4]]].
  repeat split; congruence.
Qed.

Lemma quiet_ret {A} (a : A) : quiet (ret a).
Proof. intros w. apply same_store_refl. Qed.

Lemma quiet_lift {A} (r : result A) : quiet (lift r).
Proof. intros w. apply same_store_refl. Qed.

Lemma quiet_bind {A B} (c : M A) (k : A -> M B) :
  quiet c -> (forall a, quiet (k a)) -> quiet (bind c k).
Proof.
  intros Hc Hk w. unfold bind. specialize (Hc w).
  destruct (c w) as [[a | e] w1]; cbn [snd] in *; [| exact Hc].
  eapply same_store_trans; [exact Hc | apply Hk].
Qed.

Lemma quiet_try_except {A} (body : M A) (catches : exn -> bool)
    (handler : exn -> M A) :
  quiet body -> (forall e, quiet (handler e)) ->
  quiet (try_except body catches handler).
Proof.
  intros Hb Hh w. unfold try_except. specialize (Hb w).
  destruct (body w) as [[a | e] w1]; cbn [snd] in *; [exact Hb |].
  destruct (catches e); [| exact Hb].
  eapply same_store_trans; [exact Hb | apply Hh].
Qed.

Lemma quiet_warning (m : string) : quiet (log WARNING m).
Proof.
  intros w. repeat split. cbn [log snd w_log set_log].
  rewrite count_level_app. cbn. lia.
Qed.

Lemma quiet_fetch_page (url : string) : quiet (fetch_page url).
Proof.
  intros w. unfold fetch_page.
  destruct (http_get (w_requests w) url); cbn [snd]; [repeat split |].
  repeat split. cbn [log snd w_log set_log set_requests].
  rewrite count_level_app. cbn. lia.
Qed.

Lemma quiet_product_of (mk : string) (f : fields) : quiet (product_of mk f).
Proof. intros w. rewrite product_of_run. repeat split. Qed.

Lemma quiet_shopee_api_loop (items : list value) (acc : list Product) :
  quiet (shopee_api_loop items acc).
Proof.
  revert acc. induction items as [| item rest IH]; intros acc;
    [apply quiet_ret |].
  cbn [shopee_api_loop]. apply quiet_bind; [apply quiet_lift |].
  intros f. apply quiet_bind; [apply quiet_product_of |]. intros p. apply IH.
Qed.

Lemma quiet_shopee_html_loop (items : list (option string * option string))
    (acc : list Product) :
  quiet (shopee_html_loop items acc).
Proof.
  revert acc. induction items as [| item rest IH]; intros acc;
    [apply quiet_ret |].
  cbn [shopee_html_loop]. apply quiet_bind; [apply quiet_lift |].
  intros f. apply quiet_bind; [apply quiet_product_of |]. intros p. apply IH.
Qed.

Lemma quiet_lazada_loop (items : list value) (acc : list Product) :
  quiet (lazada_loop items acc).
Proof.
  revert acc. induction items as [| item rest IH]; intros acc;
    [apply quiet_ret |].
  cbn [lazada_loop]. destruct (lazada_item_fields item); [| apply quiet_ret].
  apply quiet_bind; [apply quiet_product_of |]. intros p. apply IH.
Qed.

Lemma quiet_jd_loop (scripts : list (option string)) (n : Z)
    (acc : list Product) :
  quiet (jd_loop scripts n acc).
Proof.
  revert acc. induction scripts as [| script rest IH]; intros acc;
    [apply quiet_ret |].
  cbn [jd_loop]. destruct (jd_block_fields script) as [[f |] |]; try apply IH.
  apply quiet_bind; [apply quiet_product_of |]. intros p. cbv zeta.
  destruct (Z.geb _ _); [apply quiet_ret | apply IH].
Qed.

Lemma parse_shopee_quiet (query : string) (n : Z) : quiet (parse_shopee query n).
Proof.
  unfold parse_shopee. apply quiet_bind; [apply quiet_fetch_page |].
  intros data_text. apply quiet_bind.
  - destruct (has_content data_text); [| apply quiet_ret].
    apply quiet_try_except.
    + apply quiet_bind; [apply quiet_lift |]. intros data.
      apply quiet_bind; [apply quiet_lift |]. intros items.
      apply quiet_shopee_api_loop.
    + intros e. apply quiet_bind; [apply quiet_warning |].
      intros _. apply quiet_ret.
  - intros results. destruct results; [| apply quiet_ret].
    apply quiet_bind; [apply quiet_fetch_page |]. intros html.
    destruct (has_content html); [| apply quiet_ret].
    apply quiet_shopee_html_loop.
Qed.

Lemma parse_lazada_quiet (query : string) (n : Z) : quiet (parse_lazada query n).
Proof.
  unfold parse_lazada. apply quiet_bind; [apply quiet_fetch_page |].
  intros html. destruct (has_content html); [| apply quiet_ret].
  destruct (lazada_next_data _); [| apply quiet_ret].
  destruct (lazada_items _ _).
  - apply quiet_bind; [apply quiet_lazada_loop |]. intros out.
    destruct (snd out); [| apply quiet_ret].
    apply quiet_bind; [apply quiet_warning |]. intros _. apply quiet_ret.
  - apply quiet_bind; [apply quiet_warning |]. intros _. apply quiet_ret.
Qed.

Lemma parse_jd_central_quiet (query : string) (n : Z) :
  quiet (parse_jd_central query n).
Proof.
  unfold parse_jd_central. apply quiet_bind; [apply quiet_fetch_page |].
  intros html. destruct (has_content html); [| apply quiet_ret].
  apply quiet_jd_loop.
Qed.


End Quiet.


(** A run over two keywords in the environment where the Shopee response
    has an item that cannot be parsed: the Shopee adapter raises for each
    keyword and is logged twice, the other two adapters give three records
    per keyword, and the six records are stored and exported once. *)
Lemma scrape_all_example :
  exists w_end,
    @scrape_all faulty_runtime ["phone"; "tablet"] 10 empty_world =
      (Ok tt, w_end) /\
    filter (fun r => level_eqb (lvl r) ERROR) (w_log w_end) =
      [ LogRecord ERROR "Shopee scraper failed for phone: TypeError";
        LogRecord ERROR "Shopee scraper failed for tablet: TypeError" ] /\
    option_map (map row_name) (w_db w_end) =
      Some ["Phone L1"; "Phone J1"; "Phone J3";
            "Phone L1"; "Phone J1"; "Phone J3"] /\
    w_io w_end = [DbCreateTable; DbInsertMany 6; CsvAppend 6].
Proof. eexists. vm_compute. repeat split. Qed.

(** ** The round trip through the store *)

(** *** Timestamps *)





(** *** The [specs] column *)

Module JsonFacts.
Import Json.









End JsonFacts.

(** *** Reading a record back *)

Section RoundTrip.
Context {R : Runtime}.




End RoundTrip.


(** ** The adapters as functions of the pages and the clock *)

Section Runs.
Context {R : Runtime}.

Lemma set_ticks_add_0 (w : World) : set_ticks w (w_ticks w + 0) = w.
Proof. destruct w. unfold set_ticks. cbn. now rewrite Nat.add_0_r. Qed.

Lemma jd_loop_run (scripts : list (option string)) (n : Z)
    (acc : list Product) (w : World) :
  let fs :=
    firstn (Z.to_nat (Z.max 1 (n - Z.of_nat (List.length acc))))
      (jd_parsed scripts) in
  jd_loop scripts n acc w =
    (Ok (acc ++ stamped "JD Central" fs (w_ticks w))%list,
     set_ticks w (w_ticks w + List.length fs)).
Proof.
  revert acc w. induction scripts as [| script rest IH]; intros acc w fs.
  - unfold fs. cbn [jd_parsed flat_map]. rewrite firstn_nil.
    cbn [stamped List.length jd_loop]. now rewrite app_nil_r, set_ticks_add_0.
  - unfold fs. cbn [jd_loop jd_parsed flat_map].
    destruct (jd_block_fields script) as [[f |] | e]; try apply IH.
    unfold bind. rewrite product_of_run. cbv zeta.
    set (p := mkProduct _ _ _ _ _ _ _ _).
    destruct (Z.geb_spec (Z.of_nat (List.length (acc ++ [p]))) n) as [Hfull | Hmore];
      rewrite length_app in *; cbn [List.length] in *.
    + replace (Z.to_nat (Z.max 1 (n - Z.of_nat (List.length acc)))) with 1%nat by lia.
      cbn [app firstn stamped List.length]. unfold ret, set_ticks.
      now rewrite Nat.add_1_r.
    + rewrite IH. rewrite length_app. cbn [List.length].
      replace (Z.to_nat (Z.max 1 (n - Z.of_nat (List.length acc))))
        with (S (Z.to_nat
                   (Z.max 1 (n - Z.of_nat (List.length acc + 1))))) by lia.
      cbn [app firstn stamped List.length w_ticks set_ticks].
      rewrite <- app_assoc, (Nat.add_succ_r (w_ticks w)). reflexivity.
Qed.

(** [parse_jd_central], run. *)
Lemma parse_jd_central_exact (query : string) (max_results : Z) (w : World) :
  let url := jd_search_url query in
  let body := http_get (w_requests w) url in
  let fs :=
    firstn (Z.to_nat (Z.max 1 max_results)) (jd_parsed (jd_scripts body)) in
  parse_jd_central query max_results w =
    (Ok (stamped "JD Central" fs (w_ticks w)),
     advance w (fetch_warnings url body) 1 (List.length fs)).
Proof.
  intros url body fs. unfold parse_jd_central, bind, fetch_page.
  unfold fs, jd_scripts. fold url. fold body.
  destruct body as [text |]; cbn [log snd fetch_warnings has_content].
  - destruct (String.eqb text EmptyString).
    + rewrite firstn_nil. cbn [stamped List.length]. unfold ret, advance.
      cbn. now rewrite app_nil_r, Nat.add_0_r, Nat.add_1_r.
    + rewrite jd_loop_run. cbn [List.length Z.of_nat app]. rewrite Z.sub_0_r.
      unfold advance, set_ticks, set_requests. cbn.
      now rewrite app_nil_r, Nat.add_1_r.
  - rewrite firstn_nil. cbn [stamped List.length]. unfold ret, advance.
    cbn. now rewrite Nat.add_0_r, Nat.add_1_r.
Qed.

(** X2. [parse_jd_central] is a function of the page it is served and of the
    clock. It makes one request; it logs one warning when the request is
    not answered and nothing otherwise; it returns one record for each
    script block that parses, in page order and up to the cap; the records
    are labelled JD Central and carry successive readings of the clock, one
    reading per record; the store, the export file and the record of
    operations stay as they were. *)
Theorem parse_jd_central_run (query : string) (max_results : Z) (w : World) :
  let url := jd_search_url query in
  let body := http_get (w_requests w) url in
  let fs :=
    firstn (Z.to_nat (Z.max 1 max_results)) (jd_parsed (jd_scripts body)) in
  parse_jd_central query max_results w =
    (Ok (stamped "JD Central" fs (w_ticks w)),
     advance w (fetch_warnings url body) 1 (List.length fs)).
Proof. exact (parse_jd_central_exact query max_results w). Qed.

Lemma lazada_loop_run (items : list value) (acc : list Product) (w : World) :
  let fs := lazada_parsed items in
  lazada_loop items acc w =
    (Ok ((acc ++ stamped "Lazada" fs (w_ticks w))%list,
         match read_all lazada_item_fields items with
         | Ok _ => None
         | Raise e => Some e
         end),
     set_ticks w (w_ticks w + List.length fs)).
Proof.
  revert acc w. induction items as [| item rest IH]; intros acc w fs.
  - unfold fs. cbn [lazada_parsed stamped List.length lazada_loop read_all].
    unfold ret. now rewrite app_nil_r, set_ticks_add_0.
  - unfold fs. cbn [lazada_loop lazada_parsed read_all].
    destruct (lazada_item_fields item) as [f | e]; cbn [rbind].
    + unfold bind. rewrite product_of_run, IH.
      cbn [stamped List.length w_ticks set_ticks].
      rewrite <- app_assoc, (Nat.add_succ_r (w_ticks w)).
      destruct (read_all lazada_item_fields rest); reflexivity.
    + cbn [stamped List.length]. unfold ret.
      now rewrite app_nil_r, set_ticks_add_0.
Qed.

(** [parse_lazada], run. *)
Lemma parse_lazada_exact (query : string) (max_results : Z) (w : World) :
  let url := lazada_search_url query in
  let body := http_get (w_requests w) url in
  let fs := lazada_parsed (lazada_page_items body max_results) in
  parse_lazada query max_results w =
    (Ok (stamped "Lazada" fs (w_ticks w)),
     advance w (fetch_warnings url body ++ lazada_warnings body max_results)
       1 (List.length fs)).
Proof.
  intros url body fs. unfold parse_lazada, bind, fetch_page.
  unfold fs, lazada_page_items, lazada_warnings, lazada_failed.
  fold url. fold body.
  destruct body as [text |]; cbn [log snd fetch_warnings has_content app].
  - destruct (String.eqb text EmptyString).
    + unfold ret, advance. cbn.
      now rewrite app_nil_r, Nat.add_0_r, Nat.add_1_r.
    + destruct (lazada_next_data text) as [script_string |].
      * destruct (lazada_items script_string max_results) as [items | e].
        -- rewrite lazada_loop_run. cbn [fst snd app].
           destruct (read_all lazada_item_fields items) as [fs' | e];
             cbn [is_ok negb log]; unfold ret, advance, set_ticks,
             set_requests, set_log; cbn;
             now rewrite ?app_nil_r, Nat.add_1_r.
        -- cbn [log]. unfold ret, advance, set_requests, set_log. cbn.
           now rewrite Nat.add_0_r, Nat.add_1_r.
      * unfold ret, advance. cbn.
        now rewrite app_nil_r, Nat.add_0_r, Nat.add_1_r.
  - unfold ret, advance, set_requests, set_log. cbn.
    now rewrite Nat.add_0_r, Nat.add_1_r.
Qed.


(** *** parse_shopee *)

Lemma get_raises (x : value) (k : string) (d : value) (e : exn) :
  get x k d = Raise e -> e = AttributeError.
Proof. destruct x; simpl; intros H; try discriminate; congruence. Qed.

Lemma truediv_raises (x : value) (y : float) (e : exn) :
  truediv x y = Raise e -> is_json_decode_error e = false.
Proof.
  destruct x; simpl; intros H; try discriminate;
    try (injection H as <-; reflexivity).
  unfold float_of_int in H.
  destruct (Float.is_inf (Float.of_Z z)); simpl in H; [| discriminate].
  injection H as <-. reflexivity.
Qed.

Lemma shopee_item_fields_raises (item : value) (e : exn) :
  shopee_item_fields item = Raise e -> is_json_decode_error e = false.
Proof.
  unfold shopee_item_fields. intros H.
  repeat match type of H with
         | rbind (get ?x ?k ?d) _ = _ =>
             let E := fresh "E" in
             destruct (get x k d) eqn:E; cbn [rbind] in H;
               [| apply get_raises in E; injection H as <-; subst;
                  reflexivity]
         | rbind (truediv ?x ?y) _ = _ =>
             let E := fresh "E" in
             destruct (truediv x y) eqn:E; cbn [rbind] in H;
               [| injection H as <-; now apply truediv_raises in E]
         end.
  discriminate.
Qed.

Lemma read_all_shopee_raises (items : list value) (e : exn) :
  read_all shopee_item_fields items = Raise e ->
  is_json_decode_error e = false.
Proof.
  induction items as [| item rest IH]; cbn [read_all]; [discriminate |].
  destruct (shopee_item_fields item) as [f | e'] eqn:E; cbn [rbind].
  - destruct (read_all shopee_item_fields rest) as [fs | e'']; cbn [rbind];
      [discriminate |].
    intros H. injection H as <-. now apply IH.
  - intros H. injection H as <-. now apply shopee_item_fields_raises in E.
Qed.

Lemma shopee_api_loop_run (items : list value) (acc : list Product)
    (w : World) :
  match read_all shopee_item_fields items with
  | Ok fs =>
      shopee_api_loop items acc w =
        (Ok (acc ++ stamped "Shopee" fs (w_ticks w))%list,
         set_ticks w (w_ticks w + List.length fs))
  | Raise e =>
      fst (shopee_api_loop items acc w) = Raise e /\
      w_requests (snd (shopee_api_loop items acc w)) = w_requests w
  end.
Proof.
  revert acc w. induction items as [| item rest IH]; intros acc w.
  - cbn [read_all shopee_api_loop stamped List.length]. unfold ret.
    now rewrite app_nil_r, set_ticks_add_0.
  - cbn [read_all shopee_api_loop]. unfold bind at 1, lift.
    destruct (shopee_item_fields item) as [f | e]; cbn [rbind];
      [| split; reflexivity].
    unfold bind. rewrite product_of_run.
    specialize (IH (acc ++ [mkProduct "Shopee" (f_name f) (f_price f)
                              (f_currency f) (f_specs f) (f_sales f)
                              (f_rating f) (utcnow_at (w_ticks w))])%list
                  (set_ticks w (S (w_ticks w)))).
    destruct (read_all shopee_item_fields rest) as [fs | e]; cbn [rbind].
    + rewrite IH. cbn [stamped List.length w_ticks set_ticks].
      now rewrite <- app_assoc, (Nat.add_succ_r (w_ticks w)).
    + exact IH.
Qed.

Lemma shopee_html_loop_run (items : list (option string * option string))
    (acc : list Product) (w : World) :
  match read_all shopee_html_fields items with
  | Ok fs =>
      shopee_html_loop items acc w =
        (Ok (acc ++ stamped "Shopee" fs (w_ticks w))%list,
         set_ticks w (w_ticks w + List.length fs))
  | Raise e =>
      fst (shopee_html_loop items acc w) = Raise e /\
      w_requests (snd (shopee_html_loop items acc w)) = w_requests w
  end.
Proof.
  revert acc w. induction items as [| item rest IH]; intros acc w.
  - cbn [read_all shopee_html_loop stamped List.length]. unfold ret.
    now rewrite app_nil_r, set_ticks_add_0.
  - cbn [read_all shopee_html_loop]. unfold bind at 1, lift.
    destruct (shopee_html_fields item) as [f | e]; cbn [rbind];
      [| split; reflexivity].
    unfold bind. rewrite product_of_run.
    specialize (IH (acc ++ [mkProduct "Shopee" (f_name f) (f_price f)
                              (f_currency f) (f_specs f) (f_sales f)
                              (f_rating f) (utcnow_at (w_ticks w))])%list
                  (set_ticks w (S (w_ticks w)))).
    destruct (read_all shopee_html_fields rest) as [fs | e]; cbn [rbind].
    + rewrite IH. cbn [stamped List.length w_ticks set_ticks].
      now rewrite <- app_assoc, (Nat.add_succ_r (w_ticks w)).
    + exact IH.
Qed.

(** The HTML path of [parse_shopee], entered with no record. *)
Lemma shopee_fallback_run (query : string) (max_results : Z) (w : World) :
  let run :=
    (html <- fetch_page (shopee_search_url query) ;;
     match has_content html with
     | Some page =>
         let items := shopee_result_items page in
         shopee_html_loop
           (firstn (slice_stop (List.length items) max_results) items) []
     | None => ret []
     end) w in
  fst run =
    (fs <~ read_all shopee_html_fields
             (shopee_html_items
                (http_get (w_requests w) (shopee_search_url query))
                max_results) ;;
     Ok (stamped "Shopee" fs (w_ticks w))) /\
  w_requests (snd run) = S (w_requests w).
Proof.
  cbv zeta. unfold bind, fetch_page, shopee_html_items.
  destruct (http_get (w_requests w) (shopee_search_url query)) as [text |];
    cbn [log snd has_content]; [| split; reflexivity].
  destruct (String.eqb text EmptyString); [split; reflexivity |].
  pose proof (shopee_html_loop_run
                (firstn (slice_stop (List.length (shopee_result_items text))
                           max_results) (shopee_result_items text))
                [] (set_requests w (S (w_requests w)))) as H.
  cbv zeta.
  destruct (read_all shopee_html_fields _) as [fs | e]; cbn [rbind].
  - rewrite H. split; reflexivity.
  - exact H.
Qed.

(** The three ways through [parse_shopee]: an item of the API response
    raises; the API response gives records; it gives none and the search
    page is read. *)
Lemma parse_shopee_cases (query : string) (max_results : Z) (w : World) :
  let r := w_requests w in
  let api :=
    items <~ shopee_api_items (http_get r (shopee_api_url query max_results)) ;;
    read_all shopee_item_fields items in
  let html :=
    read_all shopee_html_fields
      (shopee_html_items (http_get (S r) (shopee_search_url query))
         max_results) in
  match api with
  | Raise e =>
      fst (parse_shopee query max_results w) = Raise e /\
      w_requests (snd (parse_shopee query max_results w)) = S r
  | Ok (f :: fs) =>
      parse_shopee query max_results w =
        (Ok (stamped "Shopee" (f :: fs) (w_ticks w)),
         advance w [] 1 (S (List.length fs)))
  | Ok [] =>
      fst (parse_shopee query max_results w) =
        (fs <~ html ;; Ok (stamped "Shopee" fs (w_ticks w))) /\
      w_requests (snd (parse_shopee query max_results w)) = S (S r)
  end.
Proof.
  cbv zeta. remember (parse_shopee query max_results w) as run eqn:Hrun.
  unfold parse_shopee in Hrun. unfold bind at 1 in Hrun.
  unfold fetch_page at 1 in Hrun. unfold shopee_api_items.
  destruct (http_get (w_requests w) (shopee_api_url query max_results))
    as [text |]; cbn [log snd has_content rbind read_all] in *.
  2: { unfold bind at 1 in Hrun. unfold ret at 1 in Hrun. rewrite Hrun.
       exact (shopee_fallback_run query max_results
                (set_log (set_requests w (S (w_requests w))) _)). }
  destruct (String.eqb text EmptyString); cbn [rbind read_all].
  { unfold bind at 1 in Hrun. unfold ret at 1 in Hrun. rewrite Hrun.
    exact (shopee_fallback_run query max_results
             (set_requests w (S (w_requests w)))). }
  unfold bind at 1 in Hrun.
  unfold try_except, bind at 1, lift at 1, loads in Hrun.
  destruct (json_loads text) as [data |]; cbn [rbind read_all].
  2: { cbn [is_json_decode_error exn_eqb] in Hrun.
       unfold bind at 1 in Hrun. cbn [log] in Hrun.
       unfold ret at 1 in Hrun. rewrite Hrun.
       exact (shopee_fallback_run query max_results
                (set_log (set_requests w (S (w_requests w))) _)). }
  unfold bind at 1, lift at 1 in Hrun.
  destruct (get data "items" (VList [])) as [got |] eqn:Hget; cbn [rbind] in *.
  2: { apply get_raises in Hget. subst. split; reflexivity. }
  destruct (iter got) as [items |] eqn:Hiter; cbn [rbind] in *.
  2: { assert (e = TypeError) as ->.
       { destruct got; simpl in Hiter; try discriminate; congruence. }
       subst. split; reflexivity. }
  pose proof (shopee_api_loop_run items [] (set_requests w (S (w_requests w))))
    as Hloop.
  pose proof (read_all_shopee_raises items) as Hexn.
  destruct (read_all shopee_item_fields items) as [[| f fs] | e].
  - rewrite Hloop in Hrun. cbn [app stamped List.length] in Hrun.
    rewrite set_ticks_add_0 in Hrun. rewrite Hrun.
    exact (shopee_fallback_run query max_results _).
  - rewrite Hloop in Hrun. cbn [app stamped List.length] in Hrun.
    cbn [w_ticks set_requests] in Hrun. rewrite Hrun.
    unfold ret, advance, set_ticks, set_requests. cbn.
    now rewrite app_nil_r, Nat.add_1_r.
  - destruct Hloop as [Hfst Hreq].
    destruct (shopee_api_loop items [] _) as [[ps | e'] w1];
      cbn [fst snd] in *; [discriminate |].
    injection Hfst as ->. rewrite (Hexn e eq_refl) in Hrun. subst run.
    split; [reflexivity | exact Hreq].
Qed.


Lemma read_all_pointwise {A} (read : A -> result fields) (items : list A)
    (fs : list fields) :
  read_all read items = Ok fs -> Forall2 (fun i f => read i = Ok f) items fs.
Proof.
  revert fs. induction items as [| item rest IH]; intros fs H;
    cbn [read_all] in H.
  - injection H as <-. constructor.
  - destruct (read item) as [f |] eqn:Hf; cbn [rbind] in H; [| discriminate].
    destruct (read_all read rest) as [fs' |]; cbn [rbind] in H;
      [| discriminate].
    injection H as <-. constructor; [exact Hf | now apply IH].
Qed.

Lemma stamped_length (mk : string) (fs : list fields) (tick : nat) :
  List.length (stamped mk fs tick) = List.length fs.
Proof.
  revert tick. induction fs as [| f fs IH]; intros tick; [reflexivity |].
  cbn [stamped List.length]. now rewrite IH.
Qed.

Lemma stamped_fields (mk : string) (fs : list fields) (tick : nat) :
  map fields_of (stamped mk fs tick) = fs /\
  Forall (fun p => marketplace p = mk) (stamped mk fs tick).
Proof.
  revert tick. induction fs as [| f fs IH]; intros tick.
  - split; [reflexivity | constructor].
  - cbn [stamped map]. destruct (IH (S tick)) as [Hmap Hall].
    rewrite Hmap, fields_of_product. split; [reflexivity |].
    constructor; [reflexivity | exact Hall].
Qed.

Lemma shopee_html_items_length (body : option string) (n : Z) :
  0 <= n -> Z.of_nat (List.length (shopee_html_items body n)) <= n.
Proof.
  intros Hn. unfold shopee_html_items. destruct (has_content body) as [page |];
    [| simpl; lia].
  cbv zeta. unfold slice_stop. destruct (Z.ltb_spec n 0); [lia |].
  pose proof (firstn_le_length (Z.to_nat n) (shopee_result_items page)). lia.
Qed.

Lemma shopee_html_fields_shape (item : option string * option string)
    (f : fields) :
  shopee_html_fields item = Ok f ->
  f_currency f = VStr "THB" /\ f_specs f = [("unknown", VStr "unknown")] /\
  f_sales f = VNone /\ f_rating f = VNone /\ is_str (f_name f) = true /\
  is_float (f_price f) = true.
Proof.
  unfold shopee_html_fields. destruct (fst item); [| discriminate].
  destruct (snd item); [| discriminate].
  destruct (py_float _); cbn [rbind]; [| discriminate].
  intros H. injection H as <-. repeat split.
Qed.

(** X5. When [parse_shopee] returns after a second request, its records
    come from the search page: they are no more than a cap that is not
    negative, and each has a string for a name, a float for a price, the
    currency THB, the placeholder specs, and neither sales nor rating. *)
Theorem shopee_fallback_respects_cap (query : string) (max_results : Z)
    (w : World) (ps : list Product) (w' : World) :
  parse_shopee query max_results w = (Ok ps, w') ->
  w_requests w' = S (S (w_requests w)) ->
  (0 <= max_results -> Z.of_nat (List.length ps) <= max_results) /\
  Forall
    (fun p =>
       marketplace p = "Shopee" /\ is_str (name p) = true /\
       is_float (price p) = true /\ currency p = VStr "THB" /\
       specs p = [("unknown", VStr "unknown")] /\
       sales p = VNone /\ rating p = VNone)
    ps.
Proof.
  intros Hrun Hreq. pose proof (parse_shopee_cases query max_results w) as H.
  cbv zeta in H. rewrite Hrun in H. cbn [fst snd] in H.
  destruct (rbind (shopee_api_items _) _) as [[| f fs] | e].
  - destruct H as [H _].
    destruct (read_all shopee_html_fields _) as [fs |] eqn:Hread;
      cbn [rbind] in H; [| discriminate].
    injection H as ->. split.
    + intros Hn. rewrite stamped_length.
      apply read_all_pointwise, Forall2_length in Hread. rewrite <- Hread.
      now apply shopee_html_items_length.
    + apply read_all_pointwise in Hread.
      destruct (stamped_fields "Shopee" fs (w_ticks w)) as [Hmap Hmk].
      assert (Hshape : Forall
                (fun f => f_currency f = VStr "THB" /\
                          f_specs f = [("unknown", VStr "unknown")] /\
                          f_sales f = VNone /\ f_rating f = VNone /\
                          is_str (f_name f) = true /\
                          is_float (f_price f) = true) fs).
      { clear -Hread. induction Hread as [| i f items fs Hf _ IH];
          constructor; [| exact IH].
        now apply shopee_html_fields_shape in Hf. }
      rewrite <- Hmap in Hshape. rewrite Forall_map in Hshape.
      rewrite Forall_forall in *. intros p Hp.
      specialize (Hshape p Hp). specialize (Hmk p Hp). cbn in Hshape.
      intuition.
  - injection H as _ ->. unfold advance in Hreq. cbn in Hreq. lia.
  - destruct H as [H _]. discriminate.
Qed.

(** *** The shape of the records *)

Ltac open_binds H :=
  repeat match type of H with
         | rbind ?r _ = _ =>
             destruct r eqn:?; cbn [rbind] in H; [| discriminate H]
         | (if ?b then _ else _) = _ =>
             destruct b eqn:?; [| discriminate H]
         end.

Lemma jd_block_fields_shape (script : option string) (f : fields) :
  jd_block_fields script = Ok (Some f) ->
  is_float (f_price f) = true /\ f_sales f = VNone /\
  map fst (f_specs f) = ["brand"; "sku"].
Proof.
  unfold jd_block_fields. intros H. open_binds H.
  injection H as <-. repeat split.
Qed.

Lemma lazada_item_fields_shape (item : value) (f : fields) :
  lazada_item_fields item = Ok f -> map fst (f_specs f) = ["brand"; "sku"].
Proof.
  unfold lazada_item_fields. intros H. open_binds H.
  injection H as <-. reflexivity.
Qed.

Lemma shopee_item_fields_shape (item : value) (f : fields) :
  shopee_item_fields item = Ok f ->
  is_float (f_price f) = true /\ f_currency f = VStr "THB" /\
  map fst (f_specs f) = ["brand"; "model_id"].
Proof.
  unfold shopee_item_fields. intros H. open_binds H.
  injection H as <-. repeat split.
Qed.

Lemma stamped_forall (P : fields -> Prop) (mk : string) (fs : list fields)
    (tick : nat) :
  Forall P fs ->
  Forall (fun p => marketplace p = mk /\ P (fields_of p)) (stamped mk fs tick).
Proof.
  intros H. revert tick. induction H as [| f fs Hf _ IH]; intros tick;
    cbn [stamped]; constructor; [| apply IH].
  rewrite fields_of_product. now split.
Qed.

Lemma read_all_forall {A} (read : A -> result fields) (P : fields -> Prop)
    (items : list A) (fs : list fields) :
  (forall i f, read i = Ok f -> P f) ->
  read_all read items = Ok fs -> Forall P fs.
Proof.
  intros HP H. apply read_all_pointwise in H.
  induction H as [| i f items fs Hf _ IH]; constructor; eauto.
Qed.

(** X6. The shape of the records. Every record of [parse_jd_central] is
    labelled JD Central, has a float for a price, no sales figure, and
    specs with the keys brand and sku. Every record of [parse_lazada] is
    labelled Lazada and has specs with the keys brand and sku. Every record
    of [parse_shopee] is labelled Shopee, has a float for a price and the
    currency THB, and has either specs with the keys brand and model_id or
    the placeholder specs of the search page, which have no brand. *)
Theorem adapter_records_shape (query : string) (max_results : Z) (w : World) :
  (exists ps w',
     parse_jd_central query max_results w = (Ok ps, w') /\
     Forall
       (fun p =>
          marketplace p = "JD Central" /\ is_float (price p) = true /\
          sales p = VNone /\ map fst (specs p) = ["brand"; "sku"])
       ps) /\
  (exists ps w',
     parse_lazada query max_results w = (Ok ps, w') /\
     Forall
       (fun p =>
          marketplace p = "Lazada" /\ map fst (specs p) = ["brand"; "sku"])
       ps) /\
  (forall ps w',
     parse_shopee query max_results w = (Ok ps, w') ->
     Forall
       (fun p =>
          marketplace p = "Shopee" /\ is_float (price p) = true /\
          currency p = VStr "THB" /\
          (map fst (specs p) = ["brand"; "model_id"] \/
           specs p = [("unknown", VStr "unknown")]))
       ps).
Proof.
  split; [| split].
  - rewrite parse_jd_central_exact. eexists _, _. split; [reflexivity |].
    eapply Forall_impl;
      [| apply (stamped_forall
                  (fun f => is_float (f_price f) = true /\ f_sales f = VNone /\
                            map fst (f_specs f) = ["brand"; "sku"]))].
    + cbn. intuition.
    + apply Forall_forall. intros f Hf. apply in_firstn in Hf.
      apply in_jd_parsed in Hf. destruct Hf as [script [_ Hf]].
      now apply jd_block_fields_shape in Hf.
  - rewrite parse_lazada_exact. eexists _, _. split; [reflexivity |].
    eapply Forall_impl;
      [| apply (stamped_forall
                  (fun f => map fst (f_specs f) = ["brand"; "sku"]))].
    + cbn. intuition.
    + apply Forall_forall. intros f Hf.
      apply in_lazada_parsed in Hf. destruct Hf as [item [_ Hf]].
      now apply lazada_item_fields_shape in Hf.
  - intros ps w' Hrun.
    pose proof (parse_shopee_cases query max_results w) as H.
    cbv zeta in H. rewrite Hrun in H. cbn [fst snd] in H.
    destruct (shopee_api_items _) as [items |]; cbn [rbind] in H;
      [| destruct H; discriminate].
    destruct (read_all shopee_item_fields items) as [[| f fs] |] eqn:Hapi.
    + destruct H as [H _].
      destruct (read_all shopee_html_fields _) as [fs |] eqn:Hread;
        cbn [rbind] in H; [| discriminate].
      injection H as ->.
      eapply Forall_impl;
        [| apply (stamped_forall
                    (fun f => is_float (f_price f) = true /\
                              f_currency f = VStr "THB" /\
                              f_specs f = [("unknown", VStr "unknown")]))].
      * cbn. intuition.
      * apply (read_all_forall _ _ _ _ (fun i f Hf =>
                 let H := shopee_html_fields_shape i f Hf in
                 conj (proj2 (proj2 (proj2 (proj2 (proj2 H)))))
                   (conj (proj1 H) (proj1 (proj2 H)))) Hread).
    + injection H as -> _.
      eapply Forall_impl;
        [| apply (stamped_forall
                    (fun f => is_float (f_price f) = true /\
                              f_currency f = VStr "THB" /\
                              map fst (f_specs f) = ["brand"; "model_id"])
                    "Shopee" (f :: fs) (w_ticks w))].
      * cbn. intuition.
      * apply (read_all_forall _ _ _ _ shopee_item_fields_shape Hapi).
    + destruct H; discriminate.
Qed.

(** *** Without a network *)

Section Offline.
Hypothesis offline : forall (i : nat) (url : string), http_get i url = None.

Lemma parse_shopee_offline (query : string) (n : Z) (w : World) :
  parse_shopee query n w =
    (Ok [],
     advance w
       [ LogRecord WARNING ("Failed to fetch " ++ shopee_api_url query n);
         LogRecord WARNING ("Failed to fetch " ++ shopee_search_url query) ]
       2 0).
Proof.
  unfold parse_shopee, bind, fetch_page. rewrite offline.
  cbn [log snd has_content ret w_requests set_log set_requests].
  rewrite offline. cbn [log snd has_content ret].
  unfold advance, set_log, set_requests. cbn.
  now rewrite <- app_assoc, Nat.add_0_r, Nat.add_comm.
Qed.

Lemma parse_lazada_offline (query : string) (n : Z) (w : World) :
  parse_lazada query n w =
    (Ok [],
     advance w [LogRecord WARNING ("Failed to fetch " ++ lazada_search_url query)]
       1 0).
Proof.
  unfold parse_lazada, bind, fetch_page. rewrite offline.
  cbn [log snd has_content ret]. unfold advance, set_log, set_requests. cbn.
  now rewrite Nat.add_0_r, Nat.add_comm.
Qed.

Lemma parse_jd_central_offline (query : string) (n : Z) (w : World) :
  parse_jd_central query n w =
    (Ok [],
     advance w [LogRecord WARNING ("Failed to fetch " ++ jd_search_url query)]
       1 0).
Proof.
  unfold parse_jd_central, bind, fetch_page. rewrite offline.
  cbn [log snd has_content ret]. unfold advance, set_log, set_requests. cbn.
  now rewrite Nat.add_0_r, Nat.add_comm.
Qed.

Lemma scrape_keywords_offline (keywords : list string) (limit : Z) (w : World) :
  exists w',
    scrape_keywords parse_shopee parse_lazada parse_jd_central keywords limit
      [] w = (Ok [], w') /\
    w_db w' = w_db w /\ w_csv w' = w_csv w /\ w_io w' = w_io w /\
    w_ticks w' = w_ticks w /\
    w_requests w' = (w_requests w + 4 * List.length keywords)%nat /\
    count_level ERROR (w_log w') = count_level ERROR (w_log w) /\
    count_level WARNING (w_log w') =
      (count_level WARNING (w_log w) + 4 * List.length keywords)%nat.
Proof.
  revert w. induction keywords as [| kw rest IH]; intros w.
  - exists w. cbn. repeat split; lia.
  - cbn [scrape_keywords]. unfold bind at 1. cbn [log].
    unfold bind at 1. rewrite invoke_run, parse_shopee_offline.
    unfold bind at 1. cbn [fst snd successes flat_map app settle].
    rewrite invoke_run, parse_lazada_offline.
    unfold bind at 1. cbn [fst snd successes flat_map app settle].
    rewrite invoke_run, parse_jd_central_offline.
    cbn [fst snd successes flat_map app settle].
    match goal with
    | |- context [scrape_keywords _ _ _ rest limit [] ?w3] =>
        destruct (IH w3) as [w' [Hrun [Hdb [Hcsv [Hio [Ht [Hr [He Hw]]]]]]]]
    end.
    exists w'. split; [exact Hrun |].
    unfold advance in *. cbn [w_db w_csv w_io w_ticks w_requests w_log set_log]
      in *.
    rewrite !count_level_app in He, Hw. cbn in He, Hw.
    cbn [List.length]. repeat split; try assumption; lia.
Qed.

(** X7. When no request is answered, [scrape_all] still returns: it makes
    four requests for each keyword (two by [parse_shopee]) and logs a
    warning for each, logs no error, never reads the clock, creates the
    table when it is missing, keeps the rows and the file as they were, and
    ends with the warning that no products were scraped. *)
Theorem scrape_all_offline (keywords : list string) (limit : Z) (w : World) :
  exists w',
    scrape_all keywords limit w = (Ok tt, w') /\
    w_db w' = Some (match w_db w with Some rows => rows | None => [] end) /\
    w_csv w' = w_csv w /\
    w_io w' = (w_io w ++ [DbCreateTable])%list /\
    w_ticks w' = w_ticks w /\
    w_requests w' = (w_requests w + 4 * List.length keywords)%nat /\
    count_level ERROR (w_log w') = count_level ERROR (w_log w) /\
    count_level WARNING (w_log w') =
      (count_level WARNING (w_log w) + 4 * List.length keywords + 1)%nat /\
    exists before,
      w_log w' =
        (before ++ [LogRecord WARNING "No products were scraped."])%list.
Proof.
  unfold scrape_all, scrape_all_with. unfold bind at 1. cbn [create_tables].
  unfold bind at 1.
  match goal with
  | |- context [scrape_keywords _ _ _ keywords limit [] ?w0] =>
      destruct (scrape_keywords_offline keywords limit w0)
        as [w1 [Hrun [Hdb [Hcsv [Hio [Ht [Hr [He Hw]]]]]]]]
  end.
  rewrite Hrun. cbn [log]. eexists. split; [reflexivity |].
  cbn [w_db w_csv w_io w_ticks w_requests w_log set_log set_db add_io] in *.
  rewrite count_level_app, count_level_app. cbn.
  repeat split; try assumption; try lia.
  exists (w_log w1). reflexivity.
Qed.

End Offline.

(** Without keywords [scrape_all] creates the table when it is missing,
    logs the warning that no products were scraped, and returns. *)
Lemma scrape_all_without_keywords (limit : Z) (w : World) :
  scrape_all [] limit w =
    (Ok tt,
     mkWorld (w_log w ++ [LogRecord WARNING "No products were scraped."])
       (w_requests w) (w_ticks w)
       (Some (match w_db w with Some rows => rows | None => [] end))
       (w_csv w) (w_io w ++ [DbCreateTable])).
Proof. reflexivity. Qed.

(** *** The requests of a run *)

Lemma parse_shopee_requests (query : string) (n : Z) (w : World) :
  w_requests (snd (parse_shopee query n w)) = S (w_requests w) \/
  w_requests (snd (parse_shopee query n w)) = S (S (w_requests w)).
Proof.
  pose proof (parse_shopee_cases query n w) as H. cbv zeta in H.
  destruct (rbind (shopee_api_items _) _) as [[| f fs] | e].
  - right. apply H.
  - left. rewrite H. unfold advance. cbn. lia.
  - left. apply H.
Qed.

Lemma settle_requests (label kw : string)
    (run : result (list Product) * World) :
  w_requests (settle label kw run) = w_requests (snd run).
Proof. unfold settle. now destruct (fst run). Qed.

Lemma parse_lazada_requests (query : string) (n : Z) (w : World) :
  w_requests (snd (parse_lazada query n w)) = S (w_requests w).
Proof. rewrite parse_lazada_exact. unfold advance. cbn. lia. Qed.

Lemma parse_jd_central_requests (query : string) (n : Z) (w : World) :
  w_requests (snd (parse_jd_central query n w)) = S (w_requests w).
Proof. rewrite parse_jd_central_exact. unfold advance. cbn. lia. Qed.

Lemma invocations_requests (keywords : list string) (limit : Z) (w : World) :
  let w' :=
    snd (invocations parse_shopee parse_lazada parse_jd_central keywords
           limit w) in
  (w_requests w + 3 * List.length keywords <= w_requests w' /\
   w_requests w' <= w_requests w + 4 * List.length keywords)%nat.
Proof.
  revert w. induction keywords as [| kw rest IH]; intros w.
  - cbn. lia.
  - cbn [invocations snd List.length]. cbv zeta.
    set (w0 := snd (log INFO _ w)).
    set (w1 := settle "Shopee" kw (parse_shopee kw limit w0)).
    set (w2 := settle "Lazada" kw (parse_lazada kw limit w1)).
    set (w3 := settle "JD Central" kw (parse_jd_central kw limit w2)).
    specialize (IH w3). cbv zeta in IH.
    assert (H0 : w_requests w0 = w_requests w) by reflexivity.
    assert (H1 : w_requests w1 = S (w_requests w0) \/
                 w_requests w1 = S (S (w_requests w0))).
    { unfold w1. rewrite settle_requests. apply parse_shopee_requests. }
    assert (H2 : w_requests w2 = S (w_requests w1)).
    { unfold w2. rewrite settle_requests. apply parse_lazada_requests. }
    assert (H3 : w_requests w3 = S (w_requests w2)).
    { unfold w3. rewrite settle_requests. apply parse_jd_central_requests. }
    lia.
Qed.

(** X8. A run of [scrape_all] makes three requests per keyword at least and
    four at most, whatever the pages contain and whether or not adapters
    or the insert raise: one by [parse_lazada], one by [parse_jd_central],
    and one or two by [parse_shopee], which asks for the search page only
    when the API gave it no record. Without keywords there is no request
    at all. *)
Theorem scrape_all_request_budget (keywords : list string) (limit : Z)
    (w : World) :
  let w' := snd (scrape_all keywords limit w) in
  (w_requests w + 3 * List.length keywords <= w_requests w' /\
   w_requests w' <= w_requests w + 4 * List.length keywords)%nat.
Proof.
  cbv zeta.
  destruct (scrape_all_with_isolates parse_shopee parse_lazada
              parse_jd_central parse_shopee_quiet parse_lazada_quiet
              parse_jd_central_quiet keywords limit w)
    as [_ [_ [_ [_ [_ [_ [Heq _]]]]]]].
  change (scrape_all_with parse_shopee parse_lazada parse_jd_central)
    with scrape_all in Heq.
  rewrite Heq.
  pose proof (invocations_requests keywords limit (snd (create_tables w)))
    as Hreq. cbv zeta in Hreq. cbn [create_tables snd] in *.
  set (runs := invocations _ _ _ keywords limit _) in *.
  change (w_requests (add_io (set_db w _) DbCreateTable))
    with (w_requests w) in Hreq.
  assert (Hsame : forall c : M unit,
             (forall x, w_requests (snd (c x)) = w_requests x) ->
             w_requests (snd (c (snd runs))) = w_requests (snd runs))
    by (intros c Hc; apply Hc).
  destruct (successes (fst runs)) as [| p ps].
  - cbn [log snd w_requests set_log]. exact Hreq.
  - unfold bind, save_to_db.
    destruct (w_db (snd runs)); [| exact Hreq].
    destruct (bind_rows _); [| exact Hreq].
    cbn [save_to_csv snd w_requests add_io set_csv set_db]. exact Hreq.
Qed.

(** *** When the store refuses the records *)


End Runs.

(** The theorem for two result cards out of three. *)
Lemma shopee_fallback_respects_cap_witness :
  exists ps w',
    @parse_shopee cards_runtime "phone" 2 empty_world = (Ok ps, w') /\
    map name ps = [VStr "Phone H1"; VStr "Phone H2"] /\
    Z.of_nat (List.length ps) <= 2 /\
    Forall
      (fun p =>
         marketplace p = "Shopee" /\ is_str (name p) = true /\
         is_float (price p) = true /\ currency p = VStr "THB" /\
         specs p = [("unknown", VStr "unknown")] /\
         sales p = VNone /\ rating p = VNone)
      ps.
Proof.
  set (run := @parse_shopee cards_runtime "phone" 2 empty_world).
  exists (match fst run with Ok ps => ps | Raise _ => [] end), (snd run).
  assert (E : run = (Ok (match fst run with Ok ps => ps | Raise _ => [] end),
                     snd run)) by (vm_compute; reflexivity).
  split; [exact E | split; [vm_compute; reflexivity |]].
  destruct (@shopee_fallback_respects_cap cards_runtime "phone" 2 empty_world
              _ _ E eq_refl) as [Hcap Hall].
  split; [apply Hcap; lia | exact Hall].
Defined.

(** The theorem for two keywords. *)
Lemma scrape_all_offline_witness :
  exists w',
    @scrape_all offline_runtime ["phone"; "tablet"] 10 empty_world =
      (Ok tt, w') /\
    w_db w' = Some [] /\ w_csv w' = EmptyString /\
    w_io w' = [DbCreateTable] /\ w_requests w' = 8%nat /\
    count_level ERROR (w_log w') = 0%nat.
Proof.
  destruct (@scrape_all_offline offline_runtime (fun _ _ => eq_refl)
              ["phone"; "tablet"] 10 empty_world)
    as [w' [Hrun [Hdb [Hcsv [Hio [_ [Hreq [Herr _]]]]]]]].
  exists w'. repeat split; assumption.
Defined.


(** ** Batches and appends *)

Section Batches.
Context {R : Runtime}.



Lemma concat_cons (x : string) (l : list string) :
  String.concat EmptyString (x :: l) = x ++ String.concat EmptyString l.
Proof. destruct l; [cbn; now rewrite append_nil_r | reflexivity]. Qed.

Lemma csv_rows_app (a b : list Product) :
  csv_rows (a ++ b) = csv_rows a ++ csv_rows b.
Proof.
  unfold csv_rows. induction a as [| p a IH]; [reflexivity |].
  rewrite <- app_comm_cons. cbn [map]. rewrite !concat_cons, IH.
  now rewrite append_assoc.
Qed.

(** X11. [save_to_csv] only ever appends, and two exports one after the
    other leave the file that one export of all the records leaves: the
    header is written by the first of them at most, and only into a file
    that was empty. *)
Theorem save_to_csv_appends_compose (first second : list Product) (w : World) :
  (exists written,
     w_csv (snd (save_to_csv first w)) = w_csv w ++ written) /\
  w_csv (snd ((save_to_csv first ;; save_to_csv second) w)) =
    w_csv (snd (save_to_csv (first ++ second) w)).
Proof.
  split.
  - eexists. reflexivity.
  - unfold bind. cbn [save_to_csv fst snd w_csv set_csv add_io].
    rewrite csv_rows_app.
    destruct (String.length (w_csv w) =? 0)%nat eqn:Hlen.
    + apply Nat.eqb_eq in Hlen.
      destruct (w_csv w); [| discriminate]. cbn [append].
      unfold csv_header at 2. rewrite csv_line_not_empty. cbn [append].
      now rewrite !append_assoc.
    + assert (Hne : (String.length
                       (w_csv w ++ EmptyString ++ csv_rows first) =? 0)%nat
                    = false).
      { destruct (w_csv w); [discriminate | reflexivity]. }
      rewrite Hne. cbn [append]. now rewrite !append_assoc.
Qed.

End Batches.



(** ** The order of the keys and of the timestamps *)

Section Orders.










(** *** The group keys *)












(** *** The rows of a group *)

Lemma insert_row_perm (r : Row) (s : list Row) :
  Permutation (r :: s) (insert_row r s).
Proof.
  induction s as [| r' s IH]; cbn [insert_row]; [reflexivity |].
  destruct (String.leb _ _); [reflexivity |].
  rewrite perm_swap. now constructor.
Qed.

Lemma sort_values_perm (l : list Row) : Permutation l (sort_values l).
Proof.
  induction l as [| r l IH]; [constructor |].
  cbn [sort_values fold_right]. rewrite <- insert_row_perm.
  now constructor.
Qed.








End Orders.


(** ** What the detector reports *)

Section Reports.





Lemma last_window_one {A} (l : list A) (x : A) (rest : list A) :
  rev l = x :: rest -> skipn (List.length l - 1) l = [x].
Proof.
  intros Hrev.
  assert (Hl : l = (rev rest ++ [x])%list).
  { rewrite <- (rev_involutive l), Hrev. reflexivity. }
  subst l. rewrite length_app, skipn_app. cbn [List.length].
  replace (List.length (rev rest) + 1 - 1)%nat
    with (List.length (rev rest)) by lia.
  now rewrite skipn_all, Nat.sub_diag.
Qed.

(** X14. With a window of 1 the rolling mean of the latest observation is
    its own price, so its drop is zero (or NaN): whatever the prices in the
    store, no positive threshold reports anything. *)
Theorem detect_window_one_flags_nothing (w : World) (rows : list Row)
    (threshold : float) :
  w_db w = Some rows ->
  Forall (fun r => Float.valid (price_of r) = true) rows ->
  Float.ltb Float.zero threshold = true ->
  detect_price_anomalies 1 threshold w = (Ok [], w).
Proof.
  intros Hdb Hvalid Ht. unfold detect_price_anomalies. rewrite Hdb.
  f_equal. unfold detect_in. destruct rows as [| r0 rows0] eqn:Hrows;
    [reflexivity |].
  rewrite <- Hrows in *. clear Hrows r0 rows0.
  destruct (Z.ltb_spec 1 1) as [Hlt | _]; [lia |].
  f_equal. change (Z.to_nat 1) with 1%nat.
  induction (group_keys rows) as [| k keys IH]; [reflexivity |].
  cbn [flat_map]. rewrite IH, app_nil_r. unfold check_group.
  destruct (rev (sort_values (group_of k rows))) as [| latest rest] eqn:Hrev;
    [reflexivity |].
  unfold last_window.
  rewrite (last_window_one (map price_of (sort_values (group_of k rows)))
             (price_of latest) (map price_of rest))
    by (now rewrite <- map_rev, Hrev).
  assert (Hv : Float.valid (price_of latest) = true).
  { rewrite Forall_forall in Hvalid. apply Hvalid.
    assert (Hin : In latest (sort_values (group_of k rows))).
    { apply in_rev. rewrite Hrev. now left. }
    apply (Permutation_in _ (Permutation_sym (sort_values_perm _))) in Hin.
    unfold group_of in Hin. now apply filter_In in Hin. }
  now rewrite (single_price_drop _ _ Hv Ht).
Qed.

End Reports.



(** The theorem on [dropping_series], whose last price is 40% below the
    others. *)
Lemma detect_window_one_flags_nothing_witness :
  detect_price_anomalies 1 (ratio 5 100) (store_of dropping_series) =
    (Ok [], store_of dropping_series).
Proof.
  apply (detect_window_one_flags_nothing (store_of dropping_series)
           dropping_series (ratio 5 100) eq_refl).
  - repeat constructor.
  - reflexivity.
Defined.


(** ** Stored timestamps sort by date *)

Section Chronology.
Context {R : Runtime}.







End Chronology.



(** ** The export keeps its cells apart *)

Section Quoting.
Context {R : Runtime}.

Lemma needs_quotes_cons (c : ascii) (s : string) :
  needs_quotes (String c s) = is_special c || needs_quotes s.
Proof. reflexivity. Qed.

Lemma dquote_special : is_special Json.dquote = true.
Proof. reflexivity. Qed.

(** Two cells written without quotes. *)
Lemma plain_unique (x y ra rb : string) :
  needs_quotes x = false -> needs_quotes y = false ->
  closes ra = true -> closes rb = true ->
  x ++ ra = y ++ rb -> x = y /\ ra = rb.
Proof.
  revert y. induction x as [| c x IH]; intros [| d y] Hx Hy Ha Hb H;
    cbn [append] in H.
  - now split.
  - exfalso. subst ra. cbn [closes] in Ha. rewrite needs_quotes_cons in Hy.
    apply orb_false_iff in Hy. destruct Hy as [Hd _].
    now rewrite Hd in Ha.
  - exfalso. subst rb. cbn [closes] in Hb. rewrite needs_quotes_cons in Hx.
    apply orb_false_iff in Hx. destruct Hx as [Hc _].
    now rewrite Hc in Hb.
  - injection H as -> H. rewrite needs_quotes_cons in Hx, Hy.
    apply orb_false_iff in Hx, Hy.
    destruct (IH y (proj2 Hx) (proj2 Hy) Ha Hb H) as [-> ->]. now split.
Qed.

Lemma closes_not_quote (r : string) :
  closes (String Json.dquote r) = false.
Proof. reflexivity. Qed.

(** Two cells written between quotes, after the opening quote. *)
Lemma doubled_unique (x y ra rb : string) :
  closes ra = true -> closes rb = true ->
  double_quotes x ++ String Json.dquote ra =
    double_quotes y ++ String Json.dquote rb ->
  x = y /\ ra = rb.
Proof.
  intros Ha Hb. revert y.
  induction x as [| c x IH]; intros [| d y] H; cbn [double_quotes append] in H.
  - injection H as ->. now split.
  - exfalso. destruct (Ascii.eqb_spec d Json.dquote) as [-> | Hd];
      cbn [append] in H.
    + injection H as ->. now rewrite closes_not_quote in Ha.
    + injection H as E _. congruence.
  - exfalso. destruct (Ascii.eqb_spec c Json.dquote) as [-> | Hc];
      cbn [append] in H.
    + injection H as <-. now rewrite closes_not_quote in Hb.
    + injection H as E _. congruence.
  - destruct (Ascii.eqb_spec c Json.dquote) as [-> | Hc],
             (Ascii.eqb_spec d Json.dquote) as [-> | Hd]; cbn [append] in H.
    + injection H as H. destruct (IH y H) as [-> ->]. now split.
    + exfalso. injection H as E _. congruence.
    + exfalso. injection H as E _. congruence.
    + injection H as -> H. destruct (IH y H) as [-> ->]. now split.
Qed.

Lemma plain_starts (x rest : string) :
  needs_quotes x = false -> closes rest = true ->
  forall tail, x ++ rest <> String Json.dquote tail.
Proof.
  intros Hx Hr tail H. destruct x as [| c x]; cbn [append] in H.
  - subst rest. now rewrite closes_not_quote in Hr.
  - injection H as -> _. rewrite needs_quotes_cons, dquote_special in Hx.
    discriminate.
Qed.

(** A cell, quoted or not, is told apart from what follows it. *)
Lemma quote_unique (x y ra rb : string) :
  closes ra = true -> closes rb = true ->
  csv_quote x ++ ra = csv_quote y ++ rb -> x = y /\ ra = rb.
Proof.
  intros Ha Hb. unfold csv_quote.
  destruct (needs_quotes x) eqn:Hx, (needs_quotes y) eqn:Hy; intros H.
  - cbn [append] in H. rewrite !append_assoc in H. cbn [append] in H.
    injection H as H. now apply doubled_unique.
  - exfalso. cbn [append] in H. symmetry in H.
    now apply (plain_starts y rb Hy Hb) in H.
  - exfalso. cbn [append] in H.
    now apply (plain_starts x ra Hx Ha) in H.
  - now apply plain_unique.
Qed.

Lemma line_unique (a b : list string) :
  List.length a = List.length b ->
  csv_line a = csv_line b -> a = b.
Proof.
  unfold csv_line. revert b.
  induction a as [| x a IH]; intros [| y b] Hlen H; try discriminate Hlen.
  - reflexivity.
  - injection Hlen as Hlen.
    destruct a as [| x2 a], b as [| y2 b]; try discriminate Hlen.
    + cbn [map Json.join] in H.
      destruct (quote_unique x y crlf crlf eq_refl eq_refl H) as [-> _].
      reflexivity.
    + change (Json.join "," (map csv_quote (x :: x2 :: a)))
        with (csv_quote x ++ "," ++ Json.join "," (map csv_quote (x2 :: a)))
        in H.
      change (Json.join "," (map csv_quote (y :: y2 :: b)))
        with (csv_quote y ++ "," ++ Json.join "," (map csv_quote (y2 :: b)))
        in H.
      rewrite !append_assoc in H.
      destruct (quote_unique x y
                  ("," ++ Json.join "," (map csv_quote (x2 :: a)) ++ crlf)
                  ("," ++ Json.join "," (map csv_quote (y2 :: b)) ++ crlf)
                  eq_refl eq_refl H) as [-> Hrest].
      f_equal. apply IH; [exact Hlen |].
      cbn [append] in Hrest. injection Hrest as Hrest. exact Hrest.
Qed.

(** X16. The quoting of the export keeps the cells apart: whatever commas,
    quotes and line breaks the names and the specs contain, two records
    are written as the same line only when each of the eight cells of one
    is the text of the same cell of the other. *)
Theorem csv_row_keeps_cells (p q : Product) :
  csv_row p = csv_row q -> csv_cells p = csv_cells q.
Proof. intros H. now apply line_unique. Qed.

End Quoting.

(** The theorem for two records that differ in the name, absent in the
    one and empty in the other: one line, and the same cells. *)
Lemma csv_row_keeps_cells_witness :
  @csv_row demo_runtime unnamed = @csv_row demo_runtime empty_named /\
  @csv_cells demo_runtime unnamed = @csv_cells demo_runtime empty_named /\
  nth 5 (@csv_cells demo_runtime unnamed) EmptyString =
    "{" ++ String Json.dquote "brand" ++ String Json.dquote ": "
    ++ String Json.dquote "Acme, Inc." ++ String Json.dquote "}".
Proof.
  split; [reflexivity | split].
  - exact (@csv_row_keeps_cells demo_runtime unnamed empty_named eq_refl).
  - reflexivity.
Defined.


(** ** The alert bot *)

Section BotFacts.
Import Bot.
Context {T : BotRuntime}.

Lemma only_talked_trans (a b c : BotWorld) :
  only_talked a b -> only_talked b c -> only_talked a c.
Proof.
  unfold only_talked. intros [A1 [A2 [A3 [A4 A5]]]] [B1 [B2 [B3 [B4 B5]]]].
  repeat split; congruence.
Qed.

Lemma send_spec (message : string) (bw : BotWorld) :
  exists bw',
    send_telegram_message message bw = (Ok tt, bw') /\
    only_talked bw bw' /\ b_sleeps bw' = b_sleeps bw /\
    b_posts bw' =
      (b_posts bw ++
       if configured
       then [mkPost telegram_url (telegram_payload message)
               (http_post (List.length (b_posts bw)) telegram_url
                  (telegram_payload message))]
       else [])%list /\
    w_log (b_world bw') =
      (w_log (b_world bw) ++
       if configured
       then if http_post (List.length (b_posts bw)) telegram_url
                 (telegram_payload message)
            then []
            else [LogRecord ERROR "Failed to send Telegram message"]
       else [LogRecord WARNING
               "Telegram token or chat ID not set; skipping message."])%list.
Proof.
  unfold send_telegram_message, configured.
  destruct (unset telegram_token || unset chat_id); cbn [negb].
  - eexists. split; [reflexivity |]. cbn. rewrite app_nil_r.
    repeat split.
  - cbv zeta.
    destruct (http_post (List.length (b_posts bw)) telegram_url
                (telegram_payload message)).
    + eexists. split; [reflexivity |]. cbn. rewrite app_nil_r. repeat split.
    + eexists. split; [reflexivity |]. cbn. repeat split.
Qed.

(** X17. [send_telegram_message] never raises and touches nothing but the
    log and the network. Without a token or a chat id (unset or empty) it
    posts nothing and logs a warning. With both it makes one POST, to the
    URL of the bot, that carries the chat id, the message and the Markdown
    mode; when the POST fails it logs an error and returns all the same. *)
Theorem send_telegram_message_never_raises (message : string) (bw : BotWorld) :
  exists bw',
    send_telegram_message message bw = (Ok tt, bw') /\
    only_talked bw bw' /\ b_sleeps bw' = b_sleeps bw /\
    b_posts bw' =
      (b_posts bw ++
       if configured
       then [mkPost telegram_url (telegram_payload message)
               (http_post (List.length (b_posts bw)) telegram_url
                  (telegram_payload message))]
       else [])%list /\
    w_log (b_world bw') =
      (w_log (b_world bw) ++
       if configured
       then if http_post (List.length (b_posts bw)) telegram_url
                 (telegram_payload message)
            then []
            else [LogRecord ERROR "Failed to send Telegram message"]
       else [LogRecord WARNING
               "Telegram token or chat ID not set; skipping message."])%list.
Proof. exact (send_spec message bw). Qed.

(** A loop that sends one message for each element. *)
Lemma for_each_send {A} (message : A -> string) (xs : list A) (bw : BotWorld) :
  exists bw' posts,
    for_each xs (fun x => send_telegram_message (message x)) bw = (Ok tt, bw') /\
    only_talked bw bw' /\ b_sleeps bw' = b_sleeps bw /\
    b_posts bw' = (b_posts bw ++ posts)%list /\
    map text_sent posts = (if configured then map message xs else []) /\
    Forall (fun p => post_url p = telegram_url) posts.
Proof.
  revert bw. induction xs as [| x xs IH]; intros bw.
  - exists bw, []. cbn. rewrite app_nil_r. repeat split.
    + now destruct configured.
    + constructor.
  - cbn [for_each]. unfold bbind.
    destruct (send_spec (message x) bw) as [bw1 [-> [Hf1 [Hs1 [Hp1 _]]]]].
    destruct (IH bw1) as [bw' [posts [-> [Hf [Hs [Hp [Ht Hu]]]]]]].
    eexists bw', _. split; [reflexivity |].
    split; [now apply only_talked_trans with bw1 |].
    split; [congruence |].
    split; [rewrite Hp, Hp1, <- app_assoc; reflexivity |].
    destruct configured; cbn [app map].
    + rewrite Ht. split; [reflexivity |]. constructor; [reflexivity | exact Hu].
    + split; assumption.
Qed.

Lemma detect_in_returns (rows : list Row) (window : Z) (t : float) :
  1 <= window -> exists found, detect_in rows window t = Ok found.
Proof.
  intros Hw. unfold detect_in. destruct rows; [eexists; reflexivity |].
  destruct (Z.ltb_spec window 1); [lia | eexists; reflexivity].
Qed.

Lemma check_price_drop_spec (bw : BotWorld) :
  match w_db (b_world bw) with
  | None => check_price_drop bw = (Raise OperationalError, bw)
  | Some rows =>
      exists anomalies bw' posts,
        detect_in rows 5 five_percent = Ok anomalies /\
        check_price_drop bw = (Ok tt, bw') /\
        only_talked bw bw' /\ b_sleeps bw' = b_sleeps bw /\
        b_posts bw' = (b_posts bw ++ posts)%list /\
        map text_sent posts =
          (if configured then map price_drop_message anomalies else []) /\
        Forall (fun p => post_url p = telegram_url) posts
  end.
Proof.
  unfold check_price_drop, bbind, engine, detect_price_anomalies.
  destruct (w_db (b_world bw)) as [rows |] eqn:Hdb; cbn [fst snd].
  - destruct (detect_in_returns rows 5 five_percent) as [anomalies Hd]; [lia |].
    rewrite Hd.
    destruct (for_each_send price_drop_message anomalies
                (mkBotWorld (b_world bw) (b_posts bw) (b_sleeps bw)))
      as [bw' [posts [Hrun H]]].
    exists anomalies, bw', posts. split; [reflexivity |].
    split; [exact Hrun | exact H].
  - destruct bw. reflexivity.
Qed.


Lemma in_set_In (x : string) (s : list string) :
  in_set x s = true <-> In x s.
Proof.
  unfold in_set. rewrite existsb_exists. split.
  - intros [y [Hy E]]. apply String.eqb_eq in E. now subst.
  - intros H. exists x. split; [exact H | apply String.eqb_refl].
Qed.

Lemma difference_self (s : list string) : difference s s = [].
Proof.
  unfold difference.
  assert (H : forall l, (forall x, In x l -> In x s) ->
                        filter (fun x => negb (in_set x s)) l = []).
  { induction l as [| x l IH]; intros Hl; [reflexivity |].
    cbn [filter]. rewrite (proj2 (in_set_In x s)) by (apply Hl; now left).
    cbn [negb]. apply IH. intros y Hy. apply Hl. now right. }
  apply H. auto.
Qed.

Lemma difference_In (a b : list string) (x : string) :
  In x (difference a b) <-> In x a /\ ~ In x b.
Proof.
  unfold difference. rewrite filter_In, negb_true_iff.
  split; intros [H1 H2]; (split; [exact H1 |]).
  - intros Hin. apply in_set_In in Hin. congruence.
  - destruct (in_set x b) eqn:E; [| reflexivity].
    exfalso. apply H2. now apply in_set_In.
Qed.

Lemma append_cancel (p a b : string) : p ++ a = p ++ b -> a = b.
Proof.
  induction p as [| c p IH]; cbn [append]; intros H; [exact H |].
  injection H as H. now apply IH.
Qed.

Lemma new_product_message_inj (x y : string) :
  new_product_message x = new_product_message y -> x = y.
Proof.
  unfold new_product_message. intros H.
  now repeat apply append_cancel in H.
Qed.

Lemma check_new_listings_spec (seen : list string) (bw : BotWorld) :
  match w_db (b_world bw) with
  | None => check_new_listings seen bw = (Raise OperationalError, bw)
  | Some rows =>
      let current := nodup string_dec (map row_name rows) in
      exists bw' posts,
        check_new_listings seen bw = (Ok current, bw') /\
        only_talked bw bw' /\ b_sleeps bw' = b_sleeps bw /\
        b_posts bw' = (b_posts bw ++ posts)%list /\
        map text_sent posts =
          (if configured
           then map new_product_message (set_order (difference current seen))
           else [])
  end.
Proof.
  unfold check_new_listings, bbind, select_distinct_names.
  destruct (w_db (b_world bw)) as [rows |]; [| reflexivity].
  cbv zeta.
  destruct (for_each_send new_product_message
              (set_order (difference (nodup string_dec (map row_name rows)) seen))
              bw) as [bw' [posts [-> [Hf [Hs [Hp [Ht _]]]]]]].
  exists bw', posts. repeat split; try assumption; apply Hf.
Qed.

(** X19. With the table in place, [check_new_listings] returns the set of
    the names in the store, whatever set it was given, and writes nothing
    to the store. With credentials it posts one message for each name of
    the store that is not in the set it was given, and for no other; called
    again with the set it returned, on the same store, it posts nothing. *)
Theorem check_new_listings_alerts_unseen (seen : list string) (bw : BotWorld)
    (rows : list Row) :
  w_db (b_world bw) = Some rows ->
  configured = true ->
  exists current bw' posts,
    check_new_listings seen bw = (Ok current, bw') /\
    NoDup current /\
    (forall x, In x current <-> In x (map row_name rows)) /\
    only_talked bw bw' /\
    b_posts bw' = (b_posts bw ++ posts)%list /\
    Permutation (map text_sent posts)
      (map new_product_message (difference current seen)) /\
    (forall x, In (new_product_message x) (map text_sent posts) <->
               In x (map row_name rows) /\ ~ In x seen) /\
    exists bw'',
      check_new_listings current bw' = (Ok current, bw'') /\
      b_posts bw'' = b_posts bw'.
Proof.
  intros Hdb Hcfg. pose proof (check_new_listings_spec seen bw) as H.
  rewrite Hdb in H. cbv zeta in H.
  destruct H as [bw' [posts [Hrun [Hf [Hs [Hp Ht]]]]]]. rewrite Hcfg in Ht.
  set (current := nodup string_dec (map row_name rows)) in *.
  exists current, bw', posts.
  split; [exact Hrun |].
  split; [apply NoDup_nodup |].
  split; [intros x; apply nodup_In |].
  split; [exact Hf |].
  split; [exact Hp |].
  split; [rewrite Ht; apply Permutation_map, set_order_perm |].
  split.
  - intros x. rewrite Ht, in_map_iff. split.
    + intros [y [Hy Hin]]. apply new_product_message_inj in Hy. subst y.
      apply (Permutation_in _ (set_order_perm _)) in Hin.
      apply difference_In in Hin. destruct Hin as [Hc Hn].
      split; [now apply nodup_In in Hc | exact Hn].
    + intros [Hc Hn]. exists x. split; [reflexivity |].
      apply (Permutation_in _ (Permutation_sym (set_order_perm _))).
      apply difference_In. split; [now apply nodup_In | exact Hn].
  - pose proof (check_new_listings_spec current bw') as H2.
    destruct Hf as [Hdb' _]. rewrite Hdb', Hdb in H2. cbv zeta in H2.
    fold current in H2.
    destruct H2 as [bw'' [posts2 [Hrun2 [_ [_ [Hp2 Ht2]]]]]].
    rewrite Hcfg, difference_self in Ht2.
    assert (Hnil : set_order [] = []).
    { apply Permutation_nil, Permutation_sym, set_order_perm. }
    rewrite Hnil in Ht2. cbn [map] in Ht2. apply map_eq_nil in Ht2. subst posts2.
    exists bw''. split; [exact Hrun2 |]. now rewrite Hp2, app_nil_r.
Qed.

Lemma check_reviews_inert (bw : BotWorld) : check_reviews bw = (Ok tt, bw).
Proof. reflexivity. Qed.

Lemma analyse_sentiment_from (texts : list string) (start : Z) :
  fold_left
    (fun negative_word_count text =>
       negative_word_count
       + Z.of_nat (List.length (filter is_negative (str_split (str_lower text)))))
    texts start = start + analyse_sentiment texts.
Proof.
  unfold analyse_sentiment. revert start.
  induction texts as [| t texts IH]; intros start; cbn [fold_left]; [lia |].
  rewrite IH. rewrite (IH (0 + _)). lia.
Qed.

(** X20. The review alert is never sent: the reviews come from a stub that
    returns none, so [check_reviews] returns without a message and leaves
    everything as it was. The count itself adds up over the texts and is
    never negative. *)
Theorem check_reviews_never_alerts :
  (forall bw : BotWorld, check_reviews bw = (Ok tt, bw)) /\
  (forall a b : list string,
      analyse_sentiment (a ++ b) = analyse_sentiment a + analyse_sentiment b) /\
  (forall texts : list string, 0 <= analyse_sentiment texts).
Proof.
  split; [exact check_reviews_inert | split].
  - intros a b. unfold analyse_sentiment at 1. rewrite fold_left_app.
    apply analyse_sentiment_from.
  - induction texts as [| t texts IH]; [reflexivity |].
    unfold analyse_sentiment. cbn [fold_left].
    rewrite analyse_sentiment_from. lia.
Qed.

(** X21. A round of the loop never raises, sleeps once, and writes nothing
    to the store. On a missing table the first check raises, the round logs
    one error, posts nothing and keeps the set of names it had. With the
    table in place the round returns the set of the names in the store. By
    contrast the first read of [main] is outside the [try]: on a missing
    table [main] raises before its first round. *)
Theorem iteration_never_raises (seen : list string) (bw : BotWorld) :
  (exists seen' bw',
     iteration seen bw = (Ok seen', bw') /\
     only_talked bw bw' /\
     b_sleeps bw' = S (b_sleeps bw) /\
     match w_db (b_world bw) with
     | None =>
         seen' = seen /\ b_posts bw' = b_posts bw /\
         w_log (b_world bw') =
           (w_log (b_world bw)
            ++ [LogRecord ERROR "Error in bot loop: OperationalError"])%list
     | Some rows => seen' = nodup string_dec (map row_name rows)
     end) /\
  (forall iterations,
      w_db (b_world bw) = None ->
      main iterations bw = (Raise OperationalError, bw)).
Proof.
  split.
  - unfold iteration, bbind at 1, btry, bbind at 1.
    pose proof (check_price_drop_spec bw) as H1.
    destruct (w_db (b_world bw)) as [rows |] eqn:Hdb.
    + destruct H1 as [anomalies [bw1 [posts1 [_ [-> [Hf1 [Hs1 _]]]]]]].
      unfold bbind at 1. rewrite check_reviews_inert.
      pose proof (check_new_listings_spec seen bw1) as H2.
      destruct Hf1 as [Hdb1 Hrest1]. rewrite Hdb1, Hdb in H2. cbv zeta in H2.
      destruct H2 as [bw2 [posts2 [-> [Hf2 [Hs2 _]]]]].
      unfold bbind, sleep, bret. eexists _, _. split; [reflexivity |].
      cbn [b_world b_sleeps]. split; [| split; [congruence | reflexivity]].
      apply only_talked_trans with bw1; [now split |].
      exact Hf2.
    + rewrite H1. unfold bbind, logging, sleep, bret. cbn [log snd].
      eexists _, _. split; [reflexivity |]. cbn. repeat split.
  - intros iterations Hdb. unfold main, bbind, select_distinct_names.
    now rewrite Hdb.
Qed.


Lemma detect_in_single_observations (rows : list Row) (window : Z)
    (t : float) :
  (forall key, (List.length (group_of key rows) <= 1)%nat) ->
  Forall (fun r => Float.valid (price_of r) = true) rows ->
  Float.ltb Float.zero t = true ->
  1 <= window ->
  detect_in rows window t = Ok [].
Proof.
  intros Hone Hvalid Ht Hw. unfold detect_in.
  destruct rows as [| r0 rows0] eqn:Hrows; [reflexivity |].
  rewrite <- Hrows in *. clear Hrows r0 rows0.
  destruct (Z.ltb_spec window 1); [lia |]. f_equal.
  induction (group_keys rows) as [| k keys IH]; [reflexivity |].
  cbn [flat_map]. rewrite IH, app_nil_r.
  specialize (Hone k).
  assert (Hsub : forall r, In r (group_of k rows) -> In r rows).
  { intros r Hr. unfold group_of in Hr. now apply filter_In in Hr. }
  destruct (group_of k rows) as [| r [| r' rest]]; [reflexivity | |].
  - apply check_group_single; [| exact Ht].
    rewrite Forall_forall in Hvalid. apply Hvalid, Hsub. now left.
  - cbn in Hone. lia.
Qed.

(** X22. A price alert needs history: on a store in which every series has
    one observation, [check_price_drop] returns without posting. *)
Theorem no_alert_without_history (bw : BotWorld) (rows : list Row) :
  w_db (b_world bw) = Some rows ->
  (forall key, (List.length (group_of key rows) <= 1)%nat) ->
  Forall (fun r => Float.valid (price_of r) = true) rows ->
  exists bw',
    check_price_drop bw = (Ok tt, bw') /\
    b_posts bw' = b_posts bw /\ only_talked bw bw'.
Proof.
  intros Hdb Hone Hvalid. pose proof (check_price_drop_spec bw) as H.
  rewrite Hdb in H.
  destruct H as [anomalies [bw' [posts [Hd [Hrun [Hf [_ [Hp [Ht _]]]]]]]]].
  rewrite (detect_in_single_observations rows 5 five_percent Hone Hvalid
             eq_refl) in Hd by lia.
  injection Hd as <-. exists bw'. split; [exact Hrun |]. split; [| exact Hf].
  assert (posts = []) as ->.
  { destruct configured; cbn [map] in Ht; now apply map_eq_nil in Ht. }
  now rewrite Hp, app_nil_r.
Qed.

End BotFacts.

(** The theorem on [mixed_store] for a bot that has seen the phone: one
    message, about the tablet. *)
Lemma check_new_listings_alerts_unseen_witness :
  exists current bw',
    @Bot.check_new_listings Bot.demo_bot ["Phone"]
      (Bot.bot_on (store_of mixed_store)) = (Ok current, bw') /\
    current = ["Phone"; "Tablet"] /\
    map Bot.text_sent (Bot.b_posts bw') =
      [@Bot.new_product_message "Tablet"] /\
    exists bw'',
      @Bot.check_new_listings Bot.demo_bot current bw' = (Ok current, bw'') /\
      Bot.b_posts bw'' = Bot.b_posts bw'.
Proof.
  destruct (@check_new_listings_alerts_unseen Bot.demo_bot ["Phone"]
              (Bot.bot_on (store_of mixed_store)) mixed_store eq_refl eq_refl)
    as [current [bw' [posts [Hrun [_ [_ [_ [_ [_ [_ Hagain]]]]]]]]]].
  exists current, bw'. split; [exact Hrun |].
  assert (Hc : current = ["Phone"; "Tablet"]).
  { vm_compute in Hrun. now injection Hrun as <- _. }
  split; [exact Hc |]. split; [| exact Hagain].
  vm_compute in Hrun. injection Hrun as _ <-. reflexivity.
Defined.

(** The theorem on a store with one observation of the phone. *)
Lemma no_alert_without_history_witness :
  exists bw',
    @Bot.check_price_drop Bot.demo_bot
      (Bot.bot_on (store_of [observation "2025-01-01T08:00:00" 1000])) =
      (Ok tt, bw') /\
    Bot.b_posts bw' = [].
Proof.
  destruct (@no_alert_without_history Bot.demo_bot
              (Bot.bot_on (store_of [observation "2025-01-01T08:00:00" 1000]))
              [observation "2025-01-01T08:00:00" 1000] eq_refl)
    as [bw' [Hrun [Hposts _]]].
  - intros key. cbn [group_of filter].
    destruct (key_eqb _ key); cbn; lia.
  - repeat constructor.
  - exists bw'. split; assumption.
Defined.

(** The bot on [dropping_series]: one alert, for the phone. *)
Lemma check_price_drop_example :
  exists bw',
    @Bot.check_price_drop Bot.demo_bot
      (Bot.bot_on (store_of dropping_series)) = (Ok tt, bw') /\
    map Bot.text_sent (Bot.b_posts bw') =
      [@Bot.price_drop_message Bot.demo_bot
         (mkAnomaly "Shopee" "Phone" (Float.of_Z 600) (Float.of_Z 920)
            (Float.div (Float.sub (Float.of_Z 920) (Float.of_Z 600))
               (Float.of_Z 920)))] /\
    map Bot.delivered (Bot.b_posts bw') = [true].
Proof. eexists. vm_compute. repeat split. Qed.

(** Without a token the same check posts nothing and logs a warning. *)
Lemma check_price_drop_mute_example :
  exists bw',
    @Bot.check_price_drop Bot.mute_bot
      (Bot.bot_on (store_of dropping_series)) = (Ok tt, bw') /\
    Bot.b_posts bw' = [] /\
    w_log (Bot.b_world bw') =
      [LogRecord WARNING
         "Telegram token or chat ID not set; skipping message."].
Proof. eexists. vm_compute. repeat split. Qed.
